(** * Centrifuge controller: a shallow embedding of [GUI/centrifuge.py]

    The file follows the Python module top to bottom:

    - [PyStr]     the [str] methods the module calls ([strip], [split],
                  [startswith]) and the built-in [int];
    - [PyRuntime] what the interpreter and the toolkit provide and the module
                  only uses: binary floating point and the notification
                  policy of a [ttk.Scale] bound to a variable;
    - [HotplateClient], [CentrifugeGUI]: the two classes, as records, with
                  their methods written in a state-and-exception monad whose
                  state survives a raised exception, as attribute writes do in
                  Python;
    - [step]      the Tk main loop and the reader thread as an event-driven
                  transition function;
    - [Console]   the methods that print, on a console that can refuse a
                  text; [loop_step], the read loop cut between its test and
                  its put;
    - the properties of the specification, one section per topic.

    Text is a list of code points below 256 ([ascii]); lines carrying other
    code points are outside the model. *)

From Stdlib Require Import Ascii String List ZArith NArith Bool Lia Arith.
From Stdlib Require Import DecimalString.
Import ListNotations.

Set Implicit Arguments.
Local Open Scope Z_scope.
Local Open Scope list_scope.

(* ================================================================= *)
(** ** Python strings *)

Module PyStr.

Definition str := list ascii.

(** String literals of the source are written [L "..."]. *)
Definition L (s : string) : str := list_ascii_of_string s.

(** [str.isspace] for a single code point below 256: tab to carriage return,
    the four separators FS..US, space, NEL and the no-break space. *)
Definition isspace (c : ascii) : bool :=
  let n := N_of_ascii c in
  ((9 <=? n) && (n <=? 13) || (28 <=? n) && (n <=? 32)
   || (n =? 133) || (n =? 160))%N.

Fixpoint lstrip (s : str) : str :=
  match s with
  | c :: s' => if isspace c then lstrip s' else s
  | [] => []
  end.

Definition rstrip (s : str) : str := rev (lstrip (rev s)).

(** [s.strip()] *)
Definition strip (s : str) : str := lstrip (rstrip s).

(** [s.startswith(p)] *)
Fixpoint startswith (s p : str) : bool :=
  match p, s with
  | [], _ => true
  | a :: p', b :: s' => Ascii.eqb a b && startswith s' p'
  | _ :: _, [] => false
  end.

(** [s.split(sep)] for a one-character separator: every occurrence cuts,
    empty pieces are kept, the result is never empty. *)
Fixpoint split_on (sep : ascii) (s : str) : list str :=
  match s with
  | [] => [[]]
  | c :: s' =>
      if Ascii.eqb c sep then [] :: split_on sep s'
      else match split_on sep s' with
           | p :: ps => (c :: p) :: ps
           | [] => [[c]]
           end
  end.

(** [s.split(sep, 1)]: cut at the first occurrence only. *)
Fixpoint split_once (sep : ascii) (s : str) : list str :=
  match s with
  | [] => [[]]
  | c :: s' =>
      if Ascii.eqb c sep then [[]; s']
      else match split_once sep s' with
           | p :: ps => (c :: p) :: ps
           | [] => [[c]]
           end
  end.

(** [s.split()]: maximal runs of non-blank characters. [cur] is the run being
    read, most recent character first. *)
Fixpoint split_ws_from (cur : str) (s : str) : list str :=
  match s with
  | [] => match cur with [] => [] | _ => [rev cur] end
  | c :: s' =>
      if isspace c
      then match cur with
           | [] => split_ws_from [] s'
           | _ => rev cur :: split_ws_from [] s'
           end
      else split_ws_from (c :: cur) s'
  end.

Definition split_ws (s : str) : list str := split_ws_from [] s.

(** *** [int(s)] in base ten

    After an optional sign come decimal digits, single underscores allowed
    between two digits.  The module only calls [int] on text that went through
    [strip] or [split]; blanks are rejected like any other non-digit.  The
    interpreter's optional cap on the number of digits is not modelled. *)

Definition digit_value (c : ascii) : option Z :=
  let n := N_of_ascii c in
  if ((48 <=? n) && (n <=? 57))%N then Some (Z.of_N n - 48) else None.

(** [acc] is the value read so far, [prev_digit] tells whether the previous
    character was a digit (an underscore needs one on each side). *)
Fixpoint digits_from (acc : Z) (prev_digit : bool) (s : str) : option Z :=
  match s with
  | [] => if prev_digit then Some acc else None
  | c :: s' =>
      match digit_value c with
      | Some d => digits_from (10 * acc + d) true s'
      | None =>
          if Ascii.eqb c "_" && prev_digit then digits_from acc false s'
          else None
      end
  end.

Definition int_of_str (s : str) : option Z :=
  match s with
  | c :: s' =>
      if Ascii.eqb c "-" then option_map Z.opp (digits_from 0 false s')
      else if Ascii.eqb c "+" then digits_from 0 false s'
      else digits_from 0 false s
  | [] => None
  end.

(** [str(n)] for an [int]. *)
Definition str_of_Z (n : Z) : str := L (NilZero.string_of_int (Z.to_int n)).

End PyStr.
Import PyStr.


(* ================================================================= *)
(** ** The interpreter and the toolkit *)

(** The exceptions that the module can meet. *)
Inductive exn :=
| ValueError
| IndexError
| TypeError
| OverflowError
| OSError (msg : str).

Definition exn_eqb (a b : exn) : bool :=
  match a, b with
  | ValueError, ValueError | IndexError, IndexError
  | TypeError, TypeError | OverflowError, OverflowError => true
  | OSError _, OSError _ => true
  | _, _ => false
  end.

(** [str(e)] as it appears in [f"...{e}"]. *)
Definition exn_str (e : exn) : str :=
  match e with
  | ValueError => L "ValueError"
  | IndexError => L "list index out of range"
  | TypeError => L "TypeError"
  | OverflowError => L "OverflowError"
  | OSError msg => msg
  end.

(** The outcome of evaluating an expression or running a statement. *)
Inductive outcome (A : Type) :=
| Ok (a : A)
| Raise (e : exn).
Arguments Ok {A} a.
Arguments Raise {A} e.

(** What the module takes from the platform.  [F] is the type of Python
    floats.
    - [float_of_str s] is [float(s)]; [None] stands for [ValueError];
    - [float_of_int n] is [float(n)] (the overflow of integers beyond the
      float range is not modelled: the slider variable only ever holds slider
      positions and rounded floats);
    - [round_float x] is [round(x)]: an integer, or the exception raised for
      a NaN ([ValueError]) or an infinity ([OverflowError]);
    - [format_fixed n x] is [format(x, ".<n>f")];
    - [scale_notifies] tells whether writing the variable bound to the
      [ttk.Scale] makes the toolkit call the scale's [command]. *)
Class PyRuntime (F : Type) := {
  float_of_str : str -> option F;
  float_of_int : Z -> F;
  round_float : F -> outcome Z;
  format_fixed : nat -> F -> str;
  scale_notifies : bool
}.

(** Values that reach [float()] and [round()]: [current_sp_value] holds a float
    (from the device) or an int (from the Set button); the slider callback
    receives a string, or nothing. *)
Inductive pyval (F : Type) :=
| VNone
| VStr (s : str)
| VInt (n : Z)
| VFloat (x : F).
Arguments VNone {F}.
Arguments VStr {F} s.
Arguments VInt {F} n.
Arguments VFloat {F} x.

(* ================================================================= *)
(** ** The objects *)

(** A TCP socket as the client sees it: whether [close] was called on it and
    the messages written so far. *)
Record Socket := {
  sock_closed : bool;
  sock_sent : list str
}.

(** Where the reader thread of a client stands in [run]. *)
Inductive phase :=
| Started        (* [start()] was called, [run] has not begun *)
| Connecting     (* the first status message is out, [create_connection] pending *)
| Reading        (* inside the [for raw_line in self.sock_file] loop *)
| Finished.      (* the [finally] block has run *)

(** [class HotplateClient(threading.Thread)].  The two queues are the GUI's
    own objects and live in the GUI record below. [sock_file] is [Some true]
    once the file wrapper is closed. *)
Record HotplateClient := {
  host : str;
  port : Z;
  stop_event : bool;
  sock : option Socket;
  sock_file : option bool;
  pc : phase
}.

Inductive wstate := Normal | Disabled.

Inductive callback := CbPoll | CbRevert.

(** A pending [master.after] call: its identifier, the time it is due (ms) and
    the method to call. *)
Record timer := {
  t_id : nat;
  t_due : Z;
  t_cb : callback
}.

Inductive dialog_kind := ShowInfo | ShowWarning | ShowError.

Record dialog := {
  d_kind : dialog_kind;
  d_title : str;
  d_message : str
}.

(** The values of the locals [temp_val], [sp_val], [state_int] and [state_str]
    at the end of the [try] block of [_handle_device_line]. *)
Record StatusReading (F : Type) := {
  rpm : F;
  setpoint : F;
  stateCode : option Z;
  stateLabel : str
}.

(** [self.max_points], assigned once in [__init__]. *)
Definition max_points : nat := 300.

(* ================================================================= *)
(** ** [class CentrifugeGUI] *)

Section Model.

Context {F : Type} {RT : PyRuntime F}.

(** The object together with what it reaches: the queues, the Tk variables and
    widgets it creates, the event loop of [self.master], and the client
    objects.  [client] is a reference into [heap], so that the reader thread
    and the GUI act on one and the same [HotplateClient]. *)
Record CentrifugeGUI := {
  (* attributes set in [__init__] *)
  client : option nat;
  current_sp_value : pyval F;
  slider_revert_after_id : option nat;
  user_adjusting_slider : bool;
  ignore_slider_change : bool;
  temp_history : list F;
  sp_history : list F;
  sample_indices : list Z;
  sample_count : Z;
  incoming_queue : list str;
  status_queue : list str;
  (* Tk variables and widgets of [_build_widgets] *)
  host_var : str;
  port_var : str;
  temp_var : str;
  sp_var : str;
  state_var : str;
  sp_slider_label_var : str;
  sp_slider_var : Z;
  status_var : str;
  connect_button : wstate;
  disconnect_button : wstate;
  set_button : wstate;
  ax_xlim : Z * Z;
  ax_ylim : Z * Z;
  draws : nat;
  (* [self.master]: the pending [after] calls, the clock (ms), the next identifier *)
  timers : list timer;
  now : Z;
  next_after : nat;
  (* the rest of the process: client objects by address, message boxes shown,
     lines printed, exceptions that escaped a callback *)
  heap : list HotplateClient;
  dialogs : list dialog;
  stdout : list str;
  callback_errors : list exn
}.

(** Attribute assignment, one function per attribute. *)
Definition set_client (v : option nat) (g : CentrifugeGUI) : CentrifugeGUI :=
  {| client := v; current_sp_value := current_sp_value g;
     slider_revert_after_id := slider_revert_after_id g;
     user_adjusting_slider := user_adjusting_slider g;
     ignore_slider_change := ignore_slider_change g;
     temp_history := temp_history g; sp_history := sp_history g;
     sample_indices := sample_indices g; sample_count := sample_count g;
     incoming_queue := incoming_queue g; status_queue := status_queue g;
     host_var := host_var g; port_var := port_var g; temp_var := temp_var g;
     sp_var := sp_var g; state_var := state_var g;
     sp_slider_label_var := sp_slider_label_var g;
     sp_slider_var := sp_slider_var g; status_var := status_var g;
     connect_button := connect_button g;
     disconnect_button := disconnect_button g; set_button := set_button g;
     ax_xlim := ax_xlim g; ax_ylim := ax_ylim g; draws := draws g;
     timers := timers g; now := now g; next_after := next_after g;
     heap := heap g; dialogs := dialogs g; stdout := stdout g;
     callback_errors := callback_errors g |}.
Definition set_current_sp_value (v : pyval F) (g : CentrifugeGUI) : CentrifugeGUI :=
  {| client := client g; current_sp_value := v;
     slider_revert_after_id := slider_revert_after_id g;
     user_adjusting_slider := user_adjusting_slider g;
     ignore_slider_change := ignore_slider_change g;
     temp_history := temp_history g; sp_history := sp_history g;
     sample_indices := sample_indices g; sample_count := sample_count g;
     incoming_queue := incoming_queue g; status_queue := status_queue g;
     host_var := host_var g; port_var := port_var g; temp_var := temp_var g;
     sp_var := sp_var g; state_var := state_var g;
     sp_slider_label_var := sp_slider_label_var g;
     sp_slider_var := sp_slider_var g; status_var := status_var g;
     connect_button := connect_button g;
     disconnect_button := disconnect_button g; set_button := set_button g;
     ax_xlim := ax_xlim g; ax_ylim := ax_ylim g; draws := draws g;
     timers := timers g; now := now g; next_after := next_after g;
     heap := heap g; dialogs := dialogs g; stdout := stdout g;
     callback_errors := callback_errors g |}.
Definition set_slider_revert_after_id (v : option nat) (g : CentrifugeGUI) : CentrifugeGUI :=
  {| client := client g; current_sp_value := current_sp_value g;
     slider_revert_after_id := v;
     user_adjusting_slider := user_adjusting_slider g;
     ignore_slider_change := ignore_slider_change g;
     temp_history := temp_history g; sp_history := sp_history g;
     sample_indices := sample_indices g; sample_count := sample_count g;
     incoming_queue := incoming_queue g; status_queue := status_queue g;
     host_var := host_var g; port_var := port_var g; temp_var := temp_var g;
     sp_var := sp_var g; state_var := state_var g;
     sp_slider_label_var := sp_slider_label_var g;
     sp_slider_var := sp_slider_var g; status_var := status_var g;
     connect_button := connect_button g;
     disconnect_button := disconnect_button g; set_button := set_button g;
     ax_xlim := ax_xlim g; ax_ylim := ax_ylim g; draws := draws g;
     timers := timers g; now := now g; next_after := next_after g;
     heap := heap g; dialogs := dialogs g; stdout := stdout g;
     callback_errors := callback_errors g |}.
Definition set_user_adjusting_slider (v : bool) (g : CentrifugeGUI) : CentrifugeGUI :=
  {| client := client g; current_sp_value := current_sp_value g;
     slider_revert_after_id := slider_revert_after_id g;
     user_adjusting_slider := v;
     ignore_slider_change := ignore_slider_change g;
     temp_history := temp_history g; sp_history := sp_history g;
     sample_indices := sample_indices g; sample_count := sample_count g;
     incoming_queue := incoming_queue g; status_queue := status_queue g;
     host_var := host_var g; port_var := port_var g; temp_var := temp_var g;
     sp_var := sp_var g; state_var := state_var g;
     sp_slider_label_var := sp_slider_label_var g;
     sp_slider_var := sp_slider_var g; status_var := status_var g;
     connect_button := connect_button g;
     disconnect_button := disconnect_button g; set_button := set_button g;
     ax_xlim := ax_xlim g; ax_ylim := ax_ylim g; draws := draws g;
     timers := timers g; now := now g; next_after := next_after g;
     heap := heap g; dialogs := dialogs g; stdout := stdout g;
     callback_errors := callback_errors g |}.
Definition set_ignore_slider_change (v : bool) (g : CentrifugeGUI) : CentrifugeGUI :=
  {| client := client g; current_sp_value := current_sp_value g;
     slider_revert_after_id := slider_revert_after_id g;
     user_adjusting_slider := user_adjusting_slider g;
     ignore_slider_change := v; temp_history := temp_history g;
     sp_history := sp_history g; sample_indices := sample_indices g;
     sample_count := sample_count g; incoming_queue := incoming_queue g;
     status_queue := status_queue g; host_var := host_var g;
     port_var := port_var g; temp_var := temp_var g; sp_var := sp_var g;
     state_var := state_var g; sp_slider_label_var := sp_slider_label_var g;
     sp_slider_var := sp_slider_var g; status_var := status_var g;
     connect_button := connect_button g;
     disconnect_button := disconnect_button g; set_button := set_button g;
     ax_xlim := ax_xlim g; ax_ylim := ax_ylim g; draws := draws g;
     timers := timers g; now := now g; next_after := next_after g;
     heap := heap g; dialogs := dialogs g; stdout := stdout g;
     callback_errors := callback_errors g |}.
Definition set_temp_history (v : list F) (g : CentrifugeGUI) : CentrifugeGUI :=
  {| client := client g; current_sp_value := current_sp_value g;
     slider_revert_after_id := slider_revert_after_id g;
     user_adjusting_slider := user_adjusting_slider g;
     ignore_slider_change := ignore_slider_change g; temp_history := v;
     sp_history := sp_history g; sample_indices := sample_indices g;
     sample_count := sample_count g; incoming_queue := incoming_queue g;
     status_queue := status_queue g; host_var := host_var g;
     port_var := port_var g; temp_var := temp_var g; sp_var := sp_var g;
     state_var := state_var g; sp_slider_label_var := sp_slider_label_var g;
     sp_slider_var := sp_slider_var g; status_var := status_var g;
     connect_button := connect_button g;
     disconnect_button := disconnect_button g; set_button := set_button g;
     ax_xlim := ax_xlim g; ax_ylim := ax_ylim g; draws := draws g;
     timers := timers g; now := now g; next_after := next_after g;
     heap := heap g; dialogs := dialogs g; stdout := stdout g;
     callback_errors := callback_errors g |}.
Definition set_sp_history (v : list F) (g : CentrifugeGUI) : CentrifugeGUI :=
  {| client := client g; current_sp_value := current_sp_value g;
     slider_revert_after_id := slider_revert_after_id g;
     user_adjusting_slider := user_adjusting_slider g;
     ignore_slider_change := ignore_slider_change g;
     temp_history := temp_history g; sp_history := v;
     sample_indices := sample_indices g; sample_count := sample_count g;
     incoming_queue := incoming_queue g; status_queue := status_queue g;
     host_var := host_var g; port_var := port_var g; temp_var := temp_var g;
     sp_var := sp_var g; state_var := state_var g;
     sp_slider_label_var := sp_slider_label_var g;
     sp_slider_var := sp_slider_var g; status_var := status_var g;
     connect_button := connect_button g;
     disconnect_button := disconnect_button g; set_button := set_button g;
     ax_xlim := ax_xlim g; ax_ylim := ax_ylim g; draws := draws g;
     timers := timers g; now := now g; next_after := next_after g;
     heap := heap g; dialogs := dialogs g; stdout := stdout g;
     callback_errors := callback_errors g |}.
Definition set_sample_indices (v : list Z) (g : CentrifugeGUI) : CentrifugeGUI :=
  {| client := client g; current_sp_value := current_sp_value g;
     slider_revert_after_id := slider_revert_after_id g;
     user_adjusting_slider := user_adjusting_slider g;
     ignore_slider_change := ignore_slider_change g;
     temp_history := temp_history g; sp_history := sp_history g;
     sample_indices := v; sample_count := sample_count g;
     incoming_queue := incoming_queue g; status_queue := status_queue g;
     host_var := host_var g; port_var := port_var g; temp_var := temp_var g;
     sp_var := sp_var g; state_var := state_var g;
     sp_slider_label_var := sp_slider_label_var g;
     sp_slider_var := sp_slider_var g; status_var := status_var g;
     connect_button := connect_button g;
     disconnect_button := disconnect_button g; set_button := set_button g;
     ax_xlim := ax_xlim g; ax_ylim := ax_ylim g; draws := draws g;
     timers := timers g; now := now g; next_after := next_after g;
     heap := heap g; dialogs := dialogs g; stdout := stdout g;
     callback_errors := callback_errors g |}.
Definition set_sample_count (v : Z) (g : CentrifugeGUI) : CentrifugeGUI :=
  {| client := client g; current_sp_value := current_sp_value g;
     slider_revert_after_id := slider_revert_after_id g;
     user_adjusting_slider := user_adjusting_slider g;
     ignore_slider_change := ignore_slider_change g;
     temp_history := temp_history g; sp_history := sp_history g;
     sample_indices := sample_indices g; sample_count := v;
     incoming_queue := incoming_queue g; status_queue := status_queue g;
     host_var := host_var g; port_var := port_var g; temp_var := temp_var g;
     sp_var := sp_var g; state_var := state_var g;
     sp_slider_label_var := sp_slider_label_var g;
     sp_slider_var := sp_slider_var g; status_var := status_var g;
     connect_button := connect_button g;
     disconnect_button := disconnect_button g; set_button := set_button g;
     ax_xlim := ax_xlim g; ax_ylim := ax_ylim g; draws := draws g;
     timers := timers g; now := now g; next_after := next_after g;
     heap := heap g; dialogs := dialogs g; stdout := stdout g;
     callback_errors := callback_errors g |}.
Definition set_incoming_queue (v : list str) (g : CentrifugeGUI) : CentrifugeGUI :=
  {| client := client g; current_sp_value := current_sp_value g;
     slider_revert_after_id := slider_revert_after_id g;
     user_adjusting_slider := user_adjusting_slider g;
     ignore_slider_change := ignore_slider_change g;
     temp_history := temp_history g; sp_history := sp_history g;
     sample_indices := sample_indices g; sample_count := sample_count g;
     incoming_queue := v; status_queue := status_queue g;
     host_var := host_var g; port_var := port_var g; temp_var := temp_var g;
     sp_var := sp_var g; state_var := state_var g;
     sp_slider_label_var := sp_slider_label_var g;
     sp_slider_var := sp_slider_var g; status_var := status_var g;
     connect_button := connect_button g;
     disconnect_button := disconnect_button g; set_button := set_button g;
     ax_xlim := ax_xlim g; ax_ylim := ax_ylim g; draws := draws g;
     timers := timers g; now := now g; next_after := next_after g;
     heap := heap g; dialogs := dialogs g; stdout := stdout g;
     callback_errors := callback_errors g |}.
Definition set_status_queue (v : list str) (g : CentrifugeGUI) : CentrifugeGUI :=
  {| client := client g; current_sp_value := current_sp_value g;
     slider_revert_after_id := slider_revert_after_id g;
     user_adjusting_slider := user_adjusting_slider g;
     ignore_slider_change := ignore_slider_change g;
     temp_history := temp_history g; sp_history := sp_history g;
     sample_indices := sample_indices g; sample_count := sample_count g;
     incoming_queue := incoming_queue g; status_queue := v;
     host_var := host_var g; port_var := port_var g; temp_var := temp_var g;
     sp_var := sp_var g; state_var := state_var g;
     sp_slider_label_var := sp_slider_label_var g;
     sp_slider_var := sp_slider_var g; status_var := status_var g;
     connect_button := connect_button g;
     disconnect_button := disconnect_button g; set_button := set_button g;
     ax_xlim := ax_xlim g; ax_ylim := ax_ylim g; draws := draws g;
     timers := timers g; now := now g; next_after := next_after g;
     heap := heap g; dialogs := dialogs g; stdout := stdout g;
     callback_errors := callback_errors g |}.
Definition set_host_var (v : str) (g : CentrifugeGUI) : CentrifugeGUI :=
  {| client := client g; current_sp_value := current_sp_value g;
     slider_revert_after_id := slider_revert_after_id g;
     user_adjusting_slider := user_adjusting_slider g;
     ignore_slider_change := ignore_slider_change g;
     temp_history := temp_history g; sp_history := sp_history g;
     sample_indices := sample_indices g; sample_count := sample_count g;
     incoming_queue := incoming_queue g; status_queue := status_queue g;
     host_var := v; port_var := port_var g; temp_var := temp_var g;
     sp_var := sp_var g; state_var := state_var g;
     sp_slider_label_var := sp_slider_label_var g;
     sp_slider_var := sp_slider_var g; status_var := status_var g;
     connect_button := connect_button g;
     disconnect_button := disconnect_button g; set_button := set_button g;
     ax_xlim := ax_xlim g; ax_ylim := ax_ylim g; draws := draws g;
     timers := timers g; now := now g; next_after := next_after g;
     heap := heap g; dialogs := dialogs g; stdout := stdout g;
     callback_errors := callback_errors g |}.
Definition set_port_var (v : str) (g : CentrifugeGUI) : CentrifugeGUI :=
  {| client := client g; current_sp_value := current_sp_value g;
     slider_revert_after_id := slider_revert_after_id g;
     user_adjusting_slider := user_adjusting_slider g;
     ignore_slider_change := ignore_slider_change g;
     temp_history := temp_history g; sp_history := sp_history g;
     sample_indices := sample_indices g; sample_count := sample_count g;
     incoming_queue := incoming_queue g; status_queue := status_queue g;
     host_var := host_var g; port_var := v; temp_var := temp_var g;
     sp_var := sp_var g; state_var := state_var g;
     sp_slider_label_var := sp_slider_label_var g;
     sp_slider_var := sp_slider_var g; status_var := status_var g;
     connect_button := connect_button g;
     disconnect_button := disconnect_button g; set_button := set_button g;
     ax_xlim := ax_xlim g; ax_ylim := ax_ylim g; draws := draws g;
     timers := timers g; now := now g; next_after := next_after g;
     heap := heap g; dialogs := dialogs g; stdout := stdout g;
     callback_errors := callback_errors g |}.
Definition set_temp_var (v : str) (g : CentrifugeGUI) : CentrifugeGUI :=
  {| client := client g; current_sp_value := current_sp_value g;
     slider_revert_after_id := slider_revert_after_id g;
     user_adjusting_slider := user_adjusting_slider g;
     ignore_slider_change := ignore_slider_change g;
     temp_history := temp_history g; sp_history := sp_history g;
     sample_indices := sample_indices g; sample_count := sample_count g;
     incoming_queue := incoming_queue g; status_queue := status_queue g;
     host_var := host_var g; port_var := port_var g; temp_var := v;
     sp_var := sp_var g; state_var := state_var g;
     sp_slider_label_var := sp_slider_label_var g;
     sp_slider_var := sp_slider_var g; status_var := status_var g;
     connect_button := connect_button g;
     disconnect_button := disconnect_button g; set_button := set_button g;
     ax_xlim := ax_xlim g; ax_ylim := ax_ylim g; draws := draws g;
     timers := timers g; now := now g; next_after := next_after g;
     heap := heap g; dialogs := dialogs g; stdout := stdout g;
     callback_errors := callback_errors g |}.
Definition set_sp_var (v : str) (g : CentrifugeGUI) : CentrifugeGUI :=
  {| client := client g; current_sp_value := current_sp_value g;
     slider_revert_after_id := slider_revert_after_id g;
     user_adjusting_slider := user_adjusting_slider g;
     ignore_slider_change := ignore_slider_change g;
     temp_history := temp_history g; sp_history := sp_history g;
     sample_indices := sample_indices g; sample_count := sample_count g;
     incoming_queue := incoming_queue g; status_queue := status_queue g;
     host_var := host_var g; port_var := port_var g; temp_var := temp_var g;
     sp_var := v; state_var := state_var g;
     sp_slider_label_var := sp_slider_label_var g;
     sp_slider_var := sp_slider_var g; status_var := status_var g;
     connect_button := connect_button g;
     disconnect_button := disconnect_button g; set_button := set_button g;
     ax_xlim := ax_xlim g; ax_ylim := ax_ylim g; draws := draws g;
     timers := timers g; now := now g; next_after := next_after g;
     heap := heap g; dialogs := dialogs g; stdout := stdout g;
     callback_errors := callback_errors g |}.
Definition set_state_var (v : str) (g : CentrifugeGUI) : CentrifugeGUI :=
  {| client := client g; current_sp_value := current_sp_value g;
     slider_revert_after_id := slider_revert_after_id g;
     user_adjusting_slider := user_adjusting_slider g;
     ignore_slider_change := ignore_slider_change g;
     temp_history := temp_history g; sp_history := sp_history g;
     sample_indices := sample_indices g; sample_count := sample_count g;
     incoming_queue := incoming_queue g; status_queue := status_queue g;
     host_var := host_var g; port_var := port_var g; temp_var := temp_var g;
     sp_var := sp_var g; state_var := v;
     sp_slider_label_var := sp_slider_label_var g;
     sp_slider_var := sp_slider_var g; status_var := status_var g;
     connect_button := connect_button g;
     disconnect_button := disconnect_button g; set_button := set_button g;
     ax_xlim := ax_xlim g; ax_ylim := ax_ylim g; draws := draws g;
     timers := timers g; now := now g; next_after := next_after g;
     heap := heap g; dialogs := dialogs g; stdout := stdout g;
     callback_errors := callback_errors g |}.
Definition set_sp_slider_label_var (v : str) (g : CentrifugeGUI) : CentrifugeGUI :=
  {| client := client g; current_sp_value := current_sp_value g;
     slider_revert_after_id := slider_revert_after_id g;
     user_adjusting_slider := user_adjusting_slider g;
     ignore_slider_change := ignore_slider_change g;
     temp_history := temp_history g; sp_history := sp_history g;
     sample_indices := sample_indices g; sample_count := sample_count g;
     incoming_queue := incoming_queue g; status_queue := status_queue g;
     host_var := host_var g; port_var := port_var g; temp_var := temp_var g;
     sp_var := sp_var g; state_var := state_var g; sp_slider_label_var := v;
     sp_slider_var := sp_slider_var g; status_var := status_var g;
     connect_button := connect_button g;
     disconnect_button := disconnect_button g; set_button := set_button g;
     ax_xlim := ax_xlim g; ax_ylim := ax_ylim g; draws := draws g;
     timers := timers g; now := now g; next_after := next_after g;
     heap := heap g; dialogs := dialogs g; stdout := stdout g;
     callback_errors := callback_errors g |}.
Definition set_sp_slider_var (v : Z) (g : CentrifugeGUI) : CentrifugeGUI :=
  {| client := client g; current_sp_value := current_sp_value g;
     slider_revert_after_id := slider_revert_after_id g;
     user_adjusting_slider := user_adjusting_slider g;
     ignore_slider_change := ignore_slider_change g;
     temp_history := temp_history g; sp_history := sp_history g;
     sample_indices := sample_indices g; sample_count := sample_count g;
     incoming_queue := incoming_queue g; status_queue := status_queue g;
     host_var := host_var g; port_var := port_var g; temp_var := temp_var g;
     sp_var := sp_var g; state_var := state_var g;
     sp_slider_label_var := sp_slider_label_var g; sp_slider_var := v;
     status_var := status_var g; connect_button := connect_button g;
     disconnect_button := disconnect_button g; set_button := set_button g;
     ax_xlim := ax_xlim g; ax_ylim := ax_ylim g; draws := draws g;
     timers := timers g; now := now g; next_after := next_after g;
     heap := heap g; dialogs := dialogs g; stdout := stdout g;
     callback_errors := callback_errors g |}.
Definition set_status_var (v : str) (g : CentrifugeGUI) : CentrifugeGUI :=
  {| client := client g; current_sp_value := current_sp_value g;
     slider_revert_after_id := slider_revert_after_id g;
     user_adjusting_slider := user_adjusting_slider g;
     ignore_slider_change := ignore_slider_change g;
     temp_history := temp_history g; sp_history := sp_history g;
     sample_indices := sample_indices g; sample_count := sample_count g;
     incoming_queue := incoming_queue g; status_queue := status_queue g;
     host_var := host_var g; port_var := port_var g; temp_var := temp_var g;
     sp_var := sp_var g; state_var := state_var g;
     sp_slider_label_var := sp_slider_label_var g;
     sp_slider_var := sp_slider_var g; status_var := v;
     connect_button := connect_button g;
     disconnect_button := disconnect_button g; set_button := set_button g;
     ax_xlim := ax_xlim g; ax_ylim := ax_ylim g; draws := draws g;
     timers := timers g; now := now g; next_after := next_after g;
     heap := heap g; dialogs := dialogs g; stdout := stdout g;
     callback_errors := callback_errors g |}.
Definition set_connect_button (v : wstate) (g : CentrifugeGUI) : CentrifugeGUI :=
  {| client := client g; current_sp_value := current_sp_value g;
     slider_revert_after_id := slider_revert_after_id g;
     user_adjusting_slider := user_adjusting_slider g;
     ignore_slider_change := ignore_slider_change g;
     temp_history := temp_history g; sp_history := sp_history g;
     sample_indices := sample_indices g; sample_count := sample_count g;
     incoming_queue := incoming_queue g; status_queue := status_queue g;
     host_var := host_var g; port_var := port_var g; temp_var := temp_var g;
     sp_var := sp_var g; state_var := state_var g;
     sp_slider_label_var := sp_slider_label_var g;
     sp_slider_var := sp_slider_var g; status_var := status_var g;
     connect_button := v; disconnect_button := disconnect_button g;
     set_button := set_button g; ax_xlim := ax_xlim g; ax_ylim := ax_ylim g;
     draws := draws g; timers := timers g; now := now g;
     next_after := next_after g; heap := heap g; dialogs := dialogs g;
     stdout := stdout g; callback_errors := callback_errors g |}.
Definition set_disconnect_button (v : wstate) (g : CentrifugeGUI) : CentrifugeGUI :=
  {| client := client g; current_sp_value := current_sp_value g;
     slider_revert_after_id := slider_revert_after_id g;
     user_adjusting_slider := user_adjusting_slider g;
     ignore_slider_change := ignore_slider_change g;
     temp_history := temp_history g; sp_history := sp_history g;
     sample_indices := sample_indices g; sample_count := sample_count g;
     incoming_queue := incoming_queue g; status_queue := status_queue g;
     host_var := host_var g; port_var := port_var g; temp_var := temp_var g;
     sp_var := sp_var g; state_var := state_var g;
     sp_slider_label_var := sp_slider_label_var g;
     sp_slider_var := sp_slider_var g; status_var := status_var g;
     connect_button := connect_button g; disconnect_button := v;
     set_button := set_button g; ax_xlim := ax_xlim g; ax_ylim := ax_ylim g;
     draws := draws g; timers := timers g; now := now g;
     next_after := next_after g; heap := heap g; dialogs := dialogs g;
     stdout := stdout g; callback_errors := callback_errors g |}.
Definition set_set_button (v : wstate) (g : CentrifugeGUI) : CentrifugeGUI :=
  {| client := client g; current_sp_value := current_sp_value g;
     slider_revert_after_id := slider_revert_after_id g;
     user_adjusting_slider := user_adjusting_slider g;
     ignore_slider_change := ignore_slider_change g;
     temp_history := temp_history g; sp_history := sp_history g;
     sample_indices := sample_indices g; sample_count := sample_count g;
     incoming_queue := incoming_queue g; status_queue := status_queue g;
     host_var := host_var g; port_var := port_var g; temp_var := temp_var g;
     sp_var := sp_var g; state_var := state_var g;
     sp_slider_label_var := sp_slider_label_var g;
     sp_slider_var := sp_slider_var g; status_var := status_var g;
     connect_button := connect_button g;
     disconnect_button := disconnect_button g; set_button := v;
     ax_xlim := ax_xlim g; ax_ylim := ax_ylim g; draws := draws g;
     timers := timers g; now := now g; next_after := next_after g;
     heap := heap g; dialogs := dialogs g; stdout := stdout g;
     callback_errors := callback_errors g |}.
Definition set_ax_xlim (v : Z * Z) (g : CentrifugeGUI) : CentrifugeGUI :=
  {| client := client g; current_sp_value := current_sp_value g;
     slider_revert_after_id := slider_revert_after_id g;
     user_adjusting_slider := user_adjusting_slider g;
     ignore_slider_change := ignore_slider_change g;
     temp_history := temp_history g; sp_history := sp_history g;
     sample_indices := sample_indices g; sample_count := sample_count g;
     incoming_queue := incoming_queue g; status_queue := status_queue g;
     host_var := host_var g; port_var := port_var g; temp_var := temp_var g;
     sp_var := sp_var g; state_var := state_var g;
     sp_slider_label_var := sp_slider_label_var g;
     sp_slider_var := sp_slider_var g; status_var := status_var g;
     connect_button := connect_button g;
     disconnect_button := disconnect_button g; set_button := set_button g;
     ax_xlim := v; ax_ylim := ax_ylim g; draws := draws g; timers := timers g;
     now := now g; next_after := next_after g; heap := heap g;
     dialogs := dialogs g; stdout := stdout g;
     callback_errors := callback_errors g |}.
Definition set_ax_ylim (v : Z * Z) (g : CentrifugeGUI) : CentrifugeGUI :=
  {| client := client g; current_sp_value := current_sp_value g;
     slider_revert_after_id := slider_revert_after_id g;
     user_adjusting_slider := user_adjusting_slider g;
     ignore_slider_change := ignore_slider_change g;
     temp_history := temp_history g; sp_history := sp_history g;
     sample_indices := sample_indices g; sample_count := sample_count g;
     incoming_queue := incoming_queue g; status_queue := status_queue g;
     host_var := host_var g; port_var := port_var g; temp_var := temp_var g;
     sp_var := sp_var g; state_var := state_var g;
     sp_slider_label_var := sp_slider_label_var g;
     sp_slider_var := sp_slider_var g; status_var := status_var g;
     connect_button := connect_button g;
     disconnect_button := disconnect_button g; set_button := set_button g;
     ax_xlim := ax_xlim g; ax_ylim := v; draws := draws g; timers := timers g;
     now := now g; next_after := next_after g; heap := heap g;
     dialogs := dialogs g; stdout := stdout g;
     callback_errors := callback_errors g |}.
Definition set_draws (v : nat) (g : CentrifugeGUI) : CentrifugeGUI :=
  {| client := client g; current_sp_value := current_sp_value g;
     slider_revert_after_id := slider_revert_after_id g;
     user_adjusting_slider := user_adjusting_slider g;
     ignore_slider_change := ignore_slider_change g;
     temp_history := temp_history g; sp_history := sp_history g;
     sample_indices := sample_indices g; sample_count := sample_count g;
     incoming_queue := incoming_queue g; status_queue := status_queue g;
     host_var := host_var g; port_var := port_var g; temp_var := temp_var g;
     sp_var := sp_var g; state_var := state_var g;
     sp_slider_label_var := sp_slider_label_var g;
     sp_slider_var := sp_slider_var g; status_var := status_var g;
     connect_button := connect_button g;
     disconnect_button := disconnect_button g; set_button := set_button g;
     ax_xlim := ax_xlim g; ax_ylim := ax_ylim g; draws := v;
     timers := timers g; now := now g; next_after := next_after g;
     heap := heap g; dialogs := dialogs g; stdout := stdout g;
     callback_errors := callback_errors g |}.
Definition set_timers (v : list timer) (g : CentrifugeGUI) : CentrifugeGUI :=
  {| client := client g; current_sp_value := current_sp_value g;
     slider_revert_after_id := slider_revert_after_id g;
     user_adjusting_slider := user_adjusting_slider g;
     ignore_slider_change := ignore_slider_change g;
     temp_history := temp_history g; sp_history := sp_history g;
     sample_indices := sample_indices g; sample_count := sample_count g;
     incoming_queue := incoming_queue g; status_queue := status_queue g;
     host_var := host_var g; port_var := port_var g; temp_var := temp_var g;
     sp_var := sp_var g; state_var := state_var g;
     sp_slider_label_var := sp_slider_label_var g;
     sp_slider_var := sp_slider_var g; status_var := status_var g;
     connect_button := connect_button g;
     disconnect_button := disconnect_button g; set_button := set_button g;
     ax_xlim := ax_xlim g; ax_ylim := ax_ylim g; draws := draws g;
     timers := v; now := now g; next_after := next_after g; heap := heap g;
     dialogs := dialogs g; stdout := stdout g;
     callback_errors := callback_errors g |}.
Definition set_now (v : Z) (g : CentrifugeGUI) : CentrifugeGUI :=
  {| client := client g; current_sp_value := current_sp_value g;
     slider_revert_after_id := slider_revert_after_id g;
     user_adjusting_slider := user_adjusting_slider g;
     ignore_slider_change := ignore_slider_change g;
     temp_history := temp_history g; sp_history := sp_history g;
     sample_indices := sample_indices g; sample_count := sample_count g;
     incoming_queue := incoming_queue g; status_queue := status_queue g;
     host_var := host_var g; port_var := port_var g; temp_var := temp_var g;
     sp_var := sp_var g; state_var := state_var g;
     sp_slider_label_var := sp_slider_label_var g;
     sp_slider_var := sp_slider_var g; status_var := status_var g;
     connect_button := connect_button g;
     disconnect_button := disconnect_button g; set_button := set_button g;
     ax_xlim := ax_xlim g; ax_ylim := ax_ylim g; draws := draws g;
     timers := timers g; now := v; next_after := next_after g; heap := heap g;
     dialogs := dialogs g; stdout := stdout g;
     callback_errors := callback_errors g |}.
Definition set_next_after (v : nat) (g : CentrifugeGUI) : CentrifugeGUI :=
  {| client := client g; current_sp_value := current_sp_value g;
     slider_revert_after_id := slider_revert_after_id g;
     user_adjusting_slider := user_adjusting_slider g;
     ignore_slider_change := ignore_slider_change g;
     temp_history := temp_history g; sp_history := sp_history g;
     sample_indices := sample_indices g; sample_count := sample_count g;
     incoming_queue := incoming_queue g; status_queue := status_queue g;
     host_var := host_var g; port_var := port_var g; temp_var := temp_var g;
     sp_var := sp_var g; state_var := state_var g;
     sp_slider_label_var := sp_slider_label_var g;
     sp_slider_var := sp_slider_var g; status_var := status_var g;
     connect_button := connect_button g;
     disconnect_button := disconnect_button g; set_button := set_button g;
     ax_xlim := ax_xlim g; ax_ylim := ax_ylim g; draws := draws g;
     timers := timers g; now := now g; next_after := v; heap := heap g;
     dialogs := dialogs g; stdout := stdout g;
     callback_errors := callback_errors g |}.
Definition set_heap (v : list HotplateClient) (g : CentrifugeGUI) : CentrifugeGUI :=
  {| client := client g; current_sp_value := current_sp_value g;
     slider_revert_after_id := slider_revert_after_id g;
     user_adjusting_slider := user_adjusting_slider g;
     ignore_slider_change := ignore_slider_change g;
     temp_history := temp_history g; sp_history := sp_history g;
     sample_indices := sample_indices g; sample_count := sample_count g;
     incoming_queue := incoming_queue g; status_queue := status_queue g;
     host_var := host_var g; port_var := port_var g; temp_var := temp_var g;
     sp_var := sp_var g; state_var := state_var g;
     sp_slider_label_var := sp_slider_label_var g;
     sp_slider_var := sp_slider_var g; status_var := status_var g;
     connect_button := connect_button g;
     disconnect_button := disconnect_button g; set_button := set_button g;
     ax_xlim := ax_xlim g; ax_ylim := ax_ylim g; draws := draws g;
     timers := timers g; now := now g; next_after := next_after g; heap := v;
     dialogs := dialogs g; stdout := stdout g;
     callback_errors := callback_errors g |}.
Definition set_dialogs (v : list dialog) (g : CentrifugeGUI) : CentrifugeGUI :=
  {| client := client g; current_sp_value := current_sp_value g;
     slider_revert_after_id := slider_revert_after_id g;
     user_adjusting_slider := user_adjusting_slider g;
     ignore_slider_change := ignore_slider_change g;
     temp_history := temp_history g; sp_history := sp_history g;
     sample_indices := sample_indices g; sample_count := sample_count g;
     incoming_queue := incoming_queue g; status_queue := status_queue g;
     host_var := host_var g; port_var := port_var g; temp_var := temp_var g;
     sp_var := sp_var g; state_var := state_var g;
     sp_slider_label_var := sp_slider_label_var g;
     sp_slider_var := sp_slider_var g; status_var := status_var g;
     connect_button := connect_button g;
     disconnect_button := disconnect_button g; set_button := set_button g;
     ax_xlim := ax_xlim g; ax_ylim := ax_ylim g; draws := draws g;
     timers := timers g; now := now g; next_after := next_after g;
     heap := heap g; dialogs := v; stdout := stdout g;
     callback_errors := callback_errors g |}.
Definition set_stdout (v : list str) (g : CentrifugeGUI) : CentrifugeGUI :=
  {| client := client g; current_sp_value := current_sp_value g;
     slider_revert_after_id := slider_revert_after_id g;
     user_adjusting_slider := user_adjusting_slider g;
     ignore_slider_change := ignore_slider_change g;
     temp_history := temp_history g; sp_history := sp_history g;
     sample_indices := sample_indices g; sample_count := sample_count g;
     incoming_queue := incoming_queue g; status_queue := status_queue g;
     host_var := host_var g; port_var := port_var g; temp_var := temp_var g;
     sp_var := sp_var g; state_var := state_var g;
     sp_slider_label_var := sp_slider_label_var g;
     sp_slider_var := sp_slider_var g; status_var := status_var g;
     connect_button := connect_button g;
     disconnect_button := disconnect_button g; set_button := set_button g;
     ax_xlim := ax_xlim g; ax_ylim := ax_ylim g; draws := draws g;
     timers := timers g; now := now g; next_after := next_after g;
     heap := heap g; dialogs := dialogs g; stdout := v;
     callback_errors := callback_errors g |}.
Definition set_callback_errors (v : list exn) (g : CentrifugeGUI) : CentrifugeGUI :=
  {| client := client g; current_sp_value := current_sp_value g;
     slider_revert_after_id := slider_revert_after_id g;
     user_adjusting_slider := user_adjusting_slider g;
     ignore_slider_change := ignore_slider_change g;
     temp_history := temp_history g; sp_history := sp_history g;
     sample_indices := sample_indices g; sample_count := sample_count g;
     incoming_queue := incoming_queue g; status_queue := status_queue g;
     host_var := host_var g; port_var := port_var g; temp_var := temp_var g;
     sp_var := sp_var g; state_var := state_var g;
     sp_slider_label_var := sp_slider_label_var g;
     sp_slider_var := sp_slider_var g; status_var := status_var g;
     connect_button := connect_button g;
     disconnect_button := disconnect_button g; set_button := set_button g;
     ax_xlim := ax_xlim g; ax_ylim := ax_ylim g; draws := draws g;
     timers := timers g; now := now g; next_after := next_after g;
     heap := heap g; dialogs := dialogs g; stdout := stdout g;
     callback_errors := v |}.

(** *** Statements: state and exceptions

    A method body maps the state before to an outcome and the state after.  A
    raised exception keeps every assignment made before it. *)
Definition M (A : Type) : Type := CentrifugeGUI -> outcome A * CentrifugeGUI.

Definition ret {A} (a : A) : M A := fun g => (Ok a, g).

Definition bind {A B} (m : M A) (k : A -> M B) : M B :=
  fun g => match m g with
           | (Ok a, g') => k a g'
           | (Raise e, g') => (Raise e, g')
           end.

Definition raise {A} (e : exn) : M A := fun g => (Raise e, g).

Definition lift {A} (o : outcome A) : M A := fun g => (o, g).

Definition gets {A} (f : CentrifugeGUI -> A) : M A := fun g => (Ok (f g), g).

Definition modify (f : CentrifugeGUI -> CentrifugeGUI) : M unit :=
  fun g => (Ok tt, f g).

(** [try: m  except <the exceptions accepted by catches> as e: h e] *)
Definition try_except {A} (m : M A) (catches : exn -> bool) (h : exn -> M A) : M A :=
  fun g => match m g with
           | (Ok a, g') => (Ok a, g')
           | (Raise e, g') => if catches e then h e g' else (Raise e, g')
           end.

Definition any_exception (e : exn) : bool := true.

Notation "x <- m ;; k" := (bind m (fun x => k))
  (at level 61, m at next level, right associativity).
Notation "m ;; k" := (bind m (fun _ => k))
  (at level 61, right associativity).

(** [l[i]] *)
Definition index {A} (l : list A) (i : nat) : M A :=
  match nth_error l i with
  | Some x => ret x
  | None => raise IndexError
  end.

(** [l.pop(0)], the popped element dropped. *)
Definition pop0 {A} (l : list A) : outcome (list A) :=
  match l with
  | _ :: l' => Ok l'
  | [] => Raise IndexError
  end.

(** [float(v)] *)
Definition py_float (v : pyval F) : outcome F :=
  match v with
  | VNone => Raise TypeError
  | VStr s => match float_of_str s with Some x => Ok x | None => Raise ValueError end
  | VInt n => Ok (float_of_int n)
  | VFloat x => Ok x
  end.

(** [int(round(v))]: [round] of an int is that int, of a float an int. *)
Definition py_round (v : pyval F) : outcome Z :=
  match v with
  | VNone | VStr _ => Raise TypeError
  | VInt n => Ok n
  | VFloat x => round_float x
  end.

(** [int(s)] *)
Definition py_int (s : str) : outcome Z :=
  match int_of_str s with
  | Some n => Ok n
  | None => Raise ValueError
  end.

Definition nl : str := ["010"%char].

(** *** The toolkit *)

(** [self.master.after(ms, cb)] *)
Definition after (ms : Z) (cb : callback) : M nat :=
  fun g =>
    let i := next_after g in
    (Ok i,
     set_next_after (S i)
       (set_timers (timers g ++ [{| t_id := i; t_due := now g + ms; t_cb := cb |}]) g)).

(** The pending calls without the one named [i], if there is one. *)
Definition cancel_timer (i : nat) (ts : list timer) : list timer :=
  filter (fun t => negb (Nat.eqb (t_id t) i)) ts.

(** [self.master.after_cancel(i)]: nothing happens when [i] is not pending. *)
Definition after_cancel (i : nat) : M unit :=
  modify (fun g => set_timers (cancel_timer i (timers g)) g).

Definition messagebox (k : dialog_kind) (title message : str) : M unit :=
  modify (fun g =>
    set_dialogs (dialogs g ++ [{| d_kind := k; d_title := title; d_message := message |}]) g).

(** [queue.put] on the status queue, from either thread. *)
Definition status_put (msg : str) : M unit :=
  modify (fun g => set_status_queue (status_queue g ++ [msg]) g).

Definition incoming_put (line : str) : M unit :=
  modify (fun g => set_incoming_queue (incoming_queue g ++ [line]) g).

(** *** [class HotplateClient] *)

Fixpoint update_nth {A} (i : nat) (f : A -> A) (l : list A) : list A :=
  match l, i with
  | [], _ => []
  | x :: l', O => f x :: l'
  | x :: l', S j => x :: update_nth j f l'
  end.

(** Assignment to attributes of the client object at address [i]. *)
Definition with_client (i : nat) (f : HotplateClient -> HotplateClient) : M unit :=
  modify (fun g => set_heap (update_nth i f (heap g)) g).

Definition deref (i : nat) : M HotplateClient :=
  fun g => match nth_error (heap g) i with
           | Some c => (Ok c, g)
           | None => (Raise TypeError, g)
           end.

Definition close_socket (s : Socket) : Socket :=
  {| sock_closed := true; sock_sent := sock_sent s |}.

(** [HotplateClient.close] *)
Definition close (i : nat) : M unit :=
  with_client i (fun c =>
    {| host := host c; port := port c;
       stop_event := true;
       sock := option_map close_socket (sock c);
       sock_file := option_map (fun _ => true) (sock_file c);
       pc := pc c |}).

(** [self.sock.sendall(msg)] on the client at [i], whose socket is [s].  On a
    closed socket the call raises; on an open one the operating system
    decides: [os = Some err] is a failed write. *)
Definition sendall (i : nat) (s : Socket) (msg : str) (os : option str) : M unit :=
  if sock_closed s then raise (OSError (L "[Errno 9] Bad file descriptor"))
  else match os with
       | Some err => raise (OSError err)
       | None =>
           with_client i (fun c =>
             {| host := host c; port := port c; stop_event := stop_event c;
                sock := Some {| sock_closed := false; sock_sent := sock_sent s ++ [msg] |};
                sock_file := sock_file c; pc := pc c |})
       end.

(** [HotplateClient.send_setpoint] *)
Definition send_setpoint (i : nat) (value : Z) (os : option str) : M unit :=
  try_except
    (c <- deref i ;;
     match sock c with
     | None => status_put (L "Not connected.")
     | Some s =>
         let msg := str_of_Z value ++ nl in
         sendall i s msg os ;;
         status_put (L "Sent setpoint: " ++ str_of_Z value)
     end)
    any_exception
    (fun e => status_put (L "Send error: " ++ exn_str e)).

(** [HotplateClient.run], cut at the points where the thread waits for the
    network.  [net_event] is what the network answers there.  A turn of the
    read loop is one step here; [loop_step] below cuts it between the test of
    the stop flag and the put. *)
Inductive net_event :=
| NetBegin                    (* the thread is scheduled for the first time *)
| NetConnected                (* [create_connection] returns a socket *)
| NetRefused (msg : str)      (* [create_connection] raises *)
| NetLine (raw : str)         (* the file iterator yields a line *)
| NetEOF                      (* the peer closed the stream *)
| NetError (msg : str).       (* reading raises *)

Definition set_pc (p : phase) (c : HotplateClient) : HotplateClient :=
  {| host := host c; port := port c; stop_event := stop_event c;
     sock := sock c; sock_file := sock_file c; pc := p |}.

(** The [finally] block of [run]. *)
Definition run_finally (i : nat) : M unit :=
  close i ;;
  status_put (L "Disconnected.") ;;
  with_client i (set_pc Finished).

Definition run_step (i : nat) (ev : net_event) : M unit :=
  c <- deref i ;;
  match pc c, ev with
  | Started, NetBegin =>
      status_put (L "Connecting to " ++ host c ++ L ":" ++ str_of_Z (port c) ++ L " ...") ;;
      with_client i (set_pc Connecting)
  | Connecting, NetConnected =>
      with_client i (fun c =>
        {| host := host c; port := port c; stop_event := stop_event c;
           sock := Some {| sock_closed := false; sock_sent := [] |};
           sock_file := Some false; pc := Reading |}) ;;
      status_put (L "Connected.")
  | Connecting, NetRefused msg =>
      status_put (L "Connection error: " ++ msg) ;;
      run_finally i
  | Reading, NetLine raw =>
      if stop_event c then run_finally i
      else
        let line := strip raw in
        match line with
        | [] => ret tt
        | _ => incoming_put line
        end
  | Reading, NetEOF => run_finally i
  | Reading, NetError msg =>
      status_put (L "Connection error: " ++ msg) ;;
      run_finally i
  | _, _ => ret tt
  end.

(** *** Methods of [CentrifugeGUI] *)

(** [on_connect] *)
Definition on_connect : M unit :=
  c <- gets client ;;
  match c with
  | Some _ =>
      messagebox ShowInfo (L "Already connected") (L "A connection is already active.")
  | None =>
      h <- gets host_var ;;
      p <- gets port_var ;;
      let host := strip h in
      let port_str := strip p in
      match int_of_str port_str with
      | None => messagebox ShowError (L "Invalid port") (L "Port must be an integer.")
      | Some port =>
          (* HotplateClient(...) followed by start() *)
          i <- gets (fun g => length (heap g)) ;;
          modify (fun g =>
            set_heap (heap g ++ [{| host := host; port := port; stop_event := false;
                                    sock := None; sock_file := None; pc := Started |}]) g) ;;
          modify (set_client (Some i)) ;;
          modify (set_connect_button Disabled) ;;
          modify (set_disconnect_button Normal) ;;
          modify (set_set_button Normal)
      end
  end.

(** [on_disconnect] *)
Definition on_disconnect : M unit :=
  c <- gets client ;;
  match c with
  | Some i => close i ;; modify (set_client None)
  | None => ret tt
  end ;;
  modify (set_connect_button Normal) ;;
  modify (set_disconnect_button Disabled) ;;
  modify (set_set_button Disabled) ;;
  modify (set_status_var (L "Disconnected.")).

(** [update_slider_label] *)
Definition update_slider_label (value : pyval F) : M unit :=
  r <- try_except (v <- lift (py_float value) ;; ret (Some v))
         (fun e => exn_eqb e TypeError || exn_eqb e ValueError)
         (fun _ => ret None) ;;
  match r with
  | None => modify (set_sp_slider_label_var (L "SP to set: -- RPM"))
  | Some v =>
      modify (set_sp_slider_label_var (L "SP to set: " ++ format_fixed 1 v ++ L " RPM"))
  end.

(** [on_slider_changed] *)
Definition on_slider_changed (value_str : pyval F) : M unit :=
  ign <- gets ignore_slider_change ;;
  if ign then ret tt
  else
    update_slider_label value_str ;;
    modify (set_user_adjusting_slider true) ;;
    t <- gets slider_revert_after_id ;;
    match t with
    | Some i => after_cancel i
    | None => ret tt
    end ;;
    i <- after 5000 CbRevert ;;
    modify (set_slider_revert_after_id (Some i)).

(** [self.sp_slider_var.set(n)]: the variable is written and, where the
    toolkit relays variable writes to the scale's [command], the callback
    runs, with the new value as text. *)
Definition sp_slider_var_set (n : Z) : M unit :=
  modify (set_sp_slider_var n) ;;
  if scale_notifies then on_slider_changed (VStr (str_of_Z n)) else ret tt.

(** [revert_slider_to_current_sp] *)
Definition revert_slider_to_current_sp : M unit :=
  modify (set_slider_revert_after_id None) ;;
  modify (set_user_adjusting_slider false) ;;
  sp <- gets current_sp_value ;;
  match sp with
  | VNone => ret tt
  | _ =>
      modify (set_ignore_slider_change true) ;;
      n <- lift (py_round sp) ;;
      sp_slider_var_set n ;;
      modify (set_ignore_slider_change false) ;;
      update_slider_label sp
  end.

(** [on_set_sp].  [os] is the answer of the operating system to the write, if
    one is attempted. *)
Definition on_set_sp (os : option str) : M unit :=
  c <- gets client ;;
  match c with
  | None =>
      messagebox ShowWarning (L "Not connected") (L "Connect to the centrifuge first.")
  | Some i =>
      pos <- gets sp_slider_var ;;
      value <- lift (py_round (VInt pos)) ;;
      send_setpoint i value os ;;
      modify (set_current_sp_value (VInt value)) ;;
      modify (set_sp_var (format_fixed 1 (float_of_int value) ++ L " C")) ;;
      update_slider_label (VInt value) ;;
      modify (set_user_adjusting_slider false) ;;
      t <- gets slider_revert_after_id ;;
      match t with
      | Some j =>
          after_cancel j ;;
          modify (set_slider_revert_after_id None)
      | None => ret tt
      end
  end.

(** [_update_plot] *)
Definition _update_plot : M unit :=
  idx <- gets sample_indices ;;
  match idx with
  | [] => ret tt
  | x :: xs =>
      let xmin := fold_right Z.min x xs in
      let xmax := fold_right Z.max x xs in
      modify (set_ax_xlim (Z.max 1 xmin, Z.max 20 xmax)) ;;
      modify (set_ax_ylim (0, 250)) ;;
      modify (fun g => set_draws (S (draws g)) g)
  end.

(** [_append_log], on a console that takes the text; [Console._append_log]
    below is the method on a console that can refuse it. *)
Definition _append_log (text : str) : M unit :=
  modify (fun g => set_stdout (stdout g ++ [text]) g).

(** The [try] block of [_handle_device_line], on the stripped line.  It
    returns [None] where the source returns early and the reading where it
    reaches the end of the block. *)
Definition device_line_try (line : str) : M (option (StatusReading F)) :=
  let parts := map strip (split_on "|" line) in
  if (length parts <? 3)%nat then ret None
  else
    temp_part <- index parts 0 ;;
    sp_part <- index parts 1 ;;
    state_part <- index parts 2 ;;
    (* Temp *)
    let temp_tokens := split_ws temp_part in
    tok <- index temp_tokens 1 ;;
    temp_val <- lift (py_float (VStr tok)) ;;
    modify (set_temp_var (format_fixed 2 temp_val ++ L " ")) ;;
    (* SP *)
    let sp_tokens := split_ws sp_part in
    tok <- index sp_tokens 1 ;;
    sp_val <- lift (py_float (VStr tok)) ;;
    modify (set_sp_var (format_fixed 1 sp_val ++ L " ")) ;;
    modify (set_current_sp_value (VFloat sp_val)) ;;
    adjusting <- gets user_adjusting_slider ;;
    sp <- gets current_sp_value ;;
    match adjusting, sp with
    | true, _ | _, VNone => ret tt
    | false, _ =>
        modify (set_ignore_slider_change true) ;;
        n <- lift (py_round sp) ;;
        sp_slider_var_set n ;;
        modify (set_ignore_slider_change false) ;;
        update_slider_label sp
    end ;;
    (* State *)
    let state_tokens := split_once ":" state_part in
    state_str <- (if (1 <? length state_tokens)%nat
                  then s <- index state_tokens 1 ;; ret (strip s)
                  else ret state_part) ;;
    modify (set_state_var state_str) ;;
    state_int <- try_except
                   (tok <- index (split_ws state_str) 0 ;;
                    n <- lift (py_int tok) ;;
                    ret (Some n))
                   (fun e => exn_eqb e ValueError)
                   (fun _ => ret None) ;;
    c <- gets client ;;
    match c, state_int with
    | Some _, Some 1 => modify (set_set_button Disabled)
    | Some _, Some 0 => modify (set_set_button Normal)
    | _, _ => ret tt
    end ;;
    (* histories *)
    modify (fun g => set_sample_count (sample_count g + 1) g) ;;
    modify (fun g => set_sample_indices (sample_indices g ++ [sample_count g]) g) ;;
    modify (fun g => set_temp_history (temp_history g ++ [temp_val]) g) ;;
    modify (fun g => set_sp_history (sp_history g ++ [sp_val]) g) ;;
    idx <- gets sample_indices ;;
    (if (max_points <? length idx)%nat
     then
       l <- gets sample_indices ;; l' <- lift (pop0 l) ;; modify (set_sample_indices l') ;;
       l <- gets temp_history ;; l' <- lift (pop0 l) ;; modify (set_temp_history l') ;;
       l <- gets sp_history ;; l' <- lift (pop0 l) ;; modify (set_sp_history l')
     else ret tt) ;;
    _update_plot ;;
    ret (Some {| rpm := temp_val; setpoint := sp_val;
                 stateCode := state_int; stateLabel := state_str |}).

(** [_handle_device_line], returning what [device_line_try] returned, or
    [None] when the line was not a status line or the block was left by an
    exception. *)
Definition handle_device_line_reading (line : str) : M (option (StatusReading F)) :=
  _append_log (line ++ nl) ;;
  let line := strip line in
  if negb (startswith line (L "RPM:")) then ret None
  else try_except (device_line_try line) any_exception (fun _ => ret None).

(** [_handle_device_line] *)
Definition _handle_device_line (line : str) : M unit :=
  handle_device_line_reading line ;; ret tt.

(** The two [while True: ... get_nowait()] loops of [_poll_queues].  Nothing
    called from the loops puts into the queue being drained, and a put of the
    reader thread is an event of its own, before or after the poll; so the
    length of the queue at entry bounds the number of turns. *)
Fixpoint drain_status (turns : nat) : M unit :=
  match turns with
  | O => ret tt
  | S n =>
      q <- gets status_queue ;;
      match q with
      | [] => ret tt
      | msg :: q' =>
          modify (set_status_queue q') ;;
          _append_log (msg ++ nl) ;;
          modify (set_status_var msg) ;;
          drain_status n
      end
  end.

Fixpoint drain_incoming (turns : nat) : M unit :=
  match turns with
  | O => ret tt
  | S n =>
      q <- gets incoming_queue ;;
      match q with
      | [] => ret tt
      | line :: q' =>
          modify (set_incoming_queue q') ;;
          _handle_device_line line ;;
          drain_incoming n
      end
  end.

(** [_poll_queues] *)
Definition _poll_queues : M unit :=
  n <- gets (fun g => length (status_queue g)) ;;
  drain_status n ;;
  m <- gets (fun g => length (incoming_queue g)) ;;
  drain_incoming m ;;
  after 100 CbPoll ;;
  ret tt.

(** The state built by [__init__] before [update_slider_label] and
    [_poll_queues] are called: attribute defaults, widget defaults, an idle
    event loop. *)
Definition widgets0 : CentrifugeGUI :=
  {| client := None; current_sp_value := VNone;
     slider_revert_after_id := None;
     user_adjusting_slider := false; ignore_slider_change := false;
     temp_history := []; sp_history := []; sample_indices := []; sample_count := 0;
     incoming_queue := []; status_queue := [];
     host_var := L "192.168.1.49"; port_var := str_of_Z 5000;
     temp_var := L "--.- RPM"; sp_var := L "--.- RPM"; state_var := L "--";
     sp_slider_label_var := L "SP to set: -- RPM";
     sp_slider_var := 25; status_var := L "Not connected.";
     connect_button := Normal; disconnect_button := Disabled; set_button := Disabled;
     ax_xlim := (0, 1); ax_ylim := (20, 70); draws := 1;
     timers := []; now := 0; next_after := O;
     heap := []; dialogs := []; stdout := []; callback_errors := [] |}.

(** [CentrifugeGUI(root)] *)
Definition init : CentrifugeGUI :=
  snd ((update_slider_label (VInt 25) ;; _poll_queues) widgets0).

(** *** The main loop *)

(** Tk runs a callback and reports an exception that escapes it; the loop goes
    on with the state as the callback left it. *)
Definition run_callback (m : M unit) (g : CentrifugeGUI) : CentrifugeGUI :=
  match m g with
  | (Ok _, g') => g'
  | (Raise e, g') => set_callback_errors (callback_errors g' ++ [e]) g'
  end.

Definition method_of (cb : callback) : M unit :=
  match cb with
  | CbPoll => _poll_queues
  | CbRevert => revert_slider_to_current_sp
  end.

(** What can happen next: the user acts on a widget, time passes, the loop
    runs a pending [after] call that is due, or a reader thread moves.
    [DragSlider pos value_str]: the user moves the slider; [pos] is what
    [sp_slider_var.get()] returns from then on and [value_str] the text the
    scale hands to its [command].  [ClickSet os]: [os] is the answer of the
    operating system should the click lead to a write.  A click on a disabled
    button does nothing.  Closing the window ends the loop and is no event. *)
Inductive event :=
| EditHost (s : str)
| EditPort (s : str)
| ClickConnect
| ClickDisconnect
| ClickSet (os : option str)
| DragSlider (pos : Z) (value_str : str)
| Elapse (ms : N)
| RunTimer (i : nat)
| Net (i : nat) (ev : net_event).

Definition enabled (w : wstate) : bool :=
  match w with Normal => true | Disabled => false end.

Definition step (g : CentrifugeGUI) (ev : event) : CentrifugeGUI :=
  match ev with
  | EditHost s => set_host_var s g
  | EditPort s => set_port_var s g
  | ClickConnect =>
      if enabled (connect_button g) then run_callback on_connect g else g
  | ClickDisconnect =>
      if enabled (disconnect_button g) then run_callback on_disconnect g else g
  | ClickSet os =>
      if enabled (set_button g) then run_callback (on_set_sp os) g else g
  | DragSlider pos value_str =>
      run_callback (on_slider_changed (VStr value_str)) (set_sp_slider_var pos g)
  | Elapse ms => set_now (now g + Z.of_N ms) g
  | RunTimer i =>
      match find (fun t => Nat.eqb (t_id t) i) (timers g) with
      | Some t =>
          if t_due t <=? now g
          then run_callback (method_of (t_cb t))
                 (set_timers (cancel_timer i (timers g)) g)
          else g
      | None => g
      end
  | Net i ev => snd (run_step i ev g)
  end.

Definition run_events (g : CentrifugeGUI) (evs : list event) : CentrifugeGUI :=
  fold_left step evs g.

Inductive reachable : CentrifugeGUI -> Prop :=
| reach_init : reachable init
| reach_step g ev : reachable g -> reachable (step g ev).

(** The revert timers that are pending. *)
Definition revert_timers (g : CentrifugeGUI) : list timer :=
  filter (fun t => match t_cb t with CbRevert => true | CbPoll => false end) (timers g).

End Model.

Arguments CentrifugeGUI F : clear implicits.
Arguments M F A : clear implicits.

(* ================================================================= *)
(** ** A runtime: IEEE 754 binary64, as in CPython

    Used to run the model on concrete lines.  A finite float is
    [(-1)^neg * m * 2^e] with [m < 2^53] and [-1074 <= e <= 971]. *)

Module B64.

Inductive b64 :=
| Fin (neg : bool) (m : N) (e : Z)
| Inf (neg : bool)
| NaN.

(** The integer nearest to [num / den] ([den > 0], [num >= 0]), ties to even. *)
Definition round_half_even (num den : Z) : Z :=
  let q := num / den in
  let r := num mod den in
  if (2 * r <? den) then q
  else if (den <? 2 * r) then q + 1
  else if Z.even q then q else q + 1.

(** [num / (den * 2^e)] as a fraction of integers. *)
Definition scaled (num den e : Z) : Z * Z :=
  if 0 <=? e then (num, den * 2 ^ e) else (num * 2 ^ (- e), den).

(** The binary64 value nearest to [num / den] ([num > 0], [den > 0]). *)
Definition of_ratio (neg : bool) (num den : Z) : b64 :=
  let e1 := Z.log2 num - Z.log2 den - 52 in
  let (n1, d1) := scaled num den e1 in
  let e2 := if n1 / d1 <? 2 ^ 52 then e1 - 1 else e1 in
  let e := Z.max e2 (-1074) in
  let (n, d) := scaled num den e in
  let q := round_half_even n d in
  let (m, e') := if q =? 2 ^ 53 then (2 ^ 52, e + 1) else (q, e) in
  if 971 <? e' then Inf neg
  else if m =? 0 then Fin neg 0 0
  else Fin neg (Z.to_N m) e'.

(** The value of the decimal [m * 10^e]. *)
Definition of_decimal (neg : bool) (m : Z) (e : Z) : b64 :=
  if m =? 0 then Fin neg 0 0
  else if 0 <=? e then of_ratio neg (m * 10 ^ e) 1
  else of_ratio neg m (10 ^ (- e)).

Definition of_int (n : Z) : b64 :=
  if n =? 0 then Fin false 0 0 else of_ratio (n <? 0) (Z.abs n) 1.

Definition lower (c : ascii) : ascii :=
  let n := N_of_ascii c in
  if ((65 <=? n) && (n <=? 90))%N then ascii_of_N (n + 32) else c.

Definition is_digit (c : ascii) : bool :=
  match digit_value c with Some _ => true | None => false end.

(** Underscores may only stand between two digits; they are removed before the
    number is read. [prev] is the previous character. *)
Fixpoint drop_underscores (prev : option ascii) (s : str) : option str :=
  match s with
  | [] => match prev with
          | Some p => if Ascii.eqb p "_" then None else Some []
          | None => Some []
          end
  | c :: s' =>
      let prev_digit := match prev with Some p => is_digit p | None => false end in
      let prev_under := match prev with Some p => Ascii.eqb p "_" | None => false end in
      if Ascii.eqb c "_"
      then if prev_digit then drop_underscores (Some c) s' else None
      else if prev_under && negb (is_digit c) then None
           else option_map (cons c) (drop_underscores (Some c) s')
  end.

(** Leading digits of [s]: their value, their number, and the rest. *)
Fixpoint read_digits (acc : Z) (count : Z) (s : str) : Z * Z * str :=
  match s with
  | c :: s' =>
      match digit_value c with
      | Some d => read_digits (10 * acc + d) (count + 1) s'
      | None => (acc, count, s)
      end
  | [] => (acc, count, s)
  end.

Definition read_sign (s : str) : bool * str :=
  match s with
  | c :: s' =>
      if Ascii.eqb c "-" then (true, s')
      else if Ascii.eqb c "+" then (false, s')
      else (false, s)
  | [] => (false, s)
  end.

(** The exponent part: nothing, or [e] or [E], an optional sign and at least
    one digit, up to the end of the text. *)
Definition read_exponent (s : str) : option Z :=
  match s with
  | [] => Some 0
  | c :: s' =>
      if Ascii.eqb (lower c) "e"
      then let (neg, s'') := read_sign s' in
           match read_digits 0 0 s'' with
           | (x, k, []) => if 0 <? k then Some (if neg then - x else x) else None
           | _ => None
           end
      else None
  end.

Definition str_eqb (a b : str) : bool :=
  if list_eq_dec ascii_dec a b then true else false.

Definition parse (s0 : str) : option b64 :=
  match drop_underscores None (strip s0) with
  | None => None
  | Some s =>
      let (neg, s1) := read_sign s in
      let word := map lower s1 in
      if str_eqb word (L "inf") || str_eqb word (L "infinity") then Some (Inf neg)
      else if str_eqb word (L "nan") then Some NaN
      else
        let '(ip, ni, s2) := read_digits 0 0 s1 in
        let '(fp, nf, s3) :=
          match s2 with
          | c :: s2' => if Ascii.eqb c "." then read_digits ip 0 s2' else (ip, 0, s2)
          | [] => (ip, 0, s2)
          end in
        if (ni + nf =? 0) then None
        else match read_exponent s3 with
             | Some x => Some (of_decimal neg fp (x - nf))
             | None => None
             end
  end.

(** [round(x)] *)
Definition round (x : b64) : outcome Z :=
  match x with
  | NaN => Raise ValueError
  | Inf _ => Raise OverflowError
  | Fin neg m e =>
      let (n, d) := scaled (Z.of_N m) 1 (- e) in
      let q := round_half_even n d in
      Ok (if neg then - q else q)
  end.

(** [width] decimal digits of [n], zero-padded on the left. *)
Fixpoint digits_padded (width : nat) (n : Z) : str :=
  match width with
  | O => []
  | S w => digits_padded w (n / 10) ++ [ascii_of_N (Z.to_N (48 + n mod 10))]
  end.

(** [format(x, ".<n>f")] *)
Definition format (n : nat) (x : b64) : str :=
  match x with
  | NaN => L "nan"
  | Inf neg => if neg then L "-inf" else L "inf"
  | Fin neg m e =>
      let p := 10 ^ Z.of_nat n in
      let (a, b) := scaled (Z.of_N m * p) 1 (- e) in
      let q := round_half_even a b in
      (if neg then L "-" else [])
      ++ str_of_Z (q / p)
      ++ match n with
         | O => []
         | _ => L "." ++ digits_padded n (q mod p)
         end
  end.

End B64.

(** The runtime, for either policy of the toolkit. *)
Definition CPython (relay : bool) : PyRuntime B64.b64 :=
  {| float_of_str := B64.parse;
     float_of_int := B64.of_int;
     round_float := B64.round;
     format_fixed := B64.format;
     scale_notifies := relay |}.

(** The runtime the examples run on: a toolkit that keeps variable writes to
    itself. *)
Definition cpython : PyRuntime B64.b64 := CPython false.

#[global] Existing Instance cpython.

(* ================================================================= *)
(** ** Notions used in the statements *)

Section Notions.

Context {F : Type} {RT : PyRuntime F}.

(** The setpoint-selection workflow of the specification, read off the
    attribute [user_adjusting_slider]. *)
Inductive workflow := Idle | Adjusting.

Definition workflow_of (g : CentrifugeGUI F) : workflow :=
  if user_adjusting_slider g then Adjusting else Idle.

(** A status line in the wire format, with its three variable parts. *)
Definition wire_line (a b rest : str) : str :=
  L "RPM: " ++ a ++ L " | SP: " ++ b ++ L " | STATE: " ++ rest.

(** A token: not empty, no blank, no bar. *)
Definition tokenb (s : str) : bool :=
  match s with
  | [] => false
  | _ => forallb (fun c => negb (isspace c) && negb (Ascii.eqb c "|")) s
  end.

Definition no_bar (s : str) : bool :=
  forallb (fun c => negb (Ascii.eqb c "|")) s.

(** A float that [round] accepts: neither a NaN nor an infinity. *)
Definition is_finite (x : F) : Prop := exists n, round_float x = Ok n.

(** A text with at least one token. *)
Definition has_token (s : str) : bool :=
  match split_ws s with [] => false | _ => true end.

(** The first blank-separated token of [s] read as an integer, if there is
    one and it reads as one. *)
Definition leading_int (s : str) : option Z :=
  match split_ws s with
  | tok :: _ => int_of_str tok
  | [] => None
  end.

(** What the three history lists hold after [n] accepted readings: the sample
    numbers of the last [max_points] of them. *)
Definition recent (n : nat) : list Z :=
  let k := Nat.min n max_points in
  map Z.of_nat (seq (S (n - k)) k).

(** Appending to a history list and evicting its oldest entry on overflow. *)
Definition push_bounded {A} (l : list A) (x : A) : list A :=
  if (max_points <? length (l ++ [x]))%nat then tl (l ++ [x]) else l ++ [x].

Record hist_ok (g : CentrifugeGUI F) : Prop := {
  hist_count : 0 <= sample_count g;
  hist_indices : sample_indices g = recent (Z.to_nat (sample_count g));
  hist_temp : length (temp_history g) = length (sample_indices g);
  hist_sp : length (sp_history g) = length (sample_indices g)
}.

(** Handing the lines of [lines] to the handler one after the other: the
    number of them that yielded a reading, and the state at the end. *)
Fixpoint feed (lines : list str) (g : CentrifugeGUI F) : nat * CentrifugeGUI F :=
  match lines with
  | [] => (O, g)
  | line :: rest =>
      let (o, g') := handle_device_line_reading line g in
      let (k, g'') := feed rest g' in
      (match o with Ok (Some _) => S k | _ => k end, g'')
  end.

(** The pending [after] calls and the attributes that refer to them agree:
    identifiers are unique and below the next one to be issued; a pending
    revert is the one [slider_revert_after_id] names; a named revert is
    pending; and the user is adjusting exactly while a revert is named. *)
Record wf_timers (g : CentrifugeGUI F) : Prop := {
  wf_nodup : NoDup (map t_id (timers g));
  wf_fresh : forall t, In t (timers g) -> (t_id t < next_after g)%nat;
  wf_revert : forall t, In t (timers g) -> t_cb t = CbRevert ->
              slider_revert_after_id g = Some (t_id t);
  wf_pending : forall j, slider_revert_after_id g = Some j ->
               exists t, In t (timers g) /\ t_id t = j /\ t_cb t = CbRevert;
  wf_adjusting : user_adjusting_slider g = true <-> slider_revert_after_id g <> None
}.

(** Groups of attributes that most methods leave alone. *)
Definition ctl_view (g : CentrifugeGUI F) :=
  (timers g, next_after g, slider_revert_after_id g, user_adjusting_slider g, now g).

Definition net_view (g : CentrifugeGUI F) :=
  (client g, heap g, status_queue g, dialogs g, callback_errors g).

Definition hist_view (g : CentrifugeGUI F) :=
  (sample_count g, sample_indices g, temp_history g, sp_history g).

Definition display_view (g : CentrifugeGUI F) :=
  (temp_var g, sp_var g, state_var g, sp_slider_label_var g, sp_slider_var g,
   set_button g, current_sp_value g).


(** The pending call with identifier [j]. *)
Definition pending (g : CentrifugeGUI F) (j : nat) : option timer :=
  find (fun t => Nat.eqb (t_id t) j) (timers g).

(** The messages written to the socket of the client at address [i]. *)
Definition sent_by (g : CentrifugeGUI F) (i : nat) : list str :=
  match nth_error (heap g) i with
  | Some c => match sock c with Some s => sock_sent s | None => [] end
  | None => []
  end.

End Notions.

(* ================================================================= *)
(** ** The rest of the module, and notions about it *)

Section Rest.

Context {F : Type} {RT : PyRuntime F}.

(** [on_close]: the client, if there is one, is closed and the window is
    destroyed.  With the window goes the interpreter and every pending
    [after] call, and [mainloop] returns: no callback runs afterwards.  The
    attribute [client] is left as it is. *)
Definition on_close : M F unit :=
  bind (gets client) (fun c =>
  bind (match c with
        | Some i => close i
        | None => ret tt
        end) (fun _ =>
  modify (set_timers []))).

(** The reader thread of the client at [i] meets the network events [evs],
    one after the other, nothing else happening in between. *)
Definition run_net (i : nat) (evs : list net_event) (g : CentrifugeGUI F) : CentrifugeGUI F :=
  fold_left (fun h ev => snd (run_step i ev h)) evs g.

(** The poll calls that are pending. *)
Definition poll_timers (g : CentrifugeGUI F) : list timer :=
  filter (fun t => match t_cb t with CbPoll => true | CbRevert => false end) (timers g).

(** One poll is pending, and it is due within 100 ms. *)
Definition one_poll (g : CentrifugeGUI F) : Prop :=
  exists t, poll_timers g = [t] /\ t_due t <= now g + 100.

(** The text [update_slider_label] shows for [v]. *)
Definition label_of (v : pyval F) : str :=
  match py_float v with
  | Ok x => L "SP to set: " ++ format_fixed 1 x ++ L " RPM"
  | Raise _ => L "SP to set: -- RPM"
  end.

(** The widgets and the attribute [client] agree: Connect is enabled exactly
    when there is no client, Disconnect exactly when there is one, Set only
    when there is one; and the client is an object of the heap. *)
Record gui_ok (g : CentrifugeGUI F) : Prop := {
  ok_connect : enabled (connect_button g) = true <-> client g = None;
  ok_disconnect : enabled (disconnect_button g) = true <-> client g <> None;
  ok_set : enabled (set_button g) = true -> client g <> None;
  ok_ref : forall i, client g = Some i -> (i < length (heap g))%nat
}.

(** The message box of [on_connect] for a port entry that is no integer. *)
Definition invalid_port_box : dialog :=
  {| d_kind := ShowError; d_title := L "Invalid port";
     d_message := L "Port must be an integer." |}.

(** No other message box has been shown. *)
Definition dialogs_ok (g : CentrifugeGUI F) : Prop :=
  forall d, In d (dialogs g) -> d = invalid_port_box.

(** The stop flags of the client objects, in the order of their creation. *)
Definition stops (g : CentrifugeGUI F) : list bool := map stop_event (heap g).

(** What ties the GUI to its client objects. *)
Definition link_view (g : CentrifugeGUI F) :=
  (client g, stops g, connect_button g, disconnect_button g, set_button g, dialogs g).

(** The host and port of the client objects, in the order of their creation. *)
Definition configs (g : CentrifugeGUI F) : list (str * Z) :=
  map (fun c => (host c, port c)) (heap g).

(** Every client object has been told to stop. *)
Definition all_stopped (g : CentrifugeGUI F) : Prop :=
  forall k c, nth_error (heap g) k = Some c -> stop_event c = true.

(** Every client object but the one the GUI holds has been closed. *)
Definition one_live_link (g : CentrifugeGUI F) : Prop :=
  forall k c, nth_error (heap g) k = Some c -> stop_event c = false -> client g = Some k.

(** The three facts at once: the widgets agree with [client], only the
    invalid-port box has been shown, and only the held client is live. *)
Definition link_ok (g : CentrifugeGUI F) : Prop :=
  gui_ok g /\ dialogs_ok g /\ one_live_link g.

(** A line as the reader thread queues it: not empty, nothing to strip. *)
Definition clean_line (line : str) : Prop := line <> [] /\ strip line = line.

(** How many times [msg] occurs in [q]. *)
Definition occurrences (msg : str) (q : list str) : nat :=
  count_occ (list_eq_dec ascii_dec) q msg.

(** The last [n] elements of [l]. *)
Definition lastn {A} (n : nat) (l : list A) : list A := skipn (length l - n) l.

(** The readings that the lines of [lines] yield, in order, and the state at
    the end. *)
Fixpoint collect (lines : list str) (g : CentrifugeGUI F)
  : list (StatusReading F) * CentrifugeGUI F :=
  match lines with
  | [] => ([], g)
  | line :: rest =>
      let (o, g') := handle_device_line_reading line g in
      let (rs, g'') := collect rest g' in
      (match o with Ok (Some r) => r :: rs | _ => rs end, g'')
  end.

(** The read loop of [run], lines 50 to 56, cut finer than [run_step] cuts
    it: the GUI thread can run between the test of the stop flag (line 51)
    and the put (line 56).  [held] is the line the thread has read and tested
    the flag for and has not put yet. *)
Inductive loop_event :=
| LoopLine (raw : str)        (* the iterator yields a line; the flag is tested *)
| LoopPut.                    (* the thread strips the line it holds and puts it *)

Definition loop_step (i : nat) (ev : loop_event) (held : option str)
  : M F (option str) :=
  bind (deref i) (fun c =>
  match pc c, ev, held with
  | Reading, LoopLine raw, None =>
      if stop_event c then bind (run_finally i) (fun _ => ret None)
      else ret (Some raw)
  | Reading, LoopPut, Some raw =>
      let line := strip raw in
      bind (match line with
            | [] => ret tt
            | _ => incoming_put line
            end) (fun _ => ret None)
  | _, _, _ => ret held
  end).

Definition loop_next (i : nat) (s : option str * CentrifugeGUI F) (ev : loop_event)
  : option str * CentrifugeGUI F :=
  match loop_step i ev (fst s) (snd s) with
  | (Ok h, g') => (h, g')
  | (Raise _, g') => (fst s, g')
  end.

(** The read loop of the client at [i] goes through the events [evs], holding
    [held] at the start. *)
Definition run_loop (i : nat) (evs : list loop_event) (held : option str)
    (g : CentrifugeGUI F) : option str * CentrifugeGUI F :=
  fold_left (loop_next i) evs (held, g).

End Rest.

(* ================================================================= *)
(** ** A console that can refuse

    [print] raises when [sys.stdout] cannot take the text (a character the
    encoding of the stream lacks, a closed stream).  The methods that print,
    again, with the console as a parameter; the methods above are these on a
    console that takes every text. *)

Module Console.

Section Console.

Context {F : Type} {RT : PyRuntime F}.

(** What [sys.stdout] does with a text handed to [print]: [None], the text is
    written; [Some e], [print] raises [e] and nothing is written (the text is
    encoded as a whole before any of it is written). *)
Variable console : str -> option exn.

Notation "x <- m ;; k" := (bind m (fun x => k))
  (at level 61, m at next level, right associativity).
Notation "m ;; k" := (bind m (fun _ => k))
  (at level 61, right associativity).

(** [_append_log] *)
Definition _append_log (text : str) : M F unit :=
  match console text with
  | None => modify (fun g => set_stdout (stdout g ++ [text]) g)
  | Some e => raise e
  end.

(** [_handle_device_line], returning the reading as above: the echo comes
    before the [try] block. *)
Definition handle_device_line_reading (line : str) : M F (option (StatusReading F)) :=
  _append_log (line ++ nl) ;;
  let line := strip line in
  if negb (startswith line (L "RPM:")) then ret None
  else try_except (device_line_try line) any_exception (fun _ => ret None).

(** [_handle_device_line] *)
Definition _handle_device_line (line : str) : M F unit :=
  handle_device_line_reading line ;; ret tt.

(** The two loops of [_poll_queues]; the [else] branch of each [try] is not
    covered by its [except queue.Empty]. *)
Fixpoint drain_status (turns : nat) : M F unit :=
  match turns with
  | O => ret tt
  | S n =>
      q <- gets status_queue ;;
      match q with
      | [] => ret tt
      | msg :: q' =>
          modify (set_status_queue q') ;;
          _append_log (msg ++ nl) ;;
          modify (set_status_var msg) ;;
          drain_status n
      end
  end.

Fixpoint drain_incoming (turns : nat) : M F unit :=
  match turns with
  | O => ret tt
  | S n =>
      q <- gets incoming_queue ;;
      match q with
      | [] => ret tt
      | line :: q' =>
          modify (set_incoming_queue q') ;;
          _handle_device_line line ;;
          drain_incoming n
      end
  end.

(** [_poll_queues] *)
Definition _poll_queues : M F unit :=
  n <- gets (fun g => length (status_queue g)) ;;
  drain_status n ;;
  m <- gets (fun g => length (incoming_queue g)) ;;
  drain_incoming m ;;
  after 100 CbPoll ;;
  ret tt.

(** [CentrifugeGUI(root)] *)
Definition init : CentrifugeGUI F :=
  snd ((update_slider_label (VInt 25) ;; _poll_queues) widgets0).

Definition method_of (cb : callback) : M F unit :=
  match cb with
  | CbPoll => _poll_queues
  | CbRevert => revert_slider_to_current_sp
  end.

(** The main loop: a pending call that is due runs the methods of this
    section; no other event prints, and those go through the [step] of the
    model above. *)
Definition step (g : CentrifugeGUI F) (ev : event) : CentrifugeGUI F :=
  match ev with
  | RunTimer i =>
      match find (fun t => Nat.eqb (t_id t) i) (timers g) with
      | Some t =>
          if t_due t <=? now g
          then run_callback (method_of (t_cb t))
                 (set_timers (cancel_timer i (timers g)) g)
          else g
      | None => g
      end
  | _ => step g ev
  end.

Definition run_events (g : CentrifugeGUI F) (evs : list event) : CentrifugeGUI F :=
  fold_left step evs g.

Inductive reachable : CentrifugeGUI F -> Prop :=
| reach_init : reachable init
| reach_step g ev : reachable g -> reachable (step g ev).

(** The console takes the echo of every text of [q]. *)
Definition takes (q : list str) : Prop :=
  forall m, In m q -> console (m ++ nl) = None.

End Console.

End Console.

(** *** Scenarios

    Concrete runs, on the [cpython] runtime unless said otherwise. *)

Definition demo_line : str := L "RPM: 10.0 | SP: 10.0 | STATE: 0".

(** The user connects and the reader thread gets its socket. *)
Definition connect_events : list event :=
  [ClickConnect; Net 0 NetBegin; Net 0 NetConnected].

Definition g_connected : CentrifugeGUI B64.b64 := run_events init connect_events.

(** Then the user drags the slider to 80 (nothing has been read from the
    device yet). *)
Definition g_adjusting : CentrifugeGUI B64.b64 :=
  run_events g_connected [DragSlider 80 (L "80.0")].

(** Or the peer closes the stream: [run] ends through its [finally]. *)
Definition g_peer_closed : CentrifugeGUI B64.b64 :=
  run_events g_connected [Net 0 NetEOF].

(** A toolkit that relays every write of the slider variable to the slider
    callback. *)
Definition relay : PyRuntime B64.b64 := CPython true.


(** The user types a port before connecting. *)
Definition g_port (s : str) : CentrifugeGUI B64.b64 := step init (EditPort s).

(** Or a line arrives, the user disconnects, and the poll timer comes due. *)
Definition g_late_line : CentrifugeGUI B64.b64 :=
  run_events g_connected [Net 0 (NetLine demo_line); ClickDisconnect; Elapse 100].

(** The user has dragged the slider and lets five seconds pass; no line has
    come from the device. *)
Definition g_waited : CentrifugeGUI B64.b64 := run_events g_adjusting [Elapse 5000].

(** A device that reports a setpoint that is not a number. *)
Definition nan_line : str := L "RPM: 1.0 | SP: nan | STATE: 0".

(** That line arrives while the user is adjusting, and is handled by a poll
    five seconds later. *)
Definition g_nan_adjusting : CentrifugeGUI B64.b64 :=
  run_events g_adjusting [Net 0 (NetLine nan_line); Elapse 5000; RunTimer 0].

(** The same line arrives while the user is not adjusting, and is handled by
    the next poll. *)
Definition g_flag_stuck : CentrifugeGUI B64.b64 :=
  run_events g_connected [Net 0 (NetLine nan_line); Elapse 100; RunTimer 0].

(** A console that cannot encode the degree sign, and a device that sends
    one. *)
Definition ascii_console (text : str) : option exn :=
  if forallb (fun c => (N_of_ascii c <? 128)%N) text then None else Some ValueError.

Definition degree_line : str := L "RPM: 1.0 | SP: 2.0 | STATE: 40 " ++ ["176"%char; "C"%char].

(** That line is waiting when the poll comes due. *)
Definition g_degree : CentrifugeGUI B64.b64 :=
  run_events g_connected [Net 0 (NetLine degree_line); Elapse 100].

(* ================================================================= *)
(** ** Proof tools *)

Ltac munfold :=
  unfold bind, ret, raise, lift, gets, modify, try_except, index, any_exception in *.

(** Case analysis on the innermost scrutinee of a [match] in [H]. *)
Ltac break_match_hyp H :=
  match type of H with
  | context [match ?x with _ => _ end] =>
      lazymatch x with
      | context [match _ with _ => _ end] => fail
      | _ => destruct x eqn:?
      end
  end.

Ltac break_match_goal :=
  match goal with
  | |- context [match ?x with _ => _ end] =>
      lazymatch x with
      | context [match _ with _ => _ end] => fail
      | _ => destruct x eqn:?
      end
  end.

(** Run a method body found in [H] along every path. *)
Ltac mexec H :=
  munfold; simpl in H;
  repeat (break_match_hyp H; simpl in H; try discriminate H).

Ltac pair_inv H := inversion H; subst; clear H.

(** Close a goal saying that a method leaves some attributes alone, by running
    the method along every path. *)
Ltac frame :=
  munfold; simpl; repeat (break_match_goal; simpl); repeat split;
  first [reflexivity | congruence].

(** Replace a call of [update_slider_label] by its effect, given the lemma
    [run] that states it. *)
Ltac label_step_with run :=
  match goal with
  | |- context [update_slider_label ?v ?h] =>
      let s := fresh "s" in
      let E := fresh "E" in
      destruct (run v h) as [s E]; rewrite E; clear E
  end.

(* ================================================================= *)
(** ** Running the model *)

Example strip_demo : strip (L "  RPM: 1 ") = L "RPM: 1".
Proof. reflexivity. Qed.

Example split_demo : split_on "|" (L "a|b||c") = [L "a"; L "b"; []; L "c"].
Proof. reflexivity. Qed.

Example split_ws_demo : split_ws (L "  SP:   50.0 x ") = [L "SP:"; L "50.0"; L "x"].
Proof. reflexivity. Qed.

Example split_once_demo : split_once ":" (L "STATE: a:b") = [L "STATE"; L " a:b"].
Proof. reflexivity. Qed.

Example int_demo :
  map int_of_str [L "1"; L "-12"; L "+1_0"; L "1__0"; L "_1"; L "1_"; []; L "-"; L "0x1"; L "1.0"]
  = [Some 1; Some (-12); Some 10; None; None; None; None; None; None; None].
Proof. reflexivity. Qed.

Example str_of_Z_demo : map str_of_Z [0; 50; -7] = [L "0"; L "50"; L "-7"].
Proof. reflexivity. Qed.

Example b64_parse_demo :
  map B64.parse [L "1.0"; L "0.1"; L "-2.5e1"; L "1_0."; L ".5"; L "nan"; L "1e999";
                 L "abc"; L "1e"; L "1_.0"; []; L "."]
  = [Some (B64.Fin false 4503599627370496 (-52));
     Some (B64.Fin false 7205759403792794 (-56));
     Some (B64.Fin true 7036874417766400 (-48));
     Some (B64.Fin false 5629499534213120 (-49));
     Some (B64.Fin false 4503599627370496 (-53));
     Some B64.NaN; Some (B64.Inf false);
     None; None; None; None; None].
Proof. vm_compute. reflexivity. Qed.

Example b64_format_demo :
  option_map (fun x => (B64.format 2 x, B64.format 1 x, B64.round x)) (B64.parse (L "23.45"))
  = Some (L "23.45", L "23.4", Ok 23).
Proof. vm_compute. reflexivity. Qed.

(** The end-to-end examples of the specification, after connecting: a busy
    device, then a ready one, then a line that is no status line. *)
Example spec_examples :
  let g1 := snd (_handle_device_line (L "RPM: 10.0 | SP: 10.0 | STATE: 1") g_connected) in
  let g2 := snd (_handle_device_line (L "RPM: 23.45 | SP: 50.0 | STATE: 0") g1) in
  let g3 := snd (_handle_device_line (L "garbage") g2) in
  set_button g1 = Disabled
  /\ temp_var g2 = L "23.45 " /\ sp_var g2 = L "50.0 " /\ state_var g2 = L "0"
  /\ sp_slider_var g2 = 50 /\ set_button g2 = Normal
  /\ sample_indices g2 = [1; 2]
  /\ g3 = set_stdout (stdout g2 ++ [L "garbage" ++ nl]) g2.
Proof. vm_compute. repeat split; reflexivity. Qed.

Example b64_round_demo :
  map (fun s => option_map B64.round (B64.parse s)) [L "2.5"; L "3.5"; L "-0.5"; L "inf"; L "nan"]
  = [Some (Ok 2); Some (Ok 4); Some (Ok 0); Some (Raise OverflowError); Some (Raise ValueError)].
Proof. vm_compute. reflexivity. Qed.

(* ================================================================= *)
(** ** Facts about the string methods *)

Unset Implicit Arguments.

Section StrFacts.

Lemma lstrip_app (x y : str) :
  lstrip (x ++ y) = match lstrip x with [] => lstrip y | r => r ++ y end.
Proof.
  induction x as [|c x IH]; simpl.
  - destruct (lstrip y); reflexivity.
  - destruct (isspace c); [exact IH | reflexivity].
Qed.

(** [rstrip] read from the left. *)
Lemma rstrip_cons (c : ascii) (s : str) :
  rstrip (c :: s) =
  match rstrip s with
  | [] => if isspace c then [] else [c]
  | r => c :: r
  end.
Proof.
  unfold rstrip. simpl rev. rewrite lstrip_app.
  destruct (lstrip (rev s)) as [|d r] eqn:E; simpl.
  - destruct (isspace c); reflexivity.
  - rewrite rev_app_distr. simpl.
    destruct (rev r ++ [d]) eqn:E'; [destruct (rev r); discriminate | reflexivity].
Qed.

Lemma rstrip_nil : rstrip [] = [].
Proof. reflexivity. Qed.

Lemma lstrip_no_blank (s : str) :
  forallb (fun c => negb (isspace c)) s = true -> lstrip s = s.
Proof.
  destruct s as [|c s]; simpl; [reflexivity|].
  destruct (isspace c); simpl; [discriminate | reflexivity].
Qed.

Lemma rstrip_app_keep (x y : str) :
  rstrip y <> [] -> rstrip (x ++ y) = x ++ rstrip y.
Proof.
  intros Hy. induction x as [|c x IH]; simpl; [reflexivity|].
  rewrite rstrip_cons, IH.
  destruct (x ++ rstrip y) eqn:E; [|reflexivity].
  destruct x; simpl in E; [contradiction | discriminate].
Qed.

Lemma rstrip_idem (s : str) : rstrip (rstrip s) = rstrip s.
Proof.
  induction s as [|c s IH]; [reflexivity|].
  rewrite rstrip_cons.
  destruct (rstrip s) as [|d r] eqn:E.
  - destruct (isspace c) eqn:Ec; [reflexivity|].
    rewrite rstrip_cons, rstrip_nil, Ec. reflexivity.
  - rewrite rstrip_cons, IH. reflexivity.
Qed.

(** The tokens of a text do not depend on the blanks around it. *)
Lemma split_ws_from_blank_end (s cur : str) (c : ascii) :
  isspace c = true -> split_ws_from cur (s ++ [c]) = split_ws_from cur s.
Proof.
  intros Hc. revert cur. induction s as [|d s IH]; intros cur; simpl.
  - rewrite Hc. destruct cur; reflexivity.
  - destruct (isspace d); [destruct cur|]; rewrite IH; reflexivity.
Qed.

Lemma split_ws_lstrip (s : str) : split_ws (lstrip s) = split_ws s.
Proof.
  unfold split_ws. induction s as [|c s IH]; simpl; [reflexivity|].
  destruct (isspace c) eqn:E; [exact IH|]. simpl. rewrite E. reflexivity.
Qed.

Lemma split_ws_rstrip (s : str) : split_ws (rstrip s) = split_ws s.
Proof.
  unfold split_ws, rstrip.
  rewrite <- (rev_involutive s) at 2.
  induction (rev s) as [|c r IH]; simpl; [reflexivity|].
  destruct (isspace c) eqn:E; [|reflexivity].
  rewrite split_ws_from_blank_end by exact E. exact IH.
Qed.

Lemma split_ws_strip (s : str) : split_ws (strip s) = split_ws s.
Proof. unfold strip. rewrite split_ws_lstrip. apply split_ws_rstrip. Qed.

(** Reading a run of non-blank characters. *)
Lemma split_ws_from_run (tok cur s : str) :
  forallb (fun c => negb (isspace c)) tok = true ->
  split_ws_from cur (tok ++ s) = split_ws_from (rev tok ++ cur) s.
Proof.
  revert cur. induction tok as [|c tok IH]; intros cur H; simpl; [reflexivity|].
  simpl in H. apply andb_true_iff in H as [Hc Ht].
  apply negb_true_iff in Hc. rewrite Hc, IH by exact Ht.
  rewrite <- app_assoc. reflexivity.
Qed.

Lemma split_on_none (sep : ascii) (s : str) :
  forallb (fun c => negb (Ascii.eqb c sep)) s = true -> split_on sep s = [s].
Proof.
  induction s as [|c s IH]; simpl; intros H; [reflexivity|].
  apply andb_true_iff in H as [Hc Hs]. apply negb_true_iff in Hc.
  rewrite Hc, IH by exact Hs. reflexivity.
Qed.

Lemma split_on_app (sep : ascii) (x y : str) :
  forallb (fun c => negb (Ascii.eqb c sep)) x = true ->
  split_on sep (x ++ sep :: y) = x :: split_on sep y.
Proof.
  induction x as [|c x IH]; simpl; intros H.
  - rewrite Ascii.eqb_refl. reflexivity.
  - apply andb_true_iff in H as [Hc Hx]. apply negb_true_iff in Hc.
    rewrite Hc, IH by exact Hx. reflexivity.
Qed.

Lemma forallb_rstrip (p : ascii -> bool) (s : str) :
  forallb p s = true -> forallb p (rstrip s) = true.
Proof.
  induction s as [|c s IH]; [reflexivity|]. simpl. intros H.
  apply andb_true_iff in H as [Hc Hs]. rewrite rstrip_cons.
  specialize (IH Hs). destruct (rstrip s).
  - destruct (isspace c); simpl; [reflexivity | rewrite Hc; reflexivity].
  - simpl in *. rewrite Hc. exact IH.
Qed.

Lemma split_ws_nil_rstrip (s : str) : split_ws s <> [] -> rstrip s <> [].
Proof.
  intros H E. apply H. rewrite <- split_ws_rstrip, E. reflexivity.
Qed.

Lemma tokenb_parts (s : str) :
  tokenb s = true ->
  s <> [] /\ forallb (fun c => negb (isspace c)) s = true
  /\ forallb (fun c => negb (Ascii.eqb c "|")) s = true.
Proof.
  unfold tokenb. destruct s as [|c s]; [discriminate|]. intros H.
  split; [discriminate|].
  rewrite forallb_forall in H.
  split; apply forallb_forall; intros x Hx; specialize (H x Hx);
    apply andb_true_iff in H; tauto.
Qed.

End StrFacts.

(* ================================================================= *)
(** ** Facts about the methods *)

Section MethodFacts.

Context {F : Type} {RT : PyRuntime F}.

Implicit Types g : CentrifugeGUI F.

(** Inside a programmatic update the slider callback returns at once, so
    writing the variable is all that happens, whatever the toolkit relays. *)
Lemma sp_slider_var_set_ignored n g :
  ignore_slider_change g = true ->
  sp_slider_var_set n g = (Ok tt, set_sp_slider_var n g).
Proof.
  intros H. unfold sp_slider_var_set, on_slider_changed. munfold. simpl.
  destruct scale_notifies; simpl; [rewrite H|]; reflexivity.
Qed.

Lemma update_slider_label_run v g :
  exists s, update_slider_label v g = (Ok tt, set_sp_slider_label_var s g).
Proof.
  unfold update_slider_label. munfold.
  destruct (py_float v) eqn:E; simpl.
  - eauto.
  - destruct v; simpl in E; try discriminate.
    + inversion E; subst; simpl; eauto.
    + destruct (float_of_str s); inversion E; subst; simpl; eauto.
Qed.

Lemma pop0_snoc {A} (l : list A) (x : A) : pop0 (l ++ [x]) = Ok (tl (l ++ [x])).
Proof. destruct l; reflexivity. Qed.

Lemma update_plot_run g :
  exists xl yl d,
    _update_plot g = (Ok tt, set_draws d (set_ax_ylim yl (set_ax_xlim xl g)))
    \/ _update_plot g = (Ok tt, g).
Proof.
  unfold _update_plot. munfold. simpl.
  destruct (sample_indices g); simpl.
  - exists (0, 0), (0, 0), O. right. reflexivity.
  - eexists _, _, _. left. reflexivity.
Qed.

End MethodFacts.

(* ================================================================= *)
(** ** Parsing a status line *)

Section Parsing.

Context {F : Type} {RT : PyRuntime F}.

Implicit Types g : CentrifugeGUI F.

Lemma strip_wire_line (a b rest : str) :
  split_ws rest <> [] ->
  strip (wire_line a b rest) = wire_line a b (rstrip rest).
Proof.
  intros H. unfold strip, wire_line.
  repeat rewrite app_assoc.
  rewrite rstrip_app_keep by (apply split_ws_nil_rstrip; exact H).
  repeat rewrite <- app_assoc. reflexivity.
Qed.

Lemma wire_line_parts (a b rr : str) :
  tokenb a = true -> tokenb b = true -> no_bar rr = true ->
  rstrip rr = rr -> rr <> [] ->
  exists p0 p1,
    map strip (split_on "|" (wire_line a b rr)) = [p0; p1; L "STATE: " ++ rr]
    /\ split_ws p0 = [L "RPM:"; a]
    /\ split_ws p1 = [L "SP:"; b].
Proof.
  intros Ha Hb Hr Hrr Hne.
  apply tokenb_parts in Ha as (Hane & Haw & Hab).
  apply tokenb_parts in Hb as (Hbne & Hbw & Hbb).
  exists (strip (L "RPM: " ++ a ++ L " ")), (strip (L " SP: " ++ b ++ L " ")).
  assert (E : wire_line a b rr
              = (L "RPM: " ++ a ++ L " ") ++ "|"%char
                :: (L " SP: " ++ b ++ L " ") ++ "|"%char :: (L " STATE: " ++ rr)).
  { unfold wire_line. simpl. rewrite <- !app_assoc. reflexivity. }
  rewrite E.
  rewrite split_on_app.
  2:{ simpl. rewrite forallb_app, Hab. reflexivity. }
  rewrite split_on_app.
  2:{ simpl. rewrite forallb_app, Hbb. reflexivity. }
  rewrite split_on_none.
  2:{ simpl. exact Hr. }
  split; [|split].
  - simpl map. do 2 f_equal. f_equal.
    change (lstrip (rstrip (L " STATE: " ++ rr)) = L "STATE: " ++ rr).
    rewrite rstrip_app_keep by (rewrite Hrr; exact Hne).
    rewrite Hrr. reflexivity.
  - rewrite split_ws_strip. unfold split_ws.
    change (L "RPM: " ++ a ++ L " ") with (L "RPM:" ++ " "%char :: a ++ L " ").
    rewrite (split_ws_from_run (L "RPM:") [] (" "%char :: a ++ L " ")) by reflexivity.
    change (split_ws_from (rev (L "RPM:") ++ []) (" "%char :: a ++ L " "))
      with (L "RPM:" :: split_ws_from [] (a ++ L " ")).
    rewrite split_ws_from_run by exact Haw.
    change (split_ws_from (rev a ++ []) (L " "))
      with (match rev a ++ [] with [] => [] | _ => [rev (rev a ++ [])] end).
    destruct (rev a ++ []) eqn:Er.
    + rewrite app_nil_r in Er. apply (f_equal (@rev _)) in Er.
      rewrite rev_involutive in Er. contradiction.
    + rewrite <- Er, app_nil_r, rev_involutive. reflexivity.
  - rewrite split_ws_strip. unfold split_ws.
    change (split_ws_from [] (L " SP: " ++ b ++ L " "))
      with (split_ws_from [] (L "SP:" ++ " "%char :: b ++ L " ")).
    rewrite (split_ws_from_run (L "SP:") [] (" "%char :: b ++ L " ")) by reflexivity.
    change (split_ws_from (rev (L "SP:") ++ []) (" "%char :: b ++ L " "))
      with (L "SP:" :: split_ws_from [] (b ++ L " ")).
    rewrite split_ws_from_run by exact Hbw.
    change (split_ws_from (rev b ++ []) (L " "))
      with (match rev b ++ [] with [] => [] | _ => [rev (rev b ++ [])] end).
    destruct (rev b ++ []) eqn:Er.
    + rewrite app_nil_r in Er. apply (f_equal (@rev _)) in Er.
      rewrite rev_involutive in Er. contradiction.
    + rewrite <- Er, app_nil_r, rev_involutive. reflexivity.
Qed.

Lemma strip_state_remainder (rest : str) :
  split_ws rest <> [] -> strip (" "%char :: rstrip rest) = strip rest.
Proof.
  intros H. unfold strip.
  change (" "%char :: rstrip rest) with ([" "%char] ++ rstrip rest).
  rewrite rstrip_app_keep
    by (rewrite rstrip_idem; apply split_ws_nil_rstrip; exact H).
  rewrite !rstrip_idem. reflexivity.
Qed.

(** The [try] block on a line in the wire format. *)
Lemma device_line_try_wire g (a b rest : str) (x y : F) :
  tokenb a = true -> tokenb b = true ->
  no_bar rest = true -> split_ws rest <> [] ->
  float_of_str a = Some x -> float_of_str b = Some y ->
  (user_adjusting_slider g = true \/ exists n, round_float y = Ok n) ->
  fst (device_line_try (wire_line a b (rstrip rest)) g)
  = Ok (Some {| rpm := x; setpoint := y;
                stateCode := leading_int (strip rest);
                stateLabel := strip rest |}).
Proof.
  intros Ha Hb Hr Hne Hx Hy Hsync.
  destruct (wire_line_parts a b (rstrip rest) Ha Hb) as (p0 & p1 & Hparts & H0 & H1).
  { apply forallb_rstrip. exact Hr. }
  { apply rstrip_idem. }
  { apply split_ws_nil_rstrip. exact Hne. }
  unfold device_line_try, _update_plot. rewrite Hparts.
  munfold. simpl. rewrite H0, H1. simpl. rewrite Hx, Hy. simpl.
  rewrite (strip_state_remainder rest Hne).
  unfold leading_int.
  assert (Hne' : split_ws (strip rest) <> []) by (rewrite split_ws_strip; exact Hne).
  destruct (split_ws (strip rest)) as [|tok toks] eqn:Etok; [contradiction|].
  simpl. unfold py_int.
  destruct (user_adjusting_slider g) eqn:Eadj.
  - simpl.
    destruct (int_of_str tok) as [code|]; simpl;
      repeat (first [rewrite pop0_snoc | break_match_goal]; simpl);
      reflexivity.
  - destruct Hsync as [Hsync | [n Hn]]; [discriminate|].
    rewrite Hn. simpl.
    rewrite sp_slider_var_set_ignored by reflexivity.
    simpl.
    destruct (int_of_str tok) as [code|]; simpl;
      repeat (first [rewrite pop0_snoc | break_match_goal]; simpl);
      reflexivity.
Qed.

(** The method around its [try] block. *)
Lemma handle_device_line_reading_eq line g :
  handle_device_line_reading line g =
  let g0 := set_stdout (stdout g ++ [line ++ nl]) g in
  if startswith (strip line) (L "RPM:")
  then match device_line_try (strip line) g0 with
       | (Ok r, g') => (Ok r, g')
       | (Raise _, g') => (Ok None, g')
       end
  else (Ok None, g0).
Proof.
  unfold handle_device_line_reading, _append_log. munfold. simpl.
  destruct (startswith _ _); simpl; [|reflexivity].
  destruct (device_line_try _ _) as [[r|e] g']; reflexivity.
Qed.

(** What the [try] block never touches, however it ends. *)
Lemma device_line_try_frame line g :
  let g' := snd (device_line_try line g) in
  ctl_view g' = ctl_view g /\ net_view g' = net_view g
  /\ incoming_queue g' = incoming_queue g /\ stdout g' = stdout g.
Proof.
  destruct (device_line_try line g) as [o g'] eqn:H. simpl.
  unfold device_line_try, update_slider_label, sp_slider_var_set, on_slider_changed,
    _update_plot in H.
  mexec H; pair_inv H; repeat split; reflexivity.
Qed.

(** What the [try] block has done when it reaches its end. *)
Lemma device_line_try_accepted line g r g' :
  device_line_try line g = (Ok (Some r), g') ->
  temp_var g' = format_fixed 2 (rpm r) ++ L " "
  /\ sp_var g' = format_fixed 1 (setpoint r) ++ L " "
  /\ current_sp_value g' = VFloat (setpoint r)
  /\ state_var g' = stateLabel r
  /\ set_button g' = match client g, stateCode r with
                     | Some _, Some 1 => Disabled
                     | Some _, Some 0 => Normal
                     | _, _ => set_button g
                     end
  /\ sample_count g' = sample_count g + 1
  /\ (let idx := sample_indices g ++ [sample_count g + 1] in
      let full := Nat.ltb max_points (length idx) in
      sample_indices g' = (if full then @tl Z else id) idx
      /\ temp_history g' = (if full then @tl F else id) (temp_history g ++ [rpm r])
      /\ sp_history g' = (if full then @tl F else id) (sp_history g ++ [setpoint r]))
  /\ (if user_adjusting_slider g
      then sp_slider_var g' = sp_slider_var g
           /\ sp_slider_label_var g' = sp_slider_label_var g
           /\ ignore_slider_change g' = ignore_slider_change g
      else round_float (setpoint r) = Ok (sp_slider_var g')
           /\ sp_slider_label_var g' = L "SP to set: " ++ format_fixed 1 (setpoint r) ++ L " RPM"
           /\ ignore_slider_change g' = false).
Proof.
  intros H.
  unfold device_line_try, update_slider_label, sp_slider_var_set, on_slider_changed,
    _update_plot in H.
  mexec H; pair_inv H;
    repeat match goal with
           | E : pop0 (_ ++ [_]) = _ |- _ => rewrite pop0_snoc in E; injection E as E
           end;
    simpl;
    repeat match goal with
           | E : user_adjusting_slider _ = _ |- _ => rewrite E; clear E
           | E : Nat.ltb _ _ = _ |- _ => rewrite E; clear E
           | E : client _ = _ |- _ => rewrite E; clear E
           end;
    repeat split; try reflexivity; try assumption; symmetry; assumption.
Qed.

(** Where the handler does yield a reading.  A line
    [RPM: a | SP: b | STATE: rest], where [a] and [b] are tokens that [float]
    accepts, the setpoint is a finite float (it has an integer rounding; not
    needed while the user is adjusting the slider) and [rest] holds at least
    one token and no bar, yields a reading: [rpm] is the float of [a],
    [setpoint] the float of [b], [stateLabel] the trimmed [rest], and
    [stateCode] the leading token of the label when it reads as an integer,
    absent otherwise.  The three readouts show the same values. *)
Lemma wire_line_reading g (a b rest : str) (x y : F) :
  tokenb a = true -> tokenb b = true ->
  no_bar rest = true -> has_token rest = true ->
  float_of_str a = Some x -> float_of_str b = Some y ->
  (is_finite y \/ user_adjusting_slider g = true) ->
  exists g',
    handle_device_line_reading (wire_line a b rest) g
    = (Ok (Some {| rpm := x; setpoint := y;
                   stateCode := leading_int (strip rest);
                   stateLabel := strip rest |}), g')
    /\ temp_var g' = format_fixed 2 x ++ L " "
    /\ sp_var g' = format_fixed 1 y ++ L " "
    /\ state_var g' = strip rest.
Proof.
  intros Ha Hb Hr Ht Hx Hy Hsync. apply or_comm in Hsync.
  assert (Hne : split_ws rest <> []).
  { unfold has_token in Ht. destruct (split_ws rest); [discriminate | discriminate]. }
  rewrite handle_device_line_reading_eq. cbv zeta.
  rewrite (strip_wire_line a b rest Hne).
  change (startswith (wire_line a b (rstrip rest)) (L "RPM:")) with true. cbv iota.
  pose proof (device_line_try_wire (set_stdout (stdout g ++ [wire_line a b rest ++ nl]) g)
                a b rest x y Ha Hb Hr Hne Hx Hy Hsync) as Hrun.
  destruct (device_line_try _ _) as [o g'] eqn:E. simpl in Hrun. subst o.
  exists g'. split; [reflexivity|].
  apply device_line_try_accepted in E. simpl in E. tauto.
Qed.

(** A line of the other kinds goes by without a trace but the console echo:
    no [RPM:] prefix after trimming, fewer than three segments, or a first
    segment whose second token is missing or is not a float. *)
Lemma rejected_line_unchanged line g :
  let parts := map strip (split_on "|" (strip line)) in
  startswith (strip line) (L "RPM:") = false
  \/ (length parts < 3)%nat
  \/ match nth_error (split_ws (nth 0 parts [])) 1 with
     | Some tok => float_of_str tok = None
     | None => True
     end ->
  handle_device_line_reading line g
  = (Ok None, set_stdout (stdout g ++ [line ++ nl]) g).
Proof.
  intros parts H. rewrite handle_device_line_reading_eq. cbv zeta.
  destruct (startswith (strip line) (L "RPM:")) eqn:Es; [|reflexivity].
  destruct H as [H | [H | H]]; [discriminate | |].
  - unfold device_line_try. fold parts.
    apply Nat.ltb_lt in H. rewrite H. reflexivity.
  - unfold device_line_try. fold parts.
    destruct (length parts <? 3)%nat eqn:El; [reflexivity|].
    destruct parts as [|p0 [|p1 [|p2 ps]]]; try discriminate El.
    munfold. simpl in *.
    destruct (split_ws p0) as [|t0 [|t1 ts]]; simpl in *; try reflexivity.
    rewrite H. reflexivity.
Qed.

End Parsing.

(** The example line of the specification, on a fresh GUI. *)
Lemma wire_line_reading_example :
  tokenb (L "23.45") = true /\ tokenb (L "50.0") = true
  /\ no_bar (L "0") = true /\ has_token (L "0") = true
  /\ is_finite (B64.Fin false 7036874417766400 (-47))
  /\ exists g',
      handle_device_line_reading
        (L "RPM: 23.45 | SP: 50.0 | STATE: 0") init
      = (Ok (Some {| rpm := B64.Fin false 6600588203864883 (-48);
                     setpoint := B64.Fin false 7036874417766400 (-47);
                     stateCode := Some 0;
                     stateLabel := L "0" |}), g')
      /\ temp_var g' = L "23.45 " /\ sp_var g' = L "50.0 " /\ state_var g' = L "0".
Proof.
  repeat (split; [reflexivity|]).
  split; [exists 50; vm_compute; reflexivity|].
  apply (@wire_line_reading _ cpython init (L "23.45") (L "50.0") (L "0")
           (B64.Fin false 6600588203864883 (-48)) (B64.Fin false 7036874417766400 (-47)));
    try (vm_compute; reflexivity).
  left. exists 50. vm_compute. reflexivity.
Defined.

(** A setpoint that [float] accepts but [round] rejects (an overflowing
    literal, [nan]) makes the slider update raise while the workflow is idle:
    the line yields no reading, and the mark of a programmatic update stays
    set, so that the next user move is taken for a programmatic one and arms
    nothing. *)
Remark unroundable_setpoint_drops_line :
  float_of_str (L "1e999") = Some (B64.Inf false)
  /\ float_of_str (L "nan") = Some B64.NaN
  /\ fst (handle_device_line_reading (L "RPM: 1.0 | SP: 1e999 | STATE: 0") init) = Ok None
  /\ fst (handle_device_line_reading (L "RPM: 1.0 | SP: nan | STATE: 0") init) = Ok None
  /\ (let g := snd (_handle_device_line (L "RPM: 1.0 | SP: nan | STATE: 0") init) in
      ignore_slider_change g = true
      /\ revert_timers (step g (DragSlider 80 (L "80.0"))) = []).
Proof. vm_compute. repeat split; reflexivity. Qed.

(** C1.  The claim fails on the code.  The line
    [RPM: 1.0 | SP: nan | STATE: 0] is in the wire format: [float] accepts
    both tokens.  Handled while the workflow is idle (here right after
    connecting), the slider update [int(round(nan))] raises inside the [try]
    block after the RPM and setpoint readouts and the stored setpoint were
    overwritten; the catch-all [except] swallows the exception.  The line
    yields no reading: the state readout, the Set button and the history are
    as they were, and the mark of a programmatic update stays set.  The same
    line handled while the user is adjusting the slider does yield the
    reading the claim describes. *)
Theorem C1_unroundable_setpoint_yields_no_reading :
  let line := L "RPM: 1.0 | SP: nan | STATE: 0" in
  let g' := snd (handle_device_line_reading line g_connected) in
  float_of_str (L "1.0") = Some (B64.Fin false 4503599627370496 (-52))
  /\ float_of_str (L "nan") = Some B64.NaN
  /\ round_float B64.NaN = Raise ValueError
  /\ workflow_of g_connected = Idle
  /\ fst (handle_device_line_reading line g_connected) = Ok None
  /\ temp_var g_connected = L "--.- RPM" /\ temp_var g' = L "1.00 "
  /\ sp_var g_connected = L "--.- RPM" /\ sp_var g' = L "nan "
  /\ current_sp_value g' = VFloat B64.NaN
  /\ state_var g' = state_var g_connected
  /\ set_button g' = set_button g_connected
  /\ hist_view g' = hist_view g_connected
  /\ ignore_slider_change g_connected = false /\ ignore_slider_change g' = true
  /\ workflow_of g_adjusting = Adjusting
  /\ fst (handle_device_line_reading line g_adjusting)
     = Ok (Some {| rpm := B64.Fin false 4503599627370496 (-52);
                   setpoint := B64.NaN;
                   stateCode := Some 0; stateLabel := L "0" |}).
Proof. vm_compute. repeat split; reflexivity. Qed.

(** C2.  The specification wants a line whose SP token is not a float to
    leave every readout as it was; the RPM readout has already been
    overwritten when the SP token is read. *)
Theorem C2_bad_setpoint_overwrites_rpm_readout :
  let line := L "RPM: 1.0 | SP: abc | STATE: 0" in
  let g' := snd (_handle_device_line line init) in
  float_of_str (L "abc") = None
  /\ fst (handle_device_line_reading line init) = Ok None
  /\ temp_var init = L "--.- RPM"
  /\ temp_var g' = L "1.00 "
  /\ hist_view g' = hist_view init.
Proof. vm_compute. repeat split; reflexivity. Qed.

(* ================================================================= *)
(** ** What each method leaves alone *)

Section Frames.

Context {F : Type} {RT : PyRuntime F}.

Implicit Types g : CentrifugeGUI F.

Lemma send_setpoint_frame i value os g :
  let r := send_setpoint i value os g in
  fst r = Ok tt
  /\ ctl_view (snd r) = ctl_view g /\ hist_view (snd r) = hist_view g
  /\ display_view (snd r) = display_view g
  /\ client (snd r) = client g /\ dialogs (snd r) = dialogs g
  /\ ignore_slider_change (snd r) = ignore_slider_change g.
Proof. unfold send_setpoint, deref, sendall, status_put, with_client. frame. Qed.

Lemma on_connect_frame g :
  let g' := snd (on_connect g) in
  fst (on_connect g) = Ok tt
  /\ ctl_view g' = ctl_view g /\ hist_view g' = hist_view g.
Proof. unfold on_connect, messagebox. frame. Qed.

Lemma on_disconnect_frame g :
  let g' := snd (on_disconnect g) in
  fst (on_disconnect g) = Ok tt
  /\ ctl_view g' = ctl_view g /\ hist_view g' = hist_view g.
Proof. unfold on_disconnect, close, with_client. frame. Qed.

Lemma run_step_frame i ev g :
  let g' := snd (run_step i ev g) in
  ctl_view g' = ctl_view g /\ hist_view g' = hist_view g
  /\ display_view g' = display_view g /\ client g' = client g.
Proof.
  unfold run_step, run_finally, close, deref, status_put, incoming_put, with_client.
  frame.
Qed.

Lemma on_slider_changed_frame v g :
  let g' := snd (on_slider_changed v g) in
  fst (on_slider_changed v g) = Ok tt
  /\ hist_view g' = hist_view g /\ net_view g' = net_view g
  /\ ignore_slider_change g' = ignore_slider_change g.
Proof.
  unfold on_slider_changed, after_cancel, after. munfold. simpl.
  destruct (ignore_slider_change g) eqn:Ei; simpl; [repeat split; congruence|].
  destruct (update_slider_label_run v g) as [s E]. rewrite E. frame.
Qed.

Lemma revert_frame g :
  let g' := snd (revert_slider_to_current_sp g) in
  hist_view g' = hist_view g /\ net_view g' = net_view g.
Proof.
  unfold revert_slider_to_current_sp. munfold. simpl.
  destruct (current_sp_value g) as [|s|n|x] eqn:Ev; simpl; try (split; reflexivity).
  - rewrite sp_slider_var_set_ignored by reflexivity. simpl.
    try label_step_with update_slider_label_run. split; reflexivity.
  - destruct (round_float x) as [n|e]; simpl; [|split; reflexivity].
    rewrite sp_slider_var_set_ignored by reflexivity. simpl.
    try label_step_with update_slider_label_run. split; reflexivity.
Qed.

Lemma on_set_sp_frame os g :
  let g' := snd (on_set_sp os g) in
  fst (on_set_sp os g) = Ok tt /\ hist_view g' = hist_view g.
Proof.
  unfold on_set_sp, messagebox, after_cancel.
  munfold. simpl.
  destruct (client g) as [i|]; simpl; [|split; reflexivity].
  destruct (send_setpoint_frame i (sp_slider_var g) os g) as (Hs & _ & Hh & _).
  destruct (send_setpoint i (sp_slider_var g) os g) as [o g1]. simpl in *. subst o.
  try label_step_with update_slider_label_run.
  unfold hist_view in *. simpl.
  destruct (slider_revert_after_id g1); simpl; split; solve [reflexivity | assumption].
Qed.

End Frames.

(* ================================================================= *)
(** ** The pending calls *)

Section Timers.

Context {F : Type} {RT : PyRuntime F}.

Implicit Types g : CentrifugeGUI F.

Lemma in_cancel_timer j t ts :
  In t (cancel_timer j ts) <-> In t ts /\ t_id t <> j.
Proof.
  unfold cancel_timer. rewrite filter_In, negb_true_iff, Nat.eqb_neq. tauto.
Qed.

Lemma nodup_cancel_timer j ts :
  NoDup (map t_id ts) -> NoDup (map t_id (cancel_timer j ts)).
Proof.
  induction ts as [|t ts IH]; simpl; intros H; [constructor|].
  inversion H as [|? ? Hnotin Hnd]; subst.
  destruct (negb (t_id t =? j)%nat); simpl; [|auto].
  constructor; [|auto].
  intros Hin. apply Hnotin. apply in_map_iff in Hin as (u & Heq & Hu).
  apply in_cancel_timer in Hu as [Hu _]. apply in_map_iff. eauto.
Qed.

Lemma nodup_snoc_fresh ts t :
  NoDup (map t_id ts) -> (forall u, In u ts -> (t_id u < t_id t)%nat) ->
  NoDup (map t_id (ts ++ [t])).
Proof.
  intros Hnd Hlt. rewrite map_app. simpl.
  apply NoDup_app; [exact Hnd | repeat constructor; intros [] |].
  intros x Hin [Hx|[]]. subst x. apply in_map_iff in Hin as (u & Heq & Hu).
  specialize (Hlt u Hu). lia.
Qed.

Lemma pending_in g j t :
  pending g j = Some t -> In t (timers g) /\ t_id t = j.
Proof.
  unfold pending. intros H. apply find_some in H as [Hin Heq].
  apply Nat.eqb_eq in Heq. tauto.
Qed.

Lemma in_pending g j t :
  NoDup (map t_id (timers g)) -> In t (timers g) -> t_id t = j -> pending g j = Some t.
Proof.
  unfold pending. induction (timers g) as [|u ts IH]; simpl; intros Hnd Hin Hid.
  - contradiction.
  - inversion Hnd as [|? ? Hnotin Hnd']; subst.
    destruct (Nat.eqb_spec (t_id u) (t_id t)) as [E|E].
    + destruct Hin as [->|Hin]; [reflexivity|].
      exfalso. apply Hnotin. rewrite E. apply in_map. exact Hin.
    + destruct Hin as [->|Hin]; [congruence|]. apply IH; auto.
Qed.

(** The timer built by [after ms cb] in state [g]. *)
Lemma after_run ms cb g :
  after ms cb g
  = (Ok (next_after g),
     set_next_after (S (next_after g))
       (set_timers (timers g ++ [{| t_id := next_after g; t_due := now g + ms; t_cb := cb |}]) g)).
Proof. reflexivity. Qed.

Lemma on_slider_changed_ignored v g :
  ignore_slider_change g = true -> on_slider_changed v g = (Ok tt, g).
Proof.
  intros H. unfold on_slider_changed. munfold. simpl. rewrite H. reflexivity.
Qed.

(** A user move: the named revert, if any, is cancelled and a fresh one is
    scheduled five seconds from now. *)
Lemma on_slider_changed_ctl v g :
  ignore_slider_change g = false ->
  ctl_view (snd (on_slider_changed v g))
  = (match slider_revert_after_id g with
     | Some j => cancel_timer j (timers g)
     | None => timers g
     end ++ [{| t_id := next_after g; t_due := now g + 5000; t_cb := CbRevert |}],
     S (next_after g), Some (next_after g), true, now g).
Proof.
  intros H. unfold on_slider_changed, after_cancel, after. munfold. simpl. rewrite H.
  destruct (update_slider_label_run v g) as [s E]. rewrite E. simpl.
  destruct (slider_revert_after_id g); reflexivity.
Qed.

Lemma revert_ctl g :
  ctl_view (snd (revert_slider_to_current_sp g))
  = (timers g, next_after g, None, false, now g).
Proof.
  unfold revert_slider_to_current_sp. munfold. simpl.
  destruct (current_sp_value g) as [|s|n|x] eqn:Ev; simpl; try reflexivity.
  - rewrite sp_slider_var_set_ignored by reflexivity. simpl. reflexivity.
  - destruct (round_float x) as [n|e]; simpl; [|reflexivity].
    rewrite sp_slider_var_set_ignored by reflexivity. simpl. reflexivity.
Qed.

Lemma on_set_sp_ctl os g :
  ctl_view (snd (on_set_sp os g))
  = match client g with
    | None => ctl_view g
    | Some _ =>
        (match slider_revert_after_id g with
         | Some j => cancel_timer j (timers g)
         | None => timers g
         end, next_after g, None, false, now g)
    end.
Proof.
  unfold on_set_sp, messagebox, after_cancel. munfold. simpl.
  destruct (client g) as [i|]; simpl; [|reflexivity].
  destruct (send_setpoint_frame i (sp_slider_var g) os g) as (Hs & Hc & _).
  destruct (send_setpoint i (sp_slider_var g) os g) as [o g1]. simpl in *. subst o.
  unfold ctl_view in *. injection Hc as Ht Hn Hi Ha Hw. simpl.
  rewrite Hi. destruct (slider_revert_after_id g); simpl; congruence.
Qed.

Lemma handle_device_line_frame line g :
  let r := _handle_device_line line g in
  fst r = Ok tt /\ ctl_view (snd r) = ctl_view g /\ net_view (snd r) = net_view g.
Proof.
  unfold _handle_device_line. munfold. rewrite handle_device_line_reading_eq. cbv zeta.
  destruct (startswith _ _); [|repeat split; reflexivity].
  pose proof (device_line_try_frame (strip line) (set_stdout (stdout g ++ [line ++ nl]) g))
    as (Hc & Hn & _).
  destruct (device_line_try _ _) as [[r|e] g']; simpl in *; repeat split; assumption.
Qed.

Lemma drain_status_frame turns g :
  let r := drain_status turns g in
  fst r = Ok tt /\ ctl_view (snd r) = ctl_view g /\ hist_view (snd r) = hist_view g.
Proof.
  revert g. induction turns as [|n IH]; intros g; simpl; [repeat split; reflexivity|].
  unfold _append_log. munfold. simpl.
  destruct (status_queue g) as [|msg q]; simpl; [repeat split; reflexivity|].
  match goal with |- context [drain_status n ?h] => destruct (IH h) as (A & B & C) end.
  repeat split; assumption.
Qed.

Lemma drain_incoming_ctl turns g :
  let r := drain_incoming turns g in
  fst r = Ok tt /\ ctl_view (snd r) = ctl_view g.
Proof.
  revert g. induction turns as [|n IH]; intros g; simpl; [repeat split; reflexivity|].
  munfold. simpl.
  destruct (incoming_queue g) as [|line q]; simpl; [repeat split; reflexivity|].
  match goal with
  | |- context [_handle_device_line line ?h] =>
      destruct (handle_device_line_frame line h) as (A & B & _);
      destruct (_handle_device_line line h) as [o g1]
  end.
  simpl in *. subst o.
  destruct (IH g1) as (A & C). split; [exact A|]. rewrite C. exact B.
Qed.

(** A turn of the poll loop leaves the revert alone and schedules the next
    turn. *)
Lemma poll_ctl g :
  fst (_poll_queues g) = Ok tt
  /\ ctl_view (snd (_poll_queues g))
     = (timers g ++ [{| t_id := next_after g; t_due := now g + 100; t_cb := CbPoll |}],
        S (next_after g), slider_revert_after_id g, user_adjusting_slider g, now g).
Proof.
  unfold _poll_queues, after. munfold. simpl.
  destruct (drain_status_frame (length (status_queue g)) g) as (A & B & _).
  destruct (drain_status _ g) as [o g1]. simpl in *. subst o.
  destruct (drain_incoming_ctl (length (incoming_queue g1)) g1) as (A & C).
  destruct (drain_incoming _ g1) as [o g2]. simpl in *. subst o. simpl.
  rewrite B in C. unfold ctl_view in *. injection C as Ht Hn Hi Ha Hw.
  split; [reflexivity|]. simpl. congruence.
Qed.

End Timers.

(* ================================================================= *)
(** ** Invariants of the main loop *)

Section Invariants.

Context {F : Type} {RT : PyRuntime F}.

Implicit Types g : CentrifugeGUI F.

Lemma ctl_view_inv g ts nx id adj nw :
  ctl_view g = (ts, nx, id, adj, nw) ->
  timers g = ts /\ next_after g = nx /\ slider_revert_after_id g = id
  /\ user_adjusting_slider g = adj /\ now g = nw.
Proof. unfold ctl_view. intros H. injection H as -> -> -> -> ->. tauto. Qed.

Lemma run_callback_ctl m g :
  ctl_view (run_callback m g) = ctl_view (snd (m g)).
Proof. unfold run_callback. destruct (m g) as [[u|e] g']; reflexivity. Qed.

Lemma run_callback_hist m g :
  hist_view (run_callback m g) = hist_view (snd (m g)).
Proof. unfold run_callback. destruct (m g) as [[u|e] g']; reflexivity. Qed.

Lemma wf_transport g g' :
  timers g' = timers g -> next_after g' = next_after g ->
  slider_revert_after_id g' = slider_revert_after_id g ->
  user_adjusting_slider g' = user_adjusting_slider g ->
  wf_timers g -> wf_timers g'.
Proof.
  intros Ht Hn Hi Ha [H1 H2 H3 H4 H5].
  constructor; rewrite ?Ht, ?Hn, ?Hi, ?Ha; assumption.
Qed.

Lemma wf_same_ctl g g' : ctl_view g' = ctl_view g -> wf_timers g -> wf_timers g'.
Proof.
  intros H. apply ctl_view_inv in H as (Ht & Hn & Hi & Ha & _).
  apply wf_transport; assumption.
Qed.

(** No revert is left once the named one is cancelled. *)
Lemma no_revert_after_cancel g t :
  wf_timers g ->
  In t (match slider_revert_after_id g with
        | Some j => cancel_timer j (timers g)
        | None => timers g
        end) ->
  t_cb t <> CbRevert.
Proof.
  intros [_ _ Hrev _ _] Hin Hcb.
  destruct (slider_revert_after_id g) as [j|] eqn:Ej.
  - apply in_cancel_timer in Hin as [Hin Hne].
    specialize (Hrev t Hin Hcb). congruence.
  - specialize (Hrev t Hin Hcb). discriminate.
Qed.

Lemma in_after_cancel g t :
  In t (match slider_revert_after_id g with
        | Some j => cancel_timer j (timers g)
        | None => timers g
        end) ->
  In t (timers g).
Proof.
  destruct (slider_revert_after_id g); [|tauto].
  intros H. apply in_cancel_timer in H. tauto.
Qed.

Lemma nodup_after_cancel g :
  NoDup (map t_id (timers g)) ->
  NoDup (map t_id (match slider_revert_after_id g with
                   | Some j => cancel_timer j (timers g)
                   | None => timers g
                   end)).
Proof.
  destruct (slider_revert_after_id g); [apply nodup_cancel_timer | tauto].
Qed.

(** Arming: what [on_slider_changed] does to the pending calls. *)
Lemma wf_arm g g' due :
  wf_timers g ->
  timers g' = match slider_revert_after_id g with
              | Some j => cancel_timer j (timers g)
              | None => timers g
              end ++ [{| t_id := next_after g; t_due := due; t_cb := CbRevert |}] ->
  next_after g' = S (next_after g) ->
  slider_revert_after_id g' = Some (next_after g) ->
  user_adjusting_slider g' = true ->
  wf_timers g'.
Proof.
  intros Hwf Ht Hn Hi Ha. pose proof Hwf as [Hnd Hfresh Hrev Hpend Hadj].
  constructor; rewrite ?Ht, ?Hn, ?Hi, ?Ha.
  - apply nodup_snoc_fresh; [apply nodup_after_cancel; exact Hnd|].
    intros u Hu. simpl. apply Hfresh. apply in_after_cancel. exact Hu.
  - intros t Hin. apply in_app_iff in Hin as [Hin | [<- | []]]; simpl; [|lia].
    apply in_after_cancel in Hin. specialize (Hfresh t Hin). lia.
  - intros t Hin Hcb. apply in_app_iff in Hin as [Hin | [<- | []]]; [|reflexivity].
    exfalso. exact (no_revert_after_cancel g t Hwf Hin Hcb).
  - intros j Hj. injection Hj as <-.
    eexists. split; [apply in_app_iff; right; left; reflexivity|]. split; reflexivity.
  - split; [discriminate | reflexivity].
Qed.

(** Clearing: what [on_set_sp] and the fired revert do. *)
Lemma wf_clear g g' :
  wf_timers g ->
  timers g' = match slider_revert_after_id g with
              | Some j => cancel_timer j (timers g)
              | None => timers g
              end ->
  next_after g' = next_after g ->
  slider_revert_after_id g' = None ->
  user_adjusting_slider g' = false ->
  wf_timers g'.
Proof.
  intros Hwf Ht Hn Hi Ha. pose proof Hwf as [Hnd Hfresh Hrev Hpend Hadj].
  constructor; rewrite ?Ht, ?Hn, ?Hi, ?Ha.
  - apply nodup_after_cancel. exact Hnd.
  - intros t Hin. apply Hfresh. apply in_after_cancel. exact Hin.
  - intros t Hin Hcb. exfalso. exact (no_revert_after_cancel g t Hwf Hin Hcb).
  - discriminate.
  - split; [discriminate | congruence].
Qed.

(** Scheduling the next poll. *)
Lemma wf_poll g g' due :
  wf_timers g ->
  timers g' = timers g ++ [{| t_id := next_after g; t_due := due; t_cb := CbPoll |}] ->
  next_after g' = S (next_after g) ->
  slider_revert_after_id g' = slider_revert_after_id g ->
  user_adjusting_slider g' = user_adjusting_slider g ->
  wf_timers g'.
Proof.
  intros Hwf Ht Hn Hi Ha. pose proof Hwf as [Hnd Hfresh Hrev Hpend Hadj].
  constructor; rewrite ?Ht, ?Hn, ?Hi, ?Ha.
  - apply nodup_snoc_fresh; [exact Hnd|]. intros u Hu. simpl. auto.
  - intros t Hin. apply in_app_iff in Hin as [Hin | [<- | []]]; simpl; [|lia].
    specialize (Hfresh t Hin). lia.
  - intros t Hin Hcb. apply in_app_iff in Hin as [Hin | [<- | []]]; [auto | discriminate].
  - intros j Hj. destruct (Hpend j Hj) as (t & Hin & Hid & Hcb).
    exists t. split; [apply in_app_iff; left; exact Hin | tauto].
  - exact Hadj.
Qed.

(** Taking a due poll out of the pending calls. *)
Lemma wf_take_poll g i t :
  wf_timers g -> pending g i = Some t -> t_cb t = CbPoll ->
  wf_timers (set_timers (cancel_timer i (timers g)) g).
Proof.
  intros Hwf Hp Hcb. pose proof Hwf as [Hnd Hfresh Hrev Hpend Hadj].
  constructor; simpl.
  - apply nodup_cancel_timer. exact Hnd.
  - intros u Hu. apply in_cancel_timer in Hu as [Hu _]. auto.
  - intros u Hu Hc. apply in_cancel_timer in Hu as [Hu _]. auto.
  - intros j Hj. destruct (Hpend j Hj) as (u & Hin & Hid & Hc).
    exists u. split; [|tauto]. apply in_cancel_timer. split; [exact Hin|].
    intros E. rewrite (in_pending g i u Hnd Hin E) in Hp. congruence.
  - exact Hadj.
Qed.

(** A pending revert is the named one. *)
Lemma pending_revert_named g i t :
  wf_timers g -> pending g i = Some t -> t_cb t = CbRevert ->
  slider_revert_after_id g = Some i.
Proof.
  intros [_ _ Hrev _ _] Hp Hcb. apply pending_in in Hp as [Hin Hid].
  rewrite <- Hid. auto.
Qed.

Lemma step_wf g ev : wf_timers g -> wf_timers (step g ev).
Proof.
  intros Hwf. destruct ev; simpl.
  - revert Hwf. apply wf_transport; reflexivity.
  - revert Hwf. apply wf_transport; reflexivity.
  - destruct (enabled (connect_button g)); [|exact Hwf].
    apply (wf_same_ctl g); [|exact Hwf].
    rewrite run_callback_ctl. apply on_connect_frame.
  - destruct (enabled (disconnect_button g)); [|exact Hwf].
    apply (wf_same_ctl g); [|exact Hwf].
    rewrite run_callback_ctl. apply on_disconnect_frame.
  - destruct (enabled (set_button g)); [|exact Hwf].
    pose proof (on_set_sp_ctl os g) as H. rewrite <- run_callback_ctl in H.
    destruct (client g).
    + apply ctl_view_inv in H as (Ht & Hn & Hi & Ha & _).
      apply (wf_clear g); assumption.
    + apply (wf_same_ctl g); assumption.
  - set (g0 := set_sp_slider_var pos g).
    assert (Hwf0 : wf_timers g0) by (revert Hwf; apply wf_transport; reflexivity).
    destruct (ignore_slider_change g0) eqn:Ei.
    + unfold run_callback. rewrite on_slider_changed_ignored by exact Ei. exact Hwf0.
    + pose proof (on_slider_changed_ctl (VStr value_str) g0 Ei) as H.
      rewrite <- run_callback_ctl in H.
      apply ctl_view_inv in H as (Ht & Hn & Hi & Ha & _).
      apply (wf_arm g0 _ (now g0 + 5000)); assumption.
  - revert Hwf. apply wf_transport; reflexivity.
  - fold (pending g i). destruct (pending g i) as [t|] eqn:Hp; [|exact Hwf].
    destruct (t_due t <=? now g); [|exact Hwf].
    destruct (t_cb t) eqn:Hcb; simpl.
    + pose proof (wf_take_poll g i t Hwf Hp Hcb) as Hwf0.
      destruct (poll_ctl (set_timers (cancel_timer i (timers g)) g)) as (_ & H).
      rewrite <- run_callback_ctl in H.
      apply ctl_view_inv in H as (Ht & Hn & Hi & Ha & _).
      eapply wf_poll; eassumption.
    + pose proof (pending_revert_named g i t Hwf Hp Hcb) as Hid.
      pose proof (revert_ctl (set_timers (cancel_timer i (timers g)) g)) as H.
      rewrite <- run_callback_ctl in H.
      apply ctl_view_inv in H as (Ht & Hn & Hi & Ha & _).
      apply (wf_clear g); try assumption.
      rewrite Ht, Hid. reflexivity.
  - apply (wf_same_ctl g); [|exact Hwf]. apply run_step_frame.
Qed.

Lemma init_wf : wf_timers (init (F := F)).
Proof.
  unfold init. munfold.
  destruct (update_slider_label_run (VInt 25) widgets0) as [s E]. rewrite E.
  set (g0 := set_sp_slider_label_var s widgets0).
  assert (Hwf0 : wf_timers g0).
  { constructor; simpl; try (intros; contradiction); try discriminate.
    - constructor.
    - split; [discriminate | congruence]. }
  destruct (poll_ctl g0) as (_ & H).
  apply ctl_view_inv in H as (Ht & Hn & Hi & Ha & _).
  eapply wf_poll; eassumption.
Qed.

Lemma reachable_wf g : reachable g -> wf_timers g.
Proof.
  induction 1 as [|g ev _ IH]; [apply init_wf | apply step_wf; exact IH].
Qed.

(** At most one revert is pending, and it is the named one. *)
Lemma wf_revert_timers g :
  wf_timers g ->
  match slider_revert_after_id g with
  | Some j => exists t, revert_timers g = [t] /\ t_id t = j
  | None => revert_timers g = []
  end.
Proof.
  intros [Hnd Hfresh Hrev Hpend Hadj]. unfold revert_timers.
  assert (Hall : forall t, In t (filter (fun t => match t_cb t with
                                                   | CbRevert => true
                                                   | CbPoll => false
                                                   end) (timers g)) ->
                 slider_revert_after_id g = Some (t_id t)).
  { intros t Hin. apply filter_In in Hin as [Hin Hcb].
    apply Hrev; [exact Hin|]. destruct (t_cb t); [discriminate | reflexivity]. }
  assert (Hnd' : NoDup (map t_id (filter (fun t => match t_cb t with
                                                     | CbRevert => true
                                                     | CbPoll => false
                                                     end) (timers g)))).
  { clear - Hnd. induction (timers g) as [|t ts IH]; simpl; [constructor|].
    inversion Hnd as [|? ? Hnotin Hnd']; subst.
    destruct (t_cb t); simpl; [auto|].
    constructor; [|auto]. intros Hin. apply Hnotin.
    apply in_map_iff in Hin as (u & Heq & Hu). apply filter_In in Hu as [Hu _].
    apply in_map_iff. eauto. }
  destruct (slider_revert_after_id g) as [j|] eqn:Ej.
  - destruct (Hpend j eq_refl) as (t & Hin & Hid & Hcb).
    assert (Hin' : In t (filter (fun t => match t_cb t with
                                           | CbRevert => true
                                           | CbPoll => false
                                           end) (timers g))).
    { apply filter_In. rewrite Hcb. tauto. }
    destruct (filter _ (timers g)) as [|u [|v rest]].
    + contradiction.
    + exists u. split; [reflexivity|]. destruct Hin' as [->|[]]. exact Hid.
    + exfalso. pose proof (Hall u (or_introl eq_refl)) as Hu.
      pose proof (Hall v (or_intror (or_introl eq_refl))) as Hv.
      simpl in Hnd'. inversion Hnd' as [|? ? Hnotin _]; subst.
      apply Hnotin. left. congruence.
  - destruct (filter _ (timers g)) as [|u rest]; [reflexivity|].
    specialize (Hall u (or_introl eq_refl)). discriminate.
Qed.

End Invariants.

(* ================================================================= *)
(** ** The history lists *)

Section History.

Context {F : Type} {RT : PyRuntime F}.

Implicit Types g : CentrifugeGUI F.

Lemma max_points_pos : (0 < max_points)%nat.
Proof. unfold max_points. apply Nat.lt_0_succ. Qed.

Lemma length_recent n : length (recent n) = Nat.min n max_points.
Proof. unfold recent. rewrite length_map, length_seq. reflexivity. Qed.

Lemma tl_map {A B} (f : A -> B) (l : list A) : tl (map f l) = map f (tl l).
Proof. destruct l; reflexivity. Qed.

(** One more accepted reading. *)
Lemma recent_push n :
  (let idx := recent n ++ [Z.of_nat (S n)] in
   if (max_points <? length idx)%nat then tl idx else idx) = recent (S n).
Proof.
  cbv zeta. rewrite length_app, length_recent. unfold recent.
  pose proof max_points_pos as Hpos. revert Hpos.
  generalize max_points as m. intros m Hpos. simpl length.
  change [Z.of_nat (S n)] with (map Z.of_nat [S n]). rewrite <- map_app.
  destruct (Nat.le_gt_cases m n) as [Hle | Hlt].
  - rewrite (Nat.min_r n m) by lia. rewrite (Nat.min_r (S n) m) by lia.
    replace (m <? m + 1)%nat with true by (symmetry; apply Nat.ltb_lt; lia).
    rewrite tl_map. f_equal.
    replace [S n] with [S (n - m) + m]%nat by (f_equal; lia).
    rewrite <- seq_S. replace (S n - m)%nat with (S (n - m)) by lia. reflexivity.
  - rewrite (Nat.min_l n m) by lia. rewrite (Nat.min_l (S n) m) by lia.
    replace (m <? n + 1)%nat with false by (symmetry; apply Nat.ltb_ge; lia).
    f_equal. replace (n - n)%nat with O by lia. replace (S n - S n)%nat with O by lia.
    replace [S n] with [1 + n]%nat by reflexivity.
    rewrite <- seq_S. reflexivity.
Qed.

(** However the [try] block ends short of a reading, the history is as it
    was. *)
Lemma device_line_try_rejected line g o g' :
  device_line_try line g = (o, g') ->
  (forall r, o <> Ok (Some r)) ->
  hist_view g' = hist_view g.
Proof.
  intros H Hno.
  unfold device_line_try, update_slider_label, sp_slider_var_set, on_slider_changed,
    _update_plot in H.
  mexec H; pair_inv H;
    repeat match goal with
           | E : pop0 (_ ++ [_]) = _ |- _ => rewrite pop0_snoc in E; discriminate E
           end;
    try reflexivity;
    exfalso; eapply Hno; reflexivity.
Qed.

Lemma hist_ok_ext g g' : hist_view g' = hist_view g -> hist_ok g -> hist_ok g'.
Proof.
  unfold hist_view. intros H [H1 H2 H3 H4]. injection H as Hc Hi Ht Hs.
  constructor; rewrite ?Hc, ?Hi, ?Ht, ?Hs; assumption.
Qed.

Lemma length_tl {A} (l : list A) : length (tl l) = pred (length l).
Proof. destruct l; reflexivity. Qed.

(** An accepted reading keeps the history well formed. *)
Lemma accepted_hist_ok line g r g' :
  device_line_try line g = (Ok (Some r), g') -> hist_ok g -> hist_ok g'.
Proof.
  intros H [Hc Hi Ht Hs].
  apply device_line_try_accepted in H
    as (_ & _ & _ & _ & _ & Hcount & (Hidx & Htemp & Hsp) & _).
  assert (Hn : sample_count g + 1 = Z.of_nat (S (Z.to_nat (sample_count g)))) by lia.
  assert (Hidx' : sample_indices g' = recent (S (Z.to_nat (sample_count g)))).
  { rewrite <- recent_push. cbv zeta. rewrite <- Hi, <- Hn.
    rewrite Hidx. destruct (_ <? _)%nat; reflexivity. }
  constructor.
  - lia.
  - rewrite Hcount, Hn, Nat2Z.id. exact Hidx'.
  - rewrite Htemp, Hidx.
    destruct (_ <? _)%nat; unfold id; rewrite ?length_tl, !length_app; simpl; lia.
  - rewrite Hsp, Hidx.
    destruct (_ <? _)%nat; unfold id; rewrite ?length_tl, !length_app; simpl; lia.
Qed.

Lemma handle_device_line_hist_ok line g :
  hist_ok g -> hist_ok (snd (_handle_device_line line g)).
Proof.
  intros Hok. unfold _handle_device_line. munfold.
  rewrite handle_device_line_reading_eq. cbv zeta.
  set (g0 := set_stdout (stdout g ++ [line ++ nl]) g).
  assert (Hok0 : hist_ok g0) by (revert Hok; apply hist_ok_ext; reflexivity).
  destruct (startswith _ _); [|exact Hok0].
  destruct (device_line_try (strip line) g0) as [[[r|]|e] g'] eqn:E; simpl.
  - exact (accepted_hist_ok _ _ _ _ E Hok0).
  - apply (hist_ok_ext g0); [|exact Hok0].
    apply (device_line_try_rejected _ _ _ _ E). intros r; discriminate.
  - apply (hist_ok_ext g0); [|exact Hok0].
    apply (device_line_try_rejected _ _ _ _ E). intros r; discriminate.
Qed.

Lemma drain_incoming_hist_ok turns g :
  hist_ok g -> hist_ok (snd (drain_incoming turns g)).
Proof.
  revert g. induction turns as [|n IH]; intros g Hok; simpl; [exact Hok|].
  munfold. simpl.
  destruct (incoming_queue g) as [|line q]; simpl; [exact Hok|].
  match goal with
  | |- context [_handle_device_line line ?h] =>
      pose proof (handle_device_line_hist_ok line h) as Hh;
      destruct (handle_device_line_frame line h) as (A & _);
      destruct (_handle_device_line line h) as [o g1]
  end.
  simpl in *. subst o. apply IH. apply Hh.
  revert Hok. apply hist_ok_ext. reflexivity.
Qed.

Lemma poll_hist_ok g : hist_ok g -> hist_ok (snd (_poll_queues g)).
Proof.
  intros Hok. unfold _poll_queues, after. munfold. simpl.
  destruct (drain_status_frame (length (status_queue g)) g) as (A & _ & B).
  destruct (drain_status _ g) as [o g1]. simpl in *. subst o.
  pose proof (drain_incoming_hist_ok (length (incoming_queue g1)) g1
                (hist_ok_ext g g1 B Hok)) as Hok2.
  destruct (drain_incoming_ctl (length (incoming_queue g1)) g1) as (A & _).
  destruct (drain_incoming _ g1) as [o g2]. simpl in *. subst o. simpl.
  revert Hok2. apply hist_ok_ext. reflexivity.
Qed.

Lemma step_hist_ok g ev : hist_ok g -> hist_ok (step g ev).
Proof.
  intros Hok. destruct ev; simpl.
  - revert Hok. apply hist_ok_ext. reflexivity.
  - revert Hok. apply hist_ok_ext. reflexivity.
  - destruct (enabled _); [|exact Hok].
    apply (hist_ok_ext g); [|exact Hok]. rewrite run_callback_hist. apply on_connect_frame.
  - destruct (enabled _); [|exact Hok].
    apply (hist_ok_ext g); [|exact Hok]. rewrite run_callback_hist. apply on_disconnect_frame.
  - destruct (enabled _); [|exact Hok].
    apply (hist_ok_ext g); [|exact Hok]. rewrite run_callback_hist. apply on_set_sp_frame.
  - apply (hist_ok_ext g); [|exact Hok]. rewrite run_callback_hist.
    destruct (on_slider_changed_frame (VStr value_str) (set_sp_slider_var pos g))
      as (_ & H & _).
    rewrite H. reflexivity.
  - revert Hok. apply hist_ok_ext. reflexivity.
  - destruct (find _ _) as [t|]; [|exact Hok].
    destruct (t_due t <=? now g); [|exact Hok].
    set (g0 := set_timers (cancel_timer i (timers g)) g).
    assert (Hok0 : hist_ok g0) by (revert Hok; apply hist_ok_ext; reflexivity).
    destruct (t_cb t); simpl.
    + apply (hist_ok_ext (snd (_poll_queues g0))); [apply run_callback_hist|].
      apply poll_hist_ok. exact Hok0.
    + apply (hist_ok_ext g0); [|exact Hok0]. rewrite run_callback_hist.
      apply revert_frame.
  - apply (hist_ok_ext g); [|exact Hok]. apply run_step_frame.
Qed.

Lemma init_hist_ok : hist_ok (init (F := F)).
Proof.
  unfold init. munfold.
  destruct (update_slider_label_run (VInt 25) widgets0) as [s E]. rewrite E.
  apply poll_hist_ok. constructor; simpl; try reflexivity; lia.
Qed.

Lemma reachable_hist_ok g : reachable g -> hist_ok g.
Proof.
  induction 1 as [|g ev _ IH]; [apply init_hist_ok | apply step_hist_ok; exact IH].
Qed.

Lemma reachable_run_events g evs : reachable g -> reachable (run_events g evs).
Proof.
  revert g. induction evs as [|ev evs IH]; intros g H; simpl; [exact H|].
  apply IH. constructor. exact H.
Qed.

Lemma push_bounded_eq {A} (l : list A) (idx : list Z) (x : A) (n : Z) :
  length l = length idx ->
  (if Nat.ltb max_points (length (idx ++ [n])) then @tl A else id) (l ++ [x])
  = push_bounded l x.
Proof.
  intros H. unfold push_bounded. rewrite !length_app, H. simpl.
  destruct (_ <? _)%nat; reflexivity.
Qed.

Lemma recent_301 : recent 301 = map Z.of_nat (seq 2 300).
Proof. reflexivity. Qed.

Lemma handle_reading_count line g o g' :
  hist_ok g -> handle_device_line_reading line g = (o, g') ->
  hist_ok g'
  /\ sample_count g' = sample_count g
                       + match o with Ok (Some _) => 1 | _ => 0 end.
Proof.
  intros Hok H. rewrite handle_device_line_reading_eq in H. cbv zeta in H.
  set (g0 := set_stdout (stdout g ++ [line ++ nl]) g) in *.
  assert (Hok0 : hist_ok g0) by (revert Hok; apply hist_ok_ext; reflexivity).
  destruct (startswith _ _).
  - destruct (device_line_try (strip line) g0) as [[[r|]|e] g1] eqn:E; pair_inv H.
    + split; [exact (accepted_hist_ok _ _ _ _ E Hok0)|].
      apply device_line_try_accepted in E as (_ & _ & _ & _ & _ & Hc & _). exact Hc.
    + assert (Hv : hist_view g' = hist_view g0)
        by (apply (device_line_try_rejected _ _ _ _ E); intros r; discriminate).
      split; [exact (hist_ok_ext g0 g' Hv Hok0)|].
      unfold hist_view in Hv. injection Hv as Hc _ _ _. rewrite Hc. simpl. lia.
    + assert (Hv : hist_view g' = hist_view g0)
        by (apply (device_line_try_rejected _ _ _ _ E); intros r; discriminate).
      split; [exact (hist_ok_ext g0 g' Hv Hok0)|].
      unfold hist_view in Hv. injection Hv as Hc _ _ _. rewrite Hc. simpl. lia.
  - pair_inv H. split; [exact Hok0 | simpl; lia].
Qed.

Lemma feed_count lines g :
  hist_ok g ->
  hist_ok (snd (feed lines g))
  /\ sample_count (snd (feed lines g)) = sample_count g + Z.of_nat (fst (feed lines g)).
Proof.
  revert g. induction lines as [|line rest IH]; intros g Hok; simpl.
  - split; [exact Hok | lia].
  - destruct (handle_device_line_reading line g) as [o g'] eqn:E.
    destruct (handle_reading_count line g o g' Hok E) as [Hok' Hc].
    destruct (IH g' Hok') as [Hok'' Hc'].
    destruct (feed rest g') as [k g'']. simpl in *.
    split; [exact Hok''|]. rewrite Hc', Hc.
    destruct o as [[r|]|e]; simpl; lia.
Qed.

Lemma hist_ok_301 (h : CentrifugeGUI F) :
  hist_ok h -> sample_count h = 301 ->
  ~ In 1 (sample_indices h) /\ In 301 (sample_indices h)
  /\ length (sample_indices h) = 300%nat.
Proof.
  intros [_ Hi _ _] H301. rewrite Hi, H301.
  change (Z.to_nat 301) with 301%nat. rewrite recent_301.
  split; [|split].
  - intros Hin. apply in_map_iff in Hin as (k & Hk & Hin).
    apply in_seq in Hin. lia.
  - apply in_map_iff. exists 301%nat. split; [reflexivity|]. apply in_seq. lia.
  - rewrite length_map, length_seq. reflexivity.
Qed.

(** C3.  In every reachable state the three history lists have the same
    length, at most 300, and the sample numbers are those of the most recent
    readings.  A line that yields a reading appends one entry to each list and
    drops the oldest entry of each when that makes 301; a line that yields
    none leaves the lists alone.  Whatever lines are handled next, the sample
    counter grows by the number of readings they yield and the bound holds;
    when the counter stands at 301, that is after 301 accepted readings,
    sample 1 is gone and sample 301 is there. *)
Theorem C3_history_bounded g :
  reachable g ->
  (length (sample_indices g) <= 300)%nat
  /\ length (temp_history g) = length (sample_indices g)
  /\ length (sp_history g) = length (sample_indices g)
  /\ sample_indices g = recent (Z.to_nat (sample_count g))
  /\ (forall line r g',
        handle_device_line_reading line g = (Ok (Some r), g') ->
        sample_count g' = sample_count g + 1
        /\ sample_indices g' = push_bounded (sample_indices g) (sample_count g + 1)
        /\ temp_history g' = push_bounded (temp_history g) (rpm r)
        /\ sp_history g' = push_bounded (sp_history g) (setpoint r)
        /\ (length (sample_indices g') <= 300)%nat)
  /\ (forall line g',
        handle_device_line_reading line g = (Ok None, g') ->
        hist_view g' = hist_view g)
  /\ (forall lines,
        let k := fst (feed lines g) in
        let g' := snd (feed lines g) in
        sample_count g' = sample_count g + Z.of_nat k
        /\ (length (sample_indices g') <= 300)%nat
        /\ (sample_count g' = 301 ->
            ~ In 1 (sample_indices g') /\ In 301 (sample_indices g')
            /\ length (sample_indices g') = 300%nat)).
Proof.
  intros Hr. pose proof (reachable_hist_ok g Hr) as Hok.
  pose proof Hok as [Hc Hi Ht Hs].
  assert (Hlen : forall h : CentrifugeGUI F, hist_ok h ->
                 (length (sample_indices h) <= 300)%nat).
  { intros h [_ Hhi _ _]. rewrite Hhi, length_recent. apply Nat.le_min_r. }
  split; [apply Hlen; exact Hok|].
  split; [exact Ht|]. split; [exact Hs|]. split; [exact Hi|].
  split; [|split].
  - intros line r g' H. rewrite handle_device_line_reading_eq in H. cbv zeta in H.
    destruct (startswith _ _); [|discriminate].
    set (g0 := set_stdout (stdout g ++ [line ++ nl]) g) in *.
    destruct (device_line_try (strip line) g0) as [[ro|e] g1] eqn:E; [|discriminate].
    pair_inv H.
    assert (Hok0 : hist_ok g0) by (revert Hok; apply hist_ok_ext; reflexivity).
    pose proof (accepted_hist_ok _ _ _ _ E Hok0) as Hok'.
    apply device_line_try_accepted in E
      as (_ & _ & _ & _ & _ & Hcount & (Hidx & Htemp & Hsp) & _).
    simpl in *.
    split; [exact Hcount|].
    split; [rewrite Hidx; apply push_bounded_eq; reflexivity|].
    split; [rewrite Htemp; apply push_bounded_eq; exact Ht|].
    split; [rewrite Hsp; apply push_bounded_eq; exact Hs|].
    apply Hlen. exact Hok'.
  - intros line g' H. rewrite handle_device_line_reading_eq in H. cbv zeta in H.
    destruct (startswith _ _); [|pair_inv H; reflexivity].
    destruct (device_line_try (strip line) _) as [[ro|e] g1] eqn:E; pair_inv H.
    + apply (device_line_try_rejected _ _ _ _ E). intros r; discriminate.
    + apply (device_line_try_rejected _ _ _ _ E). intros r; discriminate.
  - intros lines. cbv zeta.
    destruct (feed_count lines g Hok) as [Hok' Hcount].
    split; [exact Hcount|]. split; [apply Hlen; exact Hok'|].
    apply hist_ok_301. exact Hok'.
Qed.

End History.

(** C3, witness: 301 status lines handled by a fresh GUI. *)
Lemma C3_history_bounded_witness :
  let r := feed (repeat demo_line 301) init in
  fst r = 301%nat
  /\ ~ In 1 (sample_indices (snd r)) /\ In 301 (sample_indices (snd r))
  /\ length (sample_indices (snd r)) = 300%nat.
Proof.
  cbv zeta.
  assert (Hk : fst (feed (repeat demo_line 301) init) = 301%nat) by (vm_compute; reflexivity).
  assert (H0 : sample_count init = 0) by (vm_compute; reflexivity).
  split; [exact Hk|].
  destruct (proj2 (proj2 (proj2 (proj2 (proj2 (proj2
             (C3_history_bounded init reach_init))))))
             (repeat demo_line 301)) as (Hc & _ & H).
  apply H. rewrite Hc, H0, Hk. reflexivity.
Defined.

(* ================================================================= *)
(** ** The device link *)

Section DeviceLink.

Context {F : Type} {RT : PyRuntime F}.

Implicit Types g : CentrifugeGUI F.

Lemma nth_error_update_nth {A} (f : A -> A) (l : list A) i k :
  nth_error (update_nth i f l) k
  = if Nat.eqb k i then option_map f (nth_error l k) else nth_error l k.
Proof.
  revert i k. induction l as [|x l IH]; intros i k.
  - destruct i, k; simpl; try reflexivity; destruct (Nat.eqb _ _); reflexivity.
  - destruct i, k; simpl; try reflexivity. apply IH.
Qed.

(** The four ways [send_setpoint] can go. *)
Lemma send_setpoint_unopened i value os g c :
  nth_error (heap g) i = Some c -> sock c = None ->
  send_setpoint i value os g
  = (Ok tt, set_status_queue (status_queue g ++ [L "Not connected."]) g).
Proof.
  intros Hc Hs. unfold send_setpoint, deref, status_put. munfold.
  rewrite Hc, Hs. reflexivity.
Qed.

Lemma send_setpoint_closed i value os g c s :
  nth_error (heap g) i = Some c -> sock c = Some s -> sock_closed s = true ->
  send_setpoint i value os g
  = (Ok tt, set_status_queue
              (status_queue g ++ [L "Send error: [Errno 9] Bad file descriptor"]) g).
Proof.
  intros Hc Hs Hcl. unfold send_setpoint, deref, sendall, status_put. munfold.
  rewrite Hc, Hs. simpl. rewrite Hcl. reflexivity.
Qed.

Lemma send_setpoint_failed i value err g c s :
  nth_error (heap g) i = Some c -> sock c = Some s -> sock_closed s = false ->
  send_setpoint i value (Some err) g
  = (Ok tt, set_status_queue (status_queue g ++ [L "Send error: " ++ err]) g).
Proof.
  intros Hc Hs Hcl. unfold send_setpoint, deref, sendall, status_put. munfold.
  rewrite Hc, Hs. simpl. rewrite Hcl. reflexivity.
Qed.

Lemma send_setpoint_sent i value g c s :
  nth_error (heap g) i = Some c -> sock c = Some s -> sock_closed s = false ->
  exists g',
    send_setpoint i value None g = (Ok tt, g')
    /\ sent_by g' i = sent_by g i ++ [str_of_Z value ++ nl]
    /\ (forall k, k <> i -> nth_error (heap g') k = nth_error (heap g) k)
    /\ status_queue g' = status_queue g ++ [L "Sent setpoint: " ++ str_of_Z value]
    /\ ctl_view g' = ctl_view g /\ display_view g' = display_view g
    /\ hist_view g' = hist_view g /\ client g' = client g /\ dialogs g' = dialogs g.
Proof.
  intros Hc Hs Hcl. unfold send_setpoint, deref, sendall, status_put, with_client. munfold.
  rewrite Hc, Hs. simpl. rewrite Hcl. simpl.
  eexists. split; [reflexivity|]. simpl.
  split.
  - unfold sent_by. simpl. rewrite nth_error_update_nth, Nat.eqb_refl, Hc, Hs. reflexivity.
  - split; [|repeat split; reflexivity].
    intros k Hk. rewrite nth_error_update_nth.
    destruct (Nat.eqb_spec k i); [contradiction | reflexivity].
Qed.

(** [close] marks the socket of a connected client closed and keeps it. *)
Lemma close_closes_socket i g c s :
  nth_error (heap g) i = Some c -> sock c = Some s ->
  exists c',
    nth_error (heap (snd (close i g))) i = Some c'
    /\ sock c' = Some (close_socket s) /\ stop_event c' = true
    /\ status_queue (snd (close i g)) = status_queue g.
Proof.
  intros Hc Hs. unfold close, with_client. munfold. simpl.
  rewrite nth_error_update_nth, Nat.eqb_refl, Hc. simpl.
  eexists. split; [reflexivity|]. simpl. rewrite Hs. repeat split; reflexivity.
Qed.

(** C9 (as amended).  On a client whose socket was never opened,
    [send_setpoint] puts "Not connected." on the status queue and does nothing
    else.  Once [close] has run on a client that had a socket, the socket
    object is still there, closed: the call puts a "Send error: ..." message,
    not "Not connected.", and writes nothing.  A write that fails on an open
    socket puts a "Send error: ..." message and leaves the client as it was:
    the reader thread still delivers the next line. *)
Theorem C9_send_without_connection g i c value :
  nth_error (heap g) i = Some c ->
  (sock c = None ->
   forall os,
     send_setpoint i value os g
     = (Ok tt, set_status_queue (status_queue g ++ [L "Not connected."]) g))
  /\ (forall s os,
        sock c = Some s ->
        let g1 := snd (close i g) in
        send_setpoint i value os g1
        = (Ok tt, set_status_queue
                    (status_queue g1 ++ [L "Send error: [Errno 9] Bad file descriptor"]) g1)
        /\ sent_by (snd (send_setpoint i value os g1)) i = sent_by g i)
  /\ (forall s err,
        sock c = Some s -> sock_closed s = false ->
        let g' := snd (send_setpoint i value (Some err) g) in
        send_setpoint i value (Some err) g
        = (Ok tt, set_status_queue (status_queue g ++ [L "Send error: " ++ err]) g)
        /\ heap g' = heap g
        /\ (forall raw,
              pc c = Reading -> stop_event c = false -> strip raw <> [] ->
              incoming_queue (snd (run_step i (NetLine raw) g'))
              = incoming_queue g ++ [strip raw])).
Proof.
  intros Hc. split; [|split].
  - intros Hs os. exact (send_setpoint_unopened i value os g c Hc Hs).
  - intros s os Hs. cbv zeta.
    destruct (close_closes_socket i g c s Hc Hs) as (c' & Hc' & Hs' & _).
    set (g1 := snd (close i g)) in *.
    rewrite (send_setpoint_closed i value os g1 c' (close_socket s) Hc' Hs' eq_refl).
    split; [reflexivity|]. unfold sent_by. cbn [snd].
    change (heap (set_status_queue ?q g1)) with (heap g1).
    rewrite Hc', Hs', Hc, Hs. reflexivity.
  - intros s err Hs Hopen. cbv zeta.
    rewrite (send_setpoint_failed i value err g c s Hc Hs Hopen).
    split; [reflexivity|]. split; [reflexivity|].
    intros raw Hpc Hstop Hraw. simpl.
    unfold run_step, deref, incoming_put. munfold. simpl.
    rewrite Hc, Hpc, Hstop. destruct (strip raw); [contradiction | reflexivity].
Qed.

End DeviceLink.

(** C9, witness: the connected client of [g_connected]. *)
Lemma C9_send_without_connection_witness :
  let c := {| host := L "192.168.1.49"; port := 5000; stop_event := false;
              sock := Some {| sock_closed := false; sock_sent := [] |};
              sock_file := Some false; pc := Reading |} in
  nth_error (heap g_connected) 0 = Some c
  /\ send_setpoint 0 50 (Some (L "[Errno 32] Broken pipe")) g_connected
     = (Ok tt, set_status_queue
                 (status_queue g_connected ++ [L "Send error: " ++ L "[Errno 32] Broken pipe"])
                 g_connected).
Proof.
  intros c.
  assert (Hc : nth_error (heap g_connected) 0 = Some c) by (vm_compute; reflexivity).
  split; [exact Hc|].
  exact (proj1 (proj2 (proj2 (C9_send_without_connection g_connected 0 c 50 Hc))
                  {| sock_closed := false; sock_sent := [] |}
                  (L "[Errno 32] Broken pipe") eq_refl eq_refl)).
Defined.

(** C9, as stated, fails: after the reader thread has run [close] on the
    connected client (the peer closed the stream), a send reports a send
    error, not "Not connected.". *)
Lemma C9_counterexample_send_after_close :
  option_map stop_event (nth_error (heap g_peer_closed) 0) = Some true
  /\ option_map sock (nth_error (heap g_peer_closed) 0)
     = Some (Some {| sock_closed := true; sock_sent := [] |})
  /\ status_queue (snd (send_setpoint 0 50 None g_peer_closed))
     = [L "Connecting to 192.168.1.49:5000 ..."; L "Connected."; L "Disconnected.";
        L "Send error: [Errno 9] Bad file descriptor"].
Proof. vm_compute. repeat split; reflexivity. Qed.

(* ================================================================= *)
(** ** The setpoint workflow *)

Section Workflow.

Context {F : Type} {RT : PyRuntime F}.

Implicit Types g : CentrifugeGUI F.

Lemma adjusting_named g :
  wf_timers g -> workflow_of g = Adjusting ->
  exists j t, slider_revert_after_id g = Some j /\ pending g j = Some t
              /\ t_cb t = CbRevert /\ revert_timers g = [t].
Proof.
  intros Hwf Hadj. unfold workflow_of in Hadj.
  destruct (user_adjusting_slider g) eqn:Ea; [|discriminate].
  pose proof Hwf as [Hnd _ _ Hpend Hiff].
  destruct (slider_revert_after_id g) as [j|] eqn:Ej.
  - destruct (Hpend j eq_refl) as (t & Hin & Hid & Hcb).
    exists j, t. split; [reflexivity|].
    split; [apply in_pending; assumption|]. split; [exact Hcb|].
    pose proof (wf_revert_timers g Hwf) as H. rewrite Ej in H.
    destruct H as (u & Hu & Hid'). rewrite Hu. f_equal.
    assert (Hin' : In u (revert_timers g)) by (rewrite Hu; left; reflexivity).
    unfold revert_timers in Hin'. apply filter_In in Hin' as [Hin' _].
    pose proof (in_pending g j u Hnd Hin' Hid') as P1.
    pose proof (in_pending g j t Hnd Hin Hid) as P2. congruence.
  - exfalso. apply (proj1 Hiff); [exact Ea | reflexivity].
Qed.

(** C4.  With the workflow in Adjusting, a client whose socket is open and a
    write the operating system accepts, [on_set_sp] writes exactly one
    message, the slider position [V] in decimal followed by a newline, cancels
    the pending revert, stores [V] as the current setpoint and shows it, and
    leaves the workflow Idle. *)
Theorem C4_confirm_sends_candidate g i c s V :
  reachable g -> workflow_of g = Adjusting ->
  client g = Some i -> nth_error (heap g) i = Some c ->
  sock c = Some s -> sock_closed s = false ->
  sp_slider_var g = V ->
  exists g',
    on_set_sp None g = (Ok tt, g')
    /\ sent_by g' i = sent_by g i ++ [str_of_Z V ++ nl]
    /\ (forall k, k <> i -> nth_error (heap g') k = nth_error (heap g) k)
    /\ status_queue g' = status_queue g ++ [L "Sent setpoint: " ++ str_of_Z V]
    /\ current_sp_value g' = VInt V
    /\ sp_var g' = format_fixed 1 (float_of_int V) ++ L " C"
    /\ workflow_of g' = Idle
    /\ slider_revert_after_id g' = None
    /\ revert_timers g' = []
    /\ (exists j, slider_revert_after_id g = Some j
                  /\ timers g' = cancel_timer j (timers g))
    /\ (set_button g = Normal -> step g (ClickSet None) = g').
Proof.
  intros Hr Hadj Hcl Hc Hs Hopen HV. subst V.
  pose proof (reachable_wf g Hr) as Hwf.
  destruct (adjusting_named g Hwf Hadj) as (j & t & Hj & _).
  pose proof (on_set_sp_ctl None g) as Hctl. rewrite Hcl, Hj in Hctl.
  pose proof (on_set_sp_frame None g) as [Hok _].
  destruct (send_setpoint_sent i (sp_slider_var g) g c s Hc Hs Hopen)
    as (g1 & E & Hsent & Hother & Hst & Hctl1 & Hdisp1 & _ & Hcl1 & _).
  destruct (on_set_sp None g) as [o g'] eqn:Eset. simpl in Hok, Hctl. subst o.
  exists g'. split; [reflexivity|].
  apply ctl_view_inv in Hctl as (Ht & Hn & Hi & Ha & _).
  assert (Hwf' : wf_timers g').
  { apply (wf_clear g); try assumption. rewrite Hj. exact Ht. }
  assert (Hrest : sent_by g' i = sent_by g1 i /\ heap g' = heap g1
                  /\ status_queue g' = status_queue g1
                  /\ current_sp_value g' = VInt (sp_slider_var g)
                  /\ sp_var g' = format_fixed 1 (float_of_int (sp_slider_var g)) ++ L " C").
  { unfold on_set_sp, after_cancel in Eset. munfold. simpl in Eset.
    rewrite Hcl in Eset. simpl in Eset. rewrite E in Eset. simpl in Eset.
    unfold update_slider_label in Eset. munfold. simpl in Eset.
    destruct (slider_revert_after_id g1); simpl in Eset; pair_inv Eset;
      unfold sent_by; simpl; repeat split; reflexivity. }
  destruct Hrest as (Hs1 & Hh1 & Hq1 & Hcur & Hsp).
  split; [rewrite Hs1; exact Hsent|].
  split; [intros k Hk; rewrite Hh1; apply Hother; exact Hk|].
  split; [rewrite Hq1; exact Hst|].
  split; [exact Hcur|]. split; [exact Hsp|].
  split; [unfold workflow_of; rewrite Ha; reflexivity|].
  split; [exact Hi|].
  split.
  { pose proof (wf_revert_timers g' Hwf') as H. rewrite Hi in H. exact H. }
  split; [exists j; split; [exact Hj | exact Ht]|].
  intros Hbtn. simpl. rewrite Hbtn. simpl. unfold run_callback. rewrite Eset. reflexivity.
Qed.



Lemma revert_timers_ext g g' : timers g' = timers g -> revert_timers g' = revert_timers g.
Proof. unfold revert_timers. intros ->. reflexivity. Qed.

Lemma fired_revert_wf g j t g' :
  wf_timers g -> pending g j = Some t -> t_cb t = CbRevert ->
  ctl_view g' = (cancel_timer j (timers g), next_after g, None, false, now g) ->
  wf_timers g' /\ revert_timers g' = [].
Proof.
  intros Hwf Hp Hcb Hctl.
  pose proof (pending_revert_named g j t Hwf Hp Hcb) as Hid.
  apply ctl_view_inv in Hctl as (Ht & Hn & Hi & Ha & _).
  assert (Hwf' : wf_timers g').
  { apply (wf_clear g); try assumption. rewrite Hid. exact Ht. }
  split; [exact Hwf'|].
  pose proof (wf_revert_timers g' Hwf') as H. rewrite Hi in H. exact H.
Qed.

(** What a user move does, when it is taken as one. *)
Lemma drag_slider g pos value_str :
  wf_timers g -> ignore_slider_change g = false ->
  let g1 := step g (DragSlider pos value_str) in
  let t := {| t_id := next_after g; t_due := now g + 5000; t_cb := CbRevert |} in
  wf_timers g1
  /\ sp_slider_var g1 = pos
  /\ slider_revert_after_id g1 = Some (next_after g)
  /\ pending g1 (next_after g) = Some t
  /\ revert_timers g1 = [t]
  /\ workflow_of g1 = Adjusting
  /\ now g1 = now g
  /\ next_after g1 = S (next_after g)
  /\ ignore_slider_change g1 = false
  /\ current_sp_value g1 = current_sp_value g
  /\ (forall u, In u (revert_timers g) -> ~ In u (timers g1)).
Proof.
  intros Hwf Hign. cbv zeta. simpl.
  set (g0 := set_sp_slider_var pos g).
  assert (Hwf0 : wf_timers g0) by (revert Hwf; apply wf_transport; reflexivity).
  pose proof (on_slider_changed_ctl (VStr value_str) g0 Hign) as Hctl.
  rewrite <- run_callback_ctl in Hctl.
  assert (Hrest : sp_slider_var (run_callback (on_slider_changed (VStr value_str)) g0) = pos
                  /\ ignore_slider_change (run_callback (on_slider_changed (VStr value_str)) g0) = false
                  /\ current_sp_value (run_callback (on_slider_changed (VStr value_str)) g0)
                     = current_sp_value g).
  { unfold run_callback, on_slider_changed, after_cancel, after. munfold. simpl.
    rewrite Hign.
    destruct (update_slider_label_run (VStr value_str) g0) as [s E]. rewrite E. simpl.
    destruct (slider_revert_after_id g); simpl; repeat split; assumption. }
  destruct Hrest as (Hpos & Hign' & Hcur).
  set (g1 := run_callback (on_slider_changed (VStr value_str)) g0) in *.
  apply ctl_view_inv in Hctl as (Ht & Hn & Hi & Ha & Hw).
  assert (Hwf1 : wf_timers g1) by (apply (wf_arm g0 _ (now g0 + 5000)); assumption).
  assert (Hin : In {| t_id := next_after g; t_due := now g + 5000; t_cb := CbRevert |}
                  (timers g1)).
  { rewrite Ht. apply in_app_iff. right. left. reflexivity. }
  split; [exact Hwf1|]. split; [exact Hpos|]. split; [exact Hi|].
  split; [apply in_pending; [apply Hwf1 | exact Hin | reflexivity]|].
  split.
  { pose proof (wf_revert_timers g1 Hwf1) as H. rewrite Hi in H.
    destruct H as (u & Hu & Hid). rewrite Hu. f_equal.
    assert (Hin' : In u (revert_timers g1)) by (rewrite Hu; left; reflexivity).
    unfold revert_timers in Hin'. apply filter_In in Hin' as [Hin' _].
    pose proof (in_pending g1 _ u (wf_nodup Hwf1) Hin' Hid) as P1.
    pose proof (in_pending g1 _ _ (wf_nodup Hwf1) Hin eq_refl) as P2.
    simpl in P1, P2. congruence. }
  split; [unfold workflow_of; rewrite Ha; reflexivity|].
  split; [exact Hw|]. split; [exact Hn|]. split; [exact Hign'|]. split; [exact Hcur|].
  intros u Hu Hin1. unfold revert_timers in Hu. apply filter_In in Hu as [Hu Hcb].
  assert (Hcb' : t_cb u = CbRevert) by (destruct (t_cb u); [discriminate | reflexivity]).
  pose proof (wf_revert Hwf u Hu Hcb') as Hid.
  pose proof (wf_fresh Hwf u Hu) as Hlt.
  rewrite Ht in Hin1. apply in_app_iff in Hin1 as [Hin1 | [Heq | []]].
  - change (slider_revert_after_id g0) with (slider_revert_after_id g) in Hin1.
    change (timers g0) with (timers g) in Hin1.
    rewrite Hid in Hin1. apply in_cancel_timer in Hin1 as [_ Hne]. congruence.
  - subst u. simpl in Hlt. change (next_after g0) with (next_after g) in Hlt. lia.
Qed.



(** In every reachable state at most one revert is pending.  A user move,
    one that [on_slider_changed] does not take for a programmatic write,
    leaves exactly one, due 5000 ms after the move, and the revert that was
    pending before is gone; a second move after [ms] more milliseconds leaves
    exactly one again, due 5000 ms after the second move. *)
Lemma single_revert_timer g pos value_str :
  reachable g ->
  (length (revert_timers g) <= 1)%nat
  /\ (ignore_slider_change g = false ->
      let g1 := step g (DragSlider pos value_str) in
      revert_timers g1
      = [{| t_id := next_after g; t_due := now g + 5000; t_cb := CbRevert |}]
      /\ slider_revert_after_id g1 = Some (next_after g)
      /\ (forall u, In u (revert_timers g) -> ~ In u (timers g1))
      /\ workflow_of g1 = Adjusting
      /\ forall ms pos2 value_str2,
           let g2 := step (step g1 (Elapse ms)) (DragSlider pos2 value_str2) in
           revert_timers g2
           = [{| t_id := S (next_after g); t_due := now g + Z.of_N ms + 5000;
                 t_cb := CbRevert |}]
           /\ slider_revert_after_id g2 = Some (S (next_after g))
           /\ sp_slider_var g2 = pos2).
Proof.
  intros Hr. pose proof (reachable_wf g Hr) as Hwf. split.
  - pose proof (wf_revert_timers g Hwf) as H.
    destruct (slider_revert_after_id g).
    + destruct H as (t & -> & _). simpl. lia.
    + rewrite H. simpl. lia.
  - intros Hign. cbv zeta.
    destruct (drag_slider g pos value_str Hwf Hign)
      as (Hwf1 & _ & Hid & _ & Hrev & Hadj & Hnow & Hnext & Hign1 & _ & Hgone).
    set (g1 := step g (DragSlider pos value_str)) in *.
    split; [exact Hrev|]. split; [exact Hid|]. split; [exact Hgone|].
    split; [exact Hadj|].
    intros ms pos2 value_str2.
    set (g1' := step g1 (Elapse ms)).
    assert (Hwf1' : wf_timers g1') by (revert Hwf1; apply wf_transport; reflexivity).
    destruct (drag_slider g1' pos2 value_str2 Hwf1' Hign1)
      as (_ & Hpos2 & Hid2 & _ & Hrev2 & _).
    change (next_after g1') with (next_after g1) in *.
    change (now g1') with (now g1 + Z.of_N ms) in *.
    rewrite Hnext, Hnow in *.
    split; [exact Hrev2|]. split; [exact Hid2 | exact Hpos2].
Qed.

(** A reading comes out of the [try] block of the method. *)
Lemma reading_from_try line g r g' :
  handle_device_line_reading line g = (Ok (Some r), g') ->
  device_line_try (strip line) (set_stdout (stdout g ++ [line ++ nl]) g)
  = (Ok (Some r), g').
Proof.
  intros H. rewrite handle_device_line_reading_eq in H. cbv zeta in H.
  destruct (startswith _ _); [|discriminate].
  destruct (device_line_try _ _) as [[ro|e] g1]; [|discriminate].
  pair_inv H. reflexivity.
Qed.


(** C7 (as amended).  After a line that yields a reading, and if a client
    object exists, the Set button is disabled for state code 1, enabled for
    state code 0 and untouched for any other or no code; if no client exists
    the button is untouched whatever the code. *)
Theorem C7_readiness_gating g line r g' :
  handle_device_line_reading line g = (Ok (Some r), g') ->
  set_button g' = match client g, stateCode r with
                  | Some _, Some 1 => Disabled
                  | Some _, Some 0 => Normal
                  | _, _ => set_button g
                  end.
Proof.
  intros H. apply reading_from_try in H.
  apply device_line_try_accepted in H as (_ & _ & _ & _ & Hbtn & _).
  exact Hbtn.
Qed.

(** C8 (as amended).  With no connection active, [on_connect] reads the port
    entry, trimmed, as an integer.  If that fails an error box is shown and
    nothing else changes: no client is created.  If it succeeds, for any
    integer, positive or not, a client for that port is created and started. *)
Theorem C8_port_validation g :
  client g = None ->
  match int_of_str (strip (port_var g)) with
  | None =>
      on_connect g
      = (Ok tt, set_dialogs
                  (dialogs g ++ [{| d_kind := ShowError; d_title := L "Invalid port";
                                    d_message := L "Port must be an integer." |}]) g)
  | Some p =>
      exists g',
        on_connect g = (Ok tt, g')
        /\ heap g' = heap g ++ [{| host := strip (host_var g); port := p;
                                   stop_event := false; sock := None;
                                   sock_file := None; pc := Started |}]
        /\ client g' = Some (length (heap g))
        /\ dialogs g' = dialogs g
  end.
Proof.
  intros Hc. unfold on_connect, messagebox. munfold. simpl. rewrite Hc.
  destruct (int_of_str (strip (port_var g))) as [p|]; [|reflexivity].
  simpl. eexists. split; [reflexivity|]. simpl. repeat split; reflexivity.
Qed.

End Workflow.

(* ================================================================= *)
(** ** The statements on concrete runs *)

Lemma g_connected_reachable : reachable g_connected.
Proof. unfold g_connected. apply reachable_run_events. constructor. Qed.

Lemma g_adjusting_reachable : reachable g_adjusting.
Proof. unfold g_adjusting. apply reachable_run_events. apply g_connected_reachable. Qed.


Lemma g_late_line_reachable : reachable g_late_line.
Proof. unfold g_late_line. apply reachable_run_events. apply g_connected_reachable. Qed.

(** C4, witness: connected, slider dragged to 80, Set pressed. *)
Lemma C4_confirm_sends_candidate_witness :
  workflow_of g_adjusting = Adjusting
  /\ sp_slider_var g_adjusting = 80
  /\ exists g',
       on_set_sp None g_adjusting = (Ok tt, g')
       /\ sent_by g' 0 = sent_by g_adjusting 0 ++ [str_of_Z 80 ++ nl]
       /\ current_sp_value g' = VInt 80
       /\ workflow_of g' = Idle
       /\ revert_timers g' = [].
Proof.
  assert (Ha : workflow_of g_adjusting = Adjusting) by (vm_compute; reflexivity).
  assert (Hv : sp_slider_var g_adjusting = 80) by (vm_compute; reflexivity).
  assert (Hcl : client g_adjusting = Some 0%nat) by (vm_compute; reflexivity).
  assert (Hc : nth_error (heap g_adjusting) 0
               = Some {| host := L "192.168.1.49"; port := 5000; stop_event := false;
                         sock := Some {| sock_closed := false; sock_sent := [] |};
                         sock_file := Some false; pc := Reading |})
    by (vm_compute; reflexivity).
  split; [exact Ha|]. split; [exact Hv|].
  destruct (C4_confirm_sends_candidate g_adjusting 0 _ _ 80
              g_adjusting_reachable Ha Hcl Hc eq_refl eq_refl Hv)
    as (g' & H1 & H2 & _ & _ & H5 & _ & H7 & _ & H9 & _).
  exists g'. repeat split; assumption.
Defined.


(** Two moves, two seconds apart, after connecting. *)
Lemma single_revert_timer_example :
  ignore_slider_change g_connected = false
  /\ (length (revert_timers g_connected) <= 1)%nat
  /\ revert_timers
       (step (step (step g_connected (DragSlider 80 (L "80.0"))) (Elapse 2000))
          (DragSlider 90 (L "90.0")))
     = [{| t_id := S (next_after g_connected);
           t_due := now g_connected + Z.of_N 2000 + 5000; t_cb := CbRevert |}].
Proof.
  assert (Hi : ignore_slider_change g_connected = false) by (vm_compute; reflexivity).
  split; [exact Hi|].
  destruct (single_revert_timer g_connected 80 (L "80.0") g_connected_reachable)
    as [Hle H].
  split; [exact Hle|].
  destruct (H Hi) as (_ & _ & _ & _ & Htwo).
  exact (proj1 (Htwo 2000%N 90 (L "90.0"))).
Defined.

Lemma g_flag_stuck_reachable : reachable g_flag_stuck.
Proof. unfold g_flag_stuck. apply reachable_run_events. apply g_connected_reachable. Qed.

(** C6.  The claim fails on the code.  After connecting, the device reports
    the setpoint [nan] while the workflow is idle and the next poll handles
    the line: [int(round(nan))] raises between the setting and the clearing of
    [ignore_slider_change], the handler swallows the exception and the mark
    stays set.  In this reachable state the user moves the slider to 80 and,
    a second later, to 90: [on_slider_changed] returns at its first test both
    times, no revert is scheduled, the workflow stays Idle, and the slider
    stands at 90 with nothing to take it back. *)
Theorem C6_stuck_flag_moves_arm_no_revert :
  let g1 := step g_flag_stuck (DragSlider 80 (L "80.0")) in
  let g2 := step (step g1 (Elapse 1000)) (DragSlider 90 (L "90.0")) in
  reachable (RT := cpython) g_flag_stuck
  /\ workflow_of g_flag_stuck = Idle
  /\ ignore_slider_change g_flag_stuck = true
  /\ callback_errors g_flag_stuck = []
  /\ revert_timers g1 = [] /\ workflow_of g1 = Idle
  /\ revert_timers g2 = [] /\ workflow_of g2 = Idle
  /\ slider_revert_after_id g2 = None
  /\ sp_slider_var g2 = 90.
Proof.
  cbv zeta. split; [apply g_flag_stuck_reachable|].
  vm_compute. repeat split; reflexivity.
Qed.

(** C7, witness: the example line of the specification with state 0, handled
    while connected. *)
Lemma C7_readiness_gating_witness :
  fst (handle_device_line_reading demo_line g_connected)
  = Ok (Some {| rpm := B64.Fin false 5629499534213120 (-49);
                setpoint := B64.Fin false 5629499534213120 (-49);
                stateCode := Some 0; stateLabel := L "0" |})
  /\ set_button (snd (handle_device_line_reading demo_line g_connected)) = Normal.
Proof.
  assert (Hf : fst (handle_device_line_reading demo_line g_connected)
               = Ok (Some {| rpm := B64.Fin false 5629499534213120 (-49);
                             setpoint := B64.Fin false 5629499534213120 (-49);
                             stateCode := Some 0; stateLabel := L "0" |}))
    by (vm_compute; reflexivity).
  assert (Hcl : client g_connected = Some 0%nat) by (vm_compute; reflexivity).
  split; [exact Hf|].
  destruct (handle_device_line_reading demo_line g_connected) as [o g'] eqn:E.
  simpl in Hf. subst o. simpl.
  rewrite (C7_readiness_gating g_connected demo_line _ g' E), Hcl. reflexivity.
Defined.

(** C7, as stated, fails: a line with state code 0 that is handled after the
    user has disconnected yields a reading and leaves the Set button
    disabled. *)
Lemma C7_counterexample_no_client :
  incoming_queue g_late_line = [demo_line]
  /\ client g_late_line = None
  /\ set_button g_late_line = Disabled
  /\ fst (handle_device_line_reading demo_line g_late_line)
     = Ok (Some {| rpm := B64.Fin false 5629499534213120 (-49);
                   setpoint := B64.Fin false 5629499534213120 (-49);
                   stateCode := Some 0; stateLabel := L "0" |})
  /\ set_button (snd (handle_device_line_reading demo_line g_late_line)) = Disabled
  /\ incoming_queue (step g_late_line (RunTimer 0)) = []
  /\ sample_count (step g_late_line (RunTimer 0)) = 1
  /\ set_button (step g_late_line (RunTimer 0)) = Disabled.
Proof. vm_compute. repeat split; reflexivity. Qed.

(** C8, witness: a port that is not a number. *)
Lemma C8_port_validation_witness :
  client (g_port (L "50o0")) = None
  /\ on_connect (g_port (L "50o0"))
     = (Ok tt, set_dialogs
                 (dialogs (g_port (L "50o0"))
                  ++ [{| d_kind := ShowError; d_title := L "Invalid port";
                         d_message := L "Port must be an integer." |}])
                 (g_port (L "50o0"))).
Proof.
  assert (Hc : client (g_port (L "50o0")) = None) by (vm_compute; reflexivity).
  split; [exact Hc|].
  pose proof (C8_port_validation (g_port (L "50o0")) Hc) as H.
  assert (E : int_of_str (strip (port_var (g_port (L "50o0")))) = None)
    by (vm_compute; reflexivity).
  rewrite E in H. exact H.
Defined.

(** C8, as stated, fails: the ports 0 and -5 are not positive, yet no error
    is shown and a client is created and started for them. *)
Lemma C8_counterexample_nonpositive_port :
  (let g' := snd (on_connect (g_port (L "0"))) in
   dialogs g' = [] /\ client g' = Some 0%nat
   /\ option_map (fun c => (port c, pc c)) (nth_error (heap g') 0) = Some (0, Started))
  /\ (let g' := snd (on_connect (g_port (L "-5"))) in
      dialogs g' = [] /\ client g' = Some 0%nat
      /\ option_map (fun c => (port c, pc c)) (nth_error (heap g') 0) = Some (-5, Started)).
Proof. vm_compute. repeat split; reflexivity. Qed.


(* ================================================================= *)
(** ** More about the line handler *)

Section Handler.

Context {F : Type} {RT : PyRuntime F}.

Implicit Types g : CentrifugeGUI F.

Lemma device_line_try_frame_widgets line g :
  let g' := snd (device_line_try line g) in
  status_var g' = status_var g /\ host_var g' = host_var g /\ port_var g' = port_var g
  /\ connect_button g' = connect_button g /\ disconnect_button g' = disconnect_button g.
Proof.
  destruct (device_line_try line g) as [o g'] eqn:H. simpl.
  unfold device_line_try, update_slider_label, sp_slider_var_set, on_slider_changed,
    _update_plot in H.
  mexec H; pair_inv H; repeat split; reflexivity.
Qed.

(** The [try] block touches the Set button only when there is a client. *)
Lemma device_line_try_set_button line g :
  set_button (snd (device_line_try line g)) = set_button g \/ client g <> None.
Proof.
  destruct (device_line_try line g) as [o g'] eqn:H. simpl.
  unfold device_line_try, update_slider_label, sp_slider_var_set, on_slider_changed,
    _update_plot in H.
  mexec H; pair_inv H; first [left; reflexivity | right; simpl in *; congruence].
Qed.

(** The handler, as the poll loop sees it. *)
Lemma handle_device_line_widgets line g :
  let g' := snd (_handle_device_line line g) in
  stdout g' = stdout g ++ [line ++ nl]
  /\ incoming_queue g' = incoming_queue g
  /\ status_var g' = status_var g
  /\ connect_button g' = connect_button g
  /\ disconnect_button g' = disconnect_button g
  /\ (set_button g' = set_button g \/ client g <> None).
Proof.
  unfold _handle_device_line. munfold. rewrite handle_device_line_reading_eq. cbv zeta.
  set (g0 := set_stdout (stdout g ++ [line ++ nl]) g).
  destruct (startswith _ _); [|repeat split; try reflexivity; left; reflexivity].
  pose proof (device_line_try_frame (strip line) g0) as (_ & _ & Hq & Hs).
  pose proof (device_line_try_frame_widgets (strip line) g0) as (H1 & _ & _ & H4 & H5).
  pose proof (device_line_try_set_button (strip line) g0) as H6.
  destruct (device_line_try _ _) as [[r|e] g']; simpl in *; repeat split; assumption.
Qed.

(** X2.  A line that yields a reading while the user is not adjusting moves
    the slider to the rounded setpoint and shows it in the slider label; the
    workflow stays Idle, no revert is armed and the mark of a programmatic
    update is cleared, whether or not the toolkit relays the write to the
    slider callback. *)
Theorem X2_idle_reading_moves_slider g line r g' :
  workflow_of g = Idle ->
  handle_device_line_reading line g = (Ok (Some r), g') ->
  round_float (setpoint r) = Ok (sp_slider_var g')
  /\ sp_slider_label_var g' = L "SP to set: " ++ format_fixed 1 (setpoint r) ++ L " RPM"
  /\ workflow_of g' = Idle
  /\ ignore_slider_change g' = false
  /\ timers g' = timers g
  /\ slider_revert_after_id g' = slider_revert_after_id g.
Proof.
  intros Hidle H. apply reading_from_try in H.
  set (g0 := set_stdout (stdout g ++ [line ++ nl]) g) in *.
  pose proof (device_line_try_frame (strip line) g0) as (Hctl & _).
  rewrite H in Hctl. simpl in Hctl.
  apply ctl_view_inv in Hctl as (Ht & _ & Hi & Ha & _).
  apply device_line_try_accepted in H as (_ & _ & _ & _ & _ & _ & _ & Hsl).
  change (user_adjusting_slider g0) with (user_adjusting_slider g) in *.
  unfold workflow_of in *.
  destruct (user_adjusting_slider g); [discriminate|].
  destruct Hsl as (Hpos & Hlab & Hign).
  rewrite Ha. repeat split; assumption.
Qed.

End Handler.

(** X2, witness: the first status line after connecting. *)
Lemma X2_idle_reading_moves_slider_witness :
  workflow_of g_connected = Idle
  /\ sp_slider_var (snd (handle_device_line_reading demo_line g_connected)) = 10
  /\ ignore_slider_change (snd (handle_device_line_reading demo_line g_connected)) = false.
Proof.
  assert (Hi : workflow_of g_connected = Idle) by (vm_compute; reflexivity).
  assert (Hf : fst (handle_device_line_reading demo_line g_connected)
               = Ok (Some {| rpm := B64.Fin false 5629499534213120 (-49);
                             setpoint := B64.Fin false 5629499534213120 (-49);
                             stateCode := Some 0; stateLabel := L "0" |}))
    by (vm_compute; reflexivity).
  split; [exact Hi|].
  destruct (handle_device_line_reading demo_line g_connected) as [o g'] eqn:E.
  simpl in Hf. subst o. cbn [snd].
  destruct (X2_idle_reading_moves_slider g_connected demo_line _ g' Hi E)
    as (Hr & _ & _ & Hign & _).
  split; [|exact Hign].
  assert (Hten : B64.round (B64.Fin false 5629499534213120 (-49)) = Ok 10)
    by (vm_compute; reflexivity).
  change (B64.round (B64.Fin false 5629499534213120 (-49)) = Ok (sp_slider_var g')) in Hr.
  rewrite Hten in Hr. injection Hr as Hr. symmetry. exact Hr.
Defined.

(* ================================================================= *)
(** ** A status line with an empty state *)

Section EmptyState.

Context {F : Type} {RT : PyRuntime F}.

Implicit Types g : CentrifugeGUI F.

Lemma split_ws_from_nil (cur s : str) :
  split_ws_from cur s = [] -> cur = [] /\ forallb isspace s = true.
Proof.
  revert cur. induction s as [|c s IH]; intros cur H; simpl in *.
  - destruct cur; [tauto | discriminate].
  - destruct (isspace c) eqn:Ec.
    + destruct cur; [|discriminate]. destruct (IH [] H) as [_ Hs]. tauto.
    + destruct (IH (c :: cur) H) as [Hnil _]. discriminate.
Qed.

Lemma lstrip_blank (s : str) : forallb isspace s = true -> lstrip s = [].
Proof.
  induction s as [|c s IH]; simpl; [reflexivity|]. intros H.
  apply andb_true_iff in H as [Hc Hs]. rewrite Hc. auto.
Qed.

Lemma rstrip_blank (s : str) : forallb isspace s = true -> rstrip s = [].
Proof.
  intros H. unfold rstrip. rewrite lstrip_blank; [reflexivity|].
  apply forallb_forall. intros c Hc. apply in_rev in Hc.
  rewrite forallb_forall in H. auto.
Qed.

Lemma rstrip_app_blank (x y : str) : rstrip y = [] -> rstrip (x ++ y) = rstrip x.
Proof.
  intros Hy. induction x as [|c x IH]; simpl; [exact Hy|].
  rewrite !rstrip_cons, IH. reflexivity.
Qed.

Lemma no_token_blank (s : str) : has_token s = false -> forallb isspace s = true.
Proof.
  unfold has_token, split_ws. intros H.
  destruct (split_ws_from [] s) eqn:E; [|discriminate].
  apply split_ws_from_nil in E. tauto.
Qed.

(** Trimming a wire line whose state part is blank eats the blank after
    [STATE:] as well. *)
Lemma strip_wire_line_blank (a b rest : str) :
  has_token rest = false ->
  strip (wire_line a b rest) = (L "RPM: " ++ a ++ L " | SP: " ++ b) ++ L " | STATE:".
Proof.
  intros H. unfold strip, wire_line.
  replace (L "RPM: " ++ a ++ L " | SP: " ++ b ++ L " | STATE: " ++ rest)
    with (((L "RPM: " ++ a ++ L " | SP: " ++ b) ++ L " | STATE: ") ++ rest)
    by (rewrite <- !app_assoc; reflexivity).
  rewrite rstrip_app_blank by (apply rstrip_blank, no_token_blank; exact H).
  rewrite rstrip_app_keep by discriminate.
  reflexivity.
Qed.

Lemma split_ws_label (lab tok : str) :
  lab <> [] -> forallb (fun c => negb (isspace c)) lab = true ->
  tok <> [] -> forallb (fun c => negb (isspace c)) tok = true ->
  split_ws (lab ++ " "%char :: tok ++ L " ") = [lab; tok].
Proof.
  intros Hl Hlw Ht Htw. unfold split_ws.
  rewrite split_ws_from_run by exact Hlw. rewrite app_nil_r.
  cbn [split_ws_from]. change (isspace " ") with true. cbv iota.
  destruct (rev lab) eqn:El.
  { apply (f_equal (@rev _)) in El. rewrite rev_involutive in El. contradiction. }
  rewrite <- El, rev_involutive.
  rewrite split_ws_from_run by exact Htw. rewrite app_nil_r.
  cbn [L list_ascii_of_string split_ws_from]. change (isspace " ") with true. cbv iota.
  destruct (rev tok) eqn:Et.
  { apply (f_equal (@rev _)) in Et. rewrite rev_involutive in Et. contradiction. }
  rewrite <- Et, rev_involutive. reflexivity.
Qed.

Lemma blank_state_parts (a b : str) :
  tokenb a = true -> tokenb b = true ->
  exists p0 p1,
    map strip (split_on "|" ((L "RPM: " ++ a ++ L " | SP: " ++ b) ++ L " | STATE:"))
    = [p0; p1; L "STATE:"]
    /\ split_ws p0 = [L "RPM:"; a]
    /\ split_ws p1 = [L "SP:"; b].
Proof.
  intros Ha Hb.
  apply tokenb_parts in Ha as (Hane & Haw & Hab).
  apply tokenb_parts in Hb as (Hbne & Hbw & Hbb).
  exists (strip (L "RPM: " ++ a ++ L " ")), (strip (L " SP: " ++ b ++ L " ")).
  replace ((L "RPM: " ++ a ++ L " | SP: " ++ b) ++ L " | STATE:")
    with ((L "RPM: " ++ a ++ L " ") ++ "|"%char
          :: (L " SP: " ++ b ++ L " ") ++ "|"%char :: L " STATE:")
    by (simpl; rewrite <- !app_assoc; reflexivity).
  rewrite split_on_app by (simpl; rewrite forallb_app, Hab; reflexivity).
  rewrite split_on_app by (simpl; rewrite forallb_app, Hbb; reflexivity).
  rewrite split_on_none by reflexivity.
  split; [reflexivity|]. split.
  - rewrite split_ws_strip.
    change (L "RPM: " ++ a ++ L " ") with (L "RPM:" ++ " "%char :: a ++ L " ").
    apply split_ws_label; try assumption; [discriminate | reflexivity].
  - rewrite split_ws_strip.
    change (split_ws (L " SP: " ++ b ++ L " "))
      with (split_ws (L "SP:" ++ " "%char :: b ++ L " ")).
    apply split_ws_label; try assumption; [discriminate | reflexivity].
Qed.

(** X3.  A status line whose state part is empty, [RPM: a | SP: b | STATE:],
    with [a] and [b] floats and a setpoint that can be rounded (or the user
    adjusting): the RPM and setpoint readouts and the stored setpoint are
    updated and the state readout is blanked, but [state_str.split()[0]]
    raises an [IndexError] the inner [except ValueError] does not catch; the
    line yields no reading, the Set button is not gated and nothing is added
    to the history. *)
Theorem X3_empty_state_drops_sample g (a b rest : str) (x y : F) :
  tokenb a = true -> tokenb b = true -> has_token rest = false ->
  float_of_str a = Some x -> float_of_str b = Some y ->
  (is_finite y \/ user_adjusting_slider g = true) ->
  exists g',
    handle_device_line_reading (wire_line a b rest) g = (Ok None, g')
    /\ temp_var g' = format_fixed 2 x ++ L " "
    /\ sp_var g' = format_fixed 1 y ++ L " "
    /\ current_sp_value g' = VFloat y
    /\ state_var g' = []
    /\ set_button g' = set_button g
    /\ hist_view g' = hist_view g.
Proof.
  intros Ha Hb Hrest Hx Hy Hsync.
  rewrite handle_device_line_reading_eq. cbv zeta.
  rewrite (strip_wire_line_blank a b rest Hrest).
  change (startswith ((L "RPM: " ++ a ++ L " | SP: " ++ b) ++ L " | STATE:") (L "RPM:"))
    with true. cbv iota.
  destruct (blank_state_parts a b Ha Hb) as (p0 & p1 & Hparts & H0 & H1).
  set (g0 := set_stdout (stdout g ++ [wire_line a b rest ++ nl]) g).
  unfold device_line_try. rewrite Hparts.
  munfold. simpl. rewrite H0, H1. simpl. rewrite Hx, Hy. simpl.
  destruct (user_adjusting_slider g) eqn:Eadj.
  - simpl. eexists. split; [reflexivity|]. simpl. repeat split; reflexivity.
  - destruct Hsync as [[n Hn] | Hsync]; [|discriminate].
    rewrite Hn. simpl.
    rewrite sp_slider_var_set_ignored by reflexivity. simpl.
    eexists. split; [reflexivity|]. simpl. repeat split; reflexivity.
Qed.

End EmptyState.

(** X3, witness: a device that reports an empty state string. *)
Lemma X3_empty_state_drops_sample_witness :
  has_token (L " ") = false
  /\ exists g',
       handle_device_line_reading (L "RPM: 23.45 | SP: 50.0 | STATE:  ") g_connected
       = (Ok None, g')
       /\ temp_var g' = L "23.45 " /\ state_var g' = []
       /\ hist_view g' = hist_view g_connected.
Proof.
  split; [reflexivity|].
  destruct (@X3_empty_state_drops_sample _ cpython g_connected (L "23.45") (L "50.0") (L " ")
              (B64.Fin false 6600588203864883 (-48)) (B64.Fin false 7036874417766400 (-47)))
    as (g' & H & Ht & _ & _ & Hs & _ & Hh);
    try (vm_compute; reflexivity).
  { left. exists 50. vm_compute. reflexivity. }
  exists g'. repeat split; assumption.
Defined.

(* ================================================================= *)
(** ** The poll loop *)

Section Polling.

Context {F : Type} {RT : PyRuntime F}.

Implicit Types g : CentrifugeGUI F.

Lemma last_cons_default {A} (x d : A) (l : list A) : last (x :: l) d = last l x.
Proof.
  revert x d. induction l as [|y l IH]; intros x d; [reflexivity|].
  change (last (x :: y :: l) d) with (last (y :: l) d).
  rewrite (IH y d), (IH y x). reflexivity.
Qed.

(** The first loop of [_poll_queues]: every message goes to the console and
    into the status bar, the last one staying there. *)
Lemma drain_status_run turns g :
  (length (status_queue g) <= turns)%nat ->
  let g' := snd (drain_status turns g) in
  status_queue g' = []
  /\ stdout g' = stdout g ++ map (fun m => m ++ nl) (status_queue g)
  /\ status_var g' = last (status_queue g) (status_var g)
  /\ incoming_queue g' = incoming_queue g
  /\ (client g', heap g', dialogs g', callback_errors g')
     = (client g, heap g, dialogs g, callback_errors g)
  /\ (connect_button g', disconnect_button g', set_button g')
     = (connect_button g, disconnect_button g, set_button g).
Proof.
  revert g. induction turns as [|n IH]; intros g Hlen; simpl.
  - destruct (status_queue g); [|simpl in Hlen; lia].
    simpl. rewrite app_nil_r. repeat split; reflexivity.
  - unfold _append_log. munfold. simpl.
    destruct (status_queue g) as [|msg q] eqn:Eq; simpl.
    + rewrite Eq, app_nil_r. repeat split; reflexivity.
    + match goal with |- context [drain_status n ?h] => specialize (IH h) end.
      simpl in IH, Hlen. destruct IH as (A & B & C & D & E & G); [lia|].
      rewrite A, B, C, D, E, G, <- app_assoc.
      repeat split; try reflexivity.
      symmetry. exact (last_cons_default msg (status_var g) q).
Qed.

(** The second loop: every line goes through the handler. *)
Lemma drain_incoming_run turns g :
  (length (incoming_queue g) <= turns)%nat ->
  let g' := snd (drain_incoming turns g) in
  incoming_queue g' = []
  /\ stdout g' = stdout g ++ map (fun l => l ++ nl) (incoming_queue g)
  /\ status_var g' = status_var g
  /\ net_view g' = net_view g
  /\ connect_button g' = connect_button g
  /\ disconnect_button g' = disconnect_button g
  /\ (set_button g' = set_button g \/ client g <> None).
Proof.
  revert g. induction turns as [|n IH]; intros g Hlen; simpl.
  - destruct (incoming_queue g); [|simpl in Hlen; lia].
    simpl. rewrite app_nil_r. repeat split; try reflexivity. left; reflexivity.
  - munfold. simpl.
    destruct (incoming_queue g) as [|line q] eqn:Eq; simpl.
    + rewrite Eq, app_nil_r. repeat split; try reflexivity. left; reflexivity.
    + match goal with
      | |- context [_handle_device_line line ?h] =>
          destruct (handle_device_line_frame line h) as (A & _ & Hnet);
          destruct (handle_device_line_widgets line h) as (H1 & H2 & H3 & H4 & H5 & H6);
          destruct (_handle_device_line line h) as [o g1]
      end.
      simpl in *. subst o.
      destruct (IH g1) as (I1 & I2 & I3 & I4 & I5 & I6 & I7); [rewrite H2; lia|].
      rewrite I1, I2, I3, I4, I5, I6, H1, H2, H3, H4, H5, Hnet, <- app_assoc.
      repeat split; try reflexivity.
      assert (Hcl : client g1 = client g).
      { unfold net_view in Hnet. simpl in Hnet. congruence. }
      destruct I7 as [I7|I7]; [|right; congruence].
      destruct H6 as [H6|H6]; [left; congruence | right; exact H6].
Qed.

(** [_poll_queues], field by field. *)
Lemma poll_run g :
  let g' := snd (_poll_queues g) in
  status_queue g' = [] /\ incoming_queue g' = []
  /\ stdout g' = stdout g ++ map (fun m => m ++ nl) (status_queue g ++ incoming_queue g)
  /\ status_var g' = last (status_queue g) (status_var g)
  /\ (client g', heap g', dialogs g', callback_errors g')
     = (client g, heap g, dialogs g, callback_errors g)
  /\ connect_button g' = connect_button g
  /\ disconnect_button g' = disconnect_button g
  /\ (set_button g' = set_button g \/ client g <> None).
Proof.
  unfold _poll_queues, after. munfold. simpl.
  destruct (drain_status_frame (length (status_queue g)) g) as (A & _).
  destruct (drain_status_run (length (status_queue g)) g (le_n _))
    as (S1 & S2 & S3 & S4 & S5 & S6).
  destruct (drain_status _ g) as [o g1]. simpl in *. subst o.
  destruct (drain_incoming_ctl (length (incoming_queue g1)) g1) as (A & _).
  destruct (drain_incoming_run (length (incoming_queue g1)) g1 (le_n _))
    as (I1 & I2 & I3 & I4 & I5 & I6 & I7).
  destruct (drain_incoming _ g1) as [o g2]. simpl in *. subst o. simpl.
  unfold net_view in I4.
  injection S5 as Sc Sh Sd Se. injection S6 as Sb1 Sb2 Sb3.
  injection I4 as Ic Ih Iq Id Ie.
  rewrite Iq, S1, I1, I2, S2, S4, I3, S3, map_app, <- app_assoc.
  repeat split; try congruence.
Qed.

Lemma filter_filter_absorb {A} (f h : A -> bool) (l : list A) :
  (forall x, In x l -> f x = true -> h x = true) ->
  filter f (filter h l) = filter f l.
Proof.
  induction l as [|x l IH]; intros H; simpl; [reflexivity|].
  destruct (h x) eqn:Eh; simpl.
  - rewrite IH; [reflexivity|]. intros y Hy. apply H. right. exact Hy.
  - destruct (f x) eqn:Ef.
    + rewrite (H x (or_introl eq_refl) Ef) in Eh. discriminate.
    + apply IH. intros y Hy. apply H. right. exact Hy.
Qed.

Lemma poll_timers_ext g g' : timers g' = timers g -> poll_timers g' = poll_timers g.
Proof. unfold poll_timers. intros ->. reflexivity. Qed.

(** Cancelling the named revert takes no poll away. *)
Lemma poll_after_cancel g :
  wf_timers g ->
  filter (fun t => match t_cb t with CbPoll => true | CbRevert => false end)
    (match slider_revert_after_id g with
     | Some j => cancel_timer j (timers g)
     | None => timers g
     end)
  = poll_timers g.
Proof.
  intros [Hnd _ _ Hpend _]. unfold poll_timers.
  destruct (slider_revert_after_id g) as [j|]; [|reflexivity].
  destruct (Hpend j eq_refl) as (u & Hu & Hid & Hcb).
  unfold cancel_timer. apply filter_filter_absorb.
  intros x Hx Hpoll. apply negb_true_iff, Nat.eqb_neq. intros E.
  pose proof (in_pending g j x Hnd Hx E) as P1.
  pose proof (in_pending g j u Hnd Hu Hid) as P2.
  assert (x = u) by congruence. subst x. rewrite Hcb in Hpoll. discriminate.
Qed.

Lemma filter_none {A} (f : A -> bool) (l : list A) :
  (forall x, In x l -> f x = false) -> filter f l = [].
Proof.
  induction l as [|x l IH]; intros H; simpl; [reflexivity|].
  rewrite (H x (or_introl eq_refl)). apply IH. intros y Hy. apply H. right. exact Hy.
Qed.

Lemma step_one_poll g ev : wf_timers g -> one_poll g -> one_poll (step g ev).
Proof.
  intros Hwf (t & Ht & Hdue).
  assert (Hsame : forall g', ctl_view g' = ctl_view g -> one_poll g').
  { intros g' H. apply ctl_view_inv in H as (H1 & _ & _ & _ & H5).
    exists t. rewrite (poll_timers_ext g g' H1), H5. tauto. }
  destruct ev; simpl.
  - apply Hsame. reflexivity.
  - apply Hsame. reflexivity.
  - destruct (enabled (connect_button g)); [|exists t; tauto].
    apply Hsame. rewrite run_callback_ctl. apply on_connect_frame.
  - destruct (enabled (disconnect_button g)); [|exists t; tauto].
    apply Hsame. rewrite run_callback_ctl. apply on_disconnect_frame.
  - destruct (enabled (set_button g)); [|exists t; tauto].
    pose proof (on_set_sp_ctl os g) as H. rewrite <- run_callback_ctl in H.
    destruct (client g); [|apply Hsame; exact H].
    apply ctl_view_inv in H as (H1 & _ & _ & _ & H5).
    exists t. unfold poll_timers. rewrite H1, H5, (poll_after_cancel g Hwf). tauto.
  - set (g0 := set_sp_slider_var pos g).
    destruct (ignore_slider_change g0) eqn:Ei.
    + unfold run_callback. rewrite on_slider_changed_ignored by exact Ei.
      apply Hsame. reflexivity.
    + pose proof (on_slider_changed_ctl (VStr value_str) g0 Ei) as H.
      rewrite <- run_callback_ctl in H.
      apply ctl_view_inv in H as (H1 & _ & _ & _ & H5).
      exists t. unfold poll_timers. rewrite H1, H5, filter_app.
      change (slider_revert_after_id g0) with (slider_revert_after_id g).
      change (timers g0) with (timers g).
      rewrite (poll_after_cancel g Hwf). simpl. rewrite app_nil_r. tauto.
  - exists t. split; [exact Ht|]. simpl. lia.
  - fold (pending g i). destruct (pending g i) as [u|] eqn:Hp; [|exists t; tauto].
    destruct (t_due u <=? now g); [|exists t; tauto].
    pose proof Hwf as [Hnd _ _ _ _].
    destruct (t_cb u) eqn:Hcb; simpl.
    + destruct (poll_ctl (set_timers (cancel_timer i (timers g)) g)) as (_ & H).
      rewrite <- run_callback_ctl in H.
      apply ctl_view_inv in H as (H1 & _ & _ & _ & H5). simpl in H1, H5.
      eexists. unfold poll_timers. rewrite H1, H5, filter_app. simpl.
      rewrite filter_none; [split; [reflexivity | simpl; lia]|].
      intros x Hx. apply in_cancel_timer in Hx as [Hx Hne].
      destruct (t_cb x) eqn:Ex; [|reflexivity]. exfalso.
      assert (Hin : In x (poll_timers g)).
      { unfold poll_timers. apply filter_In. rewrite Ex. tauto. }
      assert (Hin' : In u (poll_timers g)).
      { apply pending_in in Hp as [Hu _]. unfold poll_timers. apply filter_In.
        rewrite Hcb. tauto. }
      rewrite Ht in Hin, Hin'. destruct Hin as [<-|[]]. destruct Hin' as [<-|[]].
      apply pending_in in Hp as [_ Hid]. contradiction.
    + pose proof (pending_revert_named g i u Hwf Hp Hcb) as Hid.
      pose proof (revert_ctl (set_timers (cancel_timer i (timers g)) g)) as H.
      rewrite <- run_callback_ctl in H.
      apply ctl_view_inv in H as (H1 & _ & _ & _ & H5). simpl in H1, H5.
      exists t. unfold poll_timers. rewrite H1, H5.
      pose proof (poll_after_cancel g Hwf) as Hpc. rewrite Hid in Hpc.
      rewrite Hpc. tauto.
  - apply Hsame. apply run_step_frame.
Qed.

Lemma init_one_poll : one_poll (init (F := F)).
Proof.
  unfold init. munfold.
  destruct (update_slider_label_run (VInt 25) widgets0) as [s E]. rewrite E.
  destruct (poll_ctl (set_sp_slider_label_var s widgets0)) as (_ & H).
  apply ctl_view_inv in H as (H1 & _ & _ & _ & H5).
  eexists. unfold poll_timers. rewrite H1, H5. simpl. split; [reflexivity | simpl; lia].
Qed.

(** As long as the console takes what is printed, the poll loop neither dies
    nor doubles. *)
Lemma reachable_one_poll g : reachable g -> one_poll g.
Proof.
  intros Hr. induction Hr as [|g ev Hr IH].
  - apply init_one_poll.
  - apply step_one_poll; [apply reachable_wf; exact Hr | exact IH].
Qed.

End Polling.

(* ================================================================= *)
(** ** The GUI and its client objects *)

Section Link.

Context {F : Type} {RT : PyRuntime F}.

Implicit Types g : CentrifugeGUI F.

Lemma length_update_nth {A} (f : A -> A) (l : list A) i :
  length (update_nth i f l) = length l.
Proof.
  revert i. induction l as [|x l IH]; intros [|i]; simpl; try reflexivity.
  rewrite IH. reflexivity.
Qed.

Lemma stops_update_nth i (f : HotplateClient -> HotplateClient) l :
  (forall c, stop_event (f c) = stop_event c) ->
  map stop_event (update_nth i f l) = map stop_event l.
Proof.
  intros Hf. revert i. induction l as [|x l IH]; intros [|i]; simpl; try reflexivity.
  - rewrite Hf. reflexivity.
  - rewrite IH. reflexivity.
Qed.

(** A flag that is clear after an update that sets flags at most was clear
    before. *)
Lemma live_update i (f : HotplateClient -> HotplateClient) l k :
  (forall c, stop_event (f c) = false -> stop_event c = false) ->
  nth_error (map stop_event (update_nth i f l)) k = Some false ->
  nth_error (map stop_event l) k = Some false.
Proof.
  intros Hf. rewrite !nth_error_map, nth_error_update_nth.
  destruct (Nat.eqb k i); [|tauto].
  destruct (nth_error l k) as [c|]; simpl; [|discriminate].
  intros H. injection H as H. rewrite (Hf c H). reflexivity.
Qed.

Lemma length_stops g g' : stops g' = stops g -> length (heap g') = length (heap g).
Proof.
  unfold stops. intros H. apply (f_equal (@length bool)) in H.
  rewrite !length_map in H. exact H.
Qed.

Lemma run_callback_link m g : link_view (run_callback m g) = link_view (snd (m g)).
Proof. unfold run_callback. destruct (m g) as [[u|e] g']; reflexivity. Qed.

Lemma send_setpoint_link i value os g :
  link_view (snd (send_setpoint i value os g)) = link_view g.
Proof.
  unfold send_setpoint, deref, sendall, status_put, with_client. munfold. simpl.
  repeat (break_match_goal; simpl); unfold link_view, stops; simpl;
    rewrite ?stops_update_nth by reflexivity; reflexivity.
Qed.

Lemma on_set_sp_link os g :
  client g <> None -> link_view (snd (on_set_sp os g)) = link_view g.
Proof.
  intros Hcl. unfold on_set_sp, messagebox, after_cancel. munfold. simpl.
  destruct (client g) as [i|]; [|contradiction]. simpl.
  pose proof (send_setpoint_link i (sp_slider_var g) os g) as Hl.
  destruct (send_setpoint_frame i (sp_slider_var g) os g) as (Hs & _).
  destruct (send_setpoint i (sp_slider_var g) os g) as [o g1]. simpl in *. subst o.
  try label_step_with update_slider_label_run.
  destruct (slider_revert_after_id g1); simpl; exact Hl.
Qed.

Lemma on_slider_changed_link v g :
  link_view (snd (on_slider_changed v g)) = link_view g.
Proof.
  unfold on_slider_changed, after_cancel, after. munfold. simpl.
  destruct (ignore_slider_change g); simpl; [reflexivity|].
  destruct (update_slider_label_run v g) as [s E]. rewrite E. simpl.
  destruct (slider_revert_after_id g); reflexivity.
Qed.

Lemma revert_link g :
  link_view (snd (revert_slider_to_current_sp g)) = link_view g.
Proof.
  unfold revert_slider_to_current_sp. munfold. simpl.
  destruct (current_sp_value g) as [|s|n|x] eqn:Ev; simpl; try reflexivity.
  - rewrite sp_slider_var_set_ignored by reflexivity. simpl.
    try label_step_with update_slider_label_run. reflexivity.
  - destruct (round_float x) as [n|e]; simpl; [|reflexivity].
    rewrite sp_slider_var_set_ignored by reflexivity. simpl.
    try label_step_with update_slider_label_run. reflexivity.
Qed.

(** The reader thread touches no widget and never clears a stop flag. *)
Lemma run_step_link i ev g :
  let g' := snd (run_step i ev g) in
  client g' = client g
  /\ (connect_button g', disconnect_button g', set_button g')
     = (connect_button g, disconnect_button g, set_button g)
  /\ dialogs g' = dialogs g
  /\ length (heap g') = length (heap g)
  /\ (forall k, nth_error (stops g') k = Some false -> nth_error (stops g) k = Some false).
Proof.
  unfold run_step, run_finally, close, deref, status_put, incoming_put, with_client,
    set_pc, stops.
  munfold. simpl.
  repeat (break_match_goal; simpl);
    (split; [reflexivity|]); (split; [reflexivity|]); (split; [reflexivity|]);
    (split; [rewrite ?length_update_nth; reflexivity|]);
    intros k H;
    repeat (apply live_update in H;
            [|intros c' Hc'; simpl in Hc'; first [exact Hc' | discriminate Hc']]);
    exact H.
Qed.

(** The widgets keep agreeing with [client] when neither Connect, Disconnect
    nor [client] changes, the heap keeps its size, and Set changes only while
    there is a client. *)
Lemma gui_ok_ext g g' :
  client g' = client g -> length (heap g') = length (heap g) ->
  connect_button g' = connect_button g -> disconnect_button g' = disconnect_button g ->
  (set_button g' = set_button g \/ client g <> None) ->
  gui_ok g -> gui_ok g'.
Proof.
  intros Hc Hh H1 H2 H3 [A B C D].
  constructor; rewrite ?Hc, ?Hh, ?H1, ?H2; try assumption.
  destruct H3 as [H3|H3]; [rewrite H3; exact C | intros _; exact H3].
Qed.

Lemma gui_ok_link g g' : link_view g' = link_view g -> gui_ok g -> gui_ok g'.
Proof.
  unfold link_view. intros H. injection H as Hc Hs H1 H2 H3 _.
  apply gui_ok_ext; try assumption; [apply length_stops; exact Hs | left; exact H3].
Qed.

Lemma live_stops g :
  one_live_link g <-> (forall k, nth_error (stops g) k = Some false -> client g = Some k).
Proof.
  unfold one_live_link, stops. split.
  - intros H k Hk. rewrite nth_error_map in Hk.
    destruct (nth_error (heap g) k) as [c|] eqn:E; [|discriminate].
    injection Hk as Hk. exact (H k c E Hk).
  - intros H k c E Hc. apply H. rewrite nth_error_map, E. simpl. rewrite Hc. reflexivity.
Qed.

Lemma live_ext g g' :
  client g' = client g ->
  (forall k, nth_error (stops g') k = Some false -> nth_error (stops g) k = Some false) ->
  one_live_link g -> one_live_link g'.
Proof.
  intros Hc Hs H. apply live_stops. intros k Hk. rewrite Hc.
  apply (proj1 (live_stops g) H). apply Hs. exact Hk.
Qed.

Lemma live_link g g' : link_view g' = link_view g -> one_live_link g -> one_live_link g'.
Proof.
  unfold link_view. intros H. injection H as Hc Hs _ _ _ _.
  apply live_ext; [exact Hc | rewrite Hs; tauto].
Qed.

Lemma dialogs_link g g' : link_view g' = link_view g -> dialogs_ok g -> dialogs_ok g'.
Proof.
  unfold link_view, dialogs_ok. intros H. injection H as _ _ _ _ _ Hd.
  rewrite Hd. tauto.
Qed.

Lemma link_ok_link g g' : link_view g' = link_view g -> link_ok g -> link_ok g'.
Proof.
  intros H (A & B & C).
  split; [exact (gui_ok_link g g' H A)|].
  split; [exact (dialogs_link g g' H B) | exact (live_link g g' H C)].
Qed.

Lemma poll_link_ok g : link_ok g -> link_ok (snd (_poll_queues g)).
Proof.
  intros (A & B & C).
  destruct (poll_run g) as (_ & _ & _ & _ & H5 & H6 & H7 & H8).
  injection H5 as Hc Hh Hd _.
  split; [|split].
  - apply (gui_ok_ext g); try assumption. rewrite Hh. reflexivity.
  - unfold dialogs_ok. rewrite Hd. exact B.
  - apply (live_ext g); [exact Hc | unfold stops; rewrite Hh; tauto | exact C].
Qed.

Lemma on_connect_link_ok g : client g = None -> link_ok g -> link_ok (snd (on_connect g)).
Proof.
  intros Hcl (A & B & C). unfold on_connect, messagebox. munfold. simpl. rewrite Hcl.
  destruct (int_of_str (strip (port_var g))) as [p|]; simpl.
  - split; [|split].
    + constructor; simpl.
      * split; discriminate.
      * split; [discriminate | reflexivity].
      * discriminate.
      * intros i Hi. injection Hi as <-. rewrite length_app. simpl. lia.
    + exact B.
    + apply live_stops. unfold stops. simpl. intros k Hk.
      rewrite map_app in Hk. simpl in Hk.
      destruct (Nat.lt_ge_cases k (length (map stop_event (heap g)))) as [Hlt|Hge].
      * rewrite nth_error_app1 in Hk by exact Hlt.
        pose proof (proj1 (live_stops g) C k Hk) as Hk'. congruence.
      * rewrite nth_error_app2 in Hk by exact Hge.
        rewrite length_map in Hk, Hge.
        destruct (k - length (heap g))%nat as [|d] eqn:Ed.
        -- f_equal. lia.
        -- destruct d; discriminate.
  - split; [|split].
    + revert A. apply gui_ok_ext; try reflexivity. left; reflexivity.
    + unfold dialogs_ok. simpl. intros d Hd. apply in_app_iff in Hd as [Hd|[<-|[]]].
      * exact (B d Hd).
      * reflexivity.
    + exact C.
Qed.

(** After [on_disconnect] no client object is live. *)
Lemma on_disconnect_stops g :
  one_live_link g ->
  let g' := snd (on_disconnect g) in
  client g' = None /\ all_stopped g'
  /\ (connect_button g', disconnect_button g', set_button g') = (Normal, Disabled, Disabled)
  /\ dialogs g' = dialogs g /\ status_var g' = L "Disconnected.".
Proof.
  intros C. unfold on_disconnect, close, with_client. munfold. simpl.
  destruct (client g) as [i|] eqn:Hcl; simpl;
    (split; [first [reflexivity | exact Hcl]|]);
    (split; [|repeat split; reflexivity]); intros k c Hk.
  - simpl in Hk. rewrite nth_error_update_nth in Hk.
    destruct (Nat.eqb_spec k i) as [->|Hne].
    + destruct (nth_error (heap g) i); [|discriminate]. injection Hk as <-. reflexivity.
    + destruct (stop_event c) eqn:Es; [reflexivity|].
      pose proof (C k c Hk Es). congruence.
  - destruct (stop_event c) eqn:Es; [reflexivity|].
    pose proof (C k c Hk Es). congruence.
Qed.

Lemma on_disconnect_link_ok g : link_ok g -> link_ok (snd (on_disconnect g)).
Proof.
  intros (A & B & C).
  destruct (on_disconnect_stops g C) as (Hc & Hs & Hb & Hd & _).
  injection Hb as H1 H2 H3.
  split; [|split].
  - constructor; rewrite ?Hc, ?H1, ?H2, ?H3; simpl.
    + tauto.
    + split; [discriminate | congruence].
    + discriminate.
    + discriminate.
  - unfold dialogs_ok. rewrite Hd. exact B.
  - intros k c Hk Es. rewrite (Hs k c Hk) in Es. discriminate.
Qed.

Lemma step_link_ok g ev : link_ok g -> link_ok (step g ev).
Proof.
  intros Hok. pose proof Hok as (A & B & C). destruct ev; simpl.
  - revert Hok. apply link_ok_link. reflexivity.
  - revert Hok. apply link_ok_link. reflexivity.
  - destruct (enabled (connect_button g)) eqn:Eb; [|exact Hok].
    apply (link_ok_link (snd (on_connect g))); [apply run_callback_link|].
    apply on_connect_link_ok; [|exact Hok]. apply (ok_connect A). exact Eb.
  - destruct (enabled (disconnect_button g)); [|exact Hok].
    apply (link_ok_link (snd (on_disconnect g))); [apply run_callback_link|].
    apply on_disconnect_link_ok. exact Hok.
  - destruct (enabled (set_button g)) eqn:Eb; [|exact Hok].
    apply (link_ok_link g); [|exact Hok]. rewrite run_callback_link.
    apply on_set_sp_link. apply (ok_set A). exact Eb.
  - apply (link_ok_link g); [|exact Hok]. rewrite run_callback_link.
    rewrite on_slider_changed_link. reflexivity.
  - revert Hok. apply link_ok_link. reflexivity.
  - destruct (find _ _) as [t|]; [|exact Hok].
    destruct (t_due t <=? now g); [|exact Hok].
    set (g0 := set_timers (cancel_timer i (timers g)) g).
    assert (Hok0 : link_ok g0) by (revert Hok; apply link_ok_link; reflexivity).
    destruct (t_cb t); simpl.
    + apply (link_ok_link (snd (_poll_queues g0))); [apply run_callback_link|].
      apply poll_link_ok. exact Hok0.
    + apply (link_ok_link g0); [|exact Hok0]. rewrite run_callback_link.
      apply revert_link.
  - destruct (run_step_link i ev g) as (Hc & Hb & Hd & Hl & Hs).
    injection Hb as H1 H2 H3.
    split; [|split].
    + apply (gui_ok_ext g); try assumption. left; exact H3.
    + unfold dialogs_ok. rewrite Hd. exact B.
    + apply (live_ext g); assumption.
Qed.

Lemma init_link_ok : link_ok (init (F := F)).
Proof.
  unfold init. munfold.
  destruct (update_slider_label_run (VInt 25) widgets0) as [s E]. rewrite E.
  apply poll_link_ok. split; [|split].
  - constructor; simpl; try tauto; try discriminate.
    split; [discriminate | congruence].
  - intros d [].
  - intros k c Hk. simpl in Hk. destruct k; discriminate.
Qed.

Lemma reachable_link_ok g : reachable g -> link_ok g.
Proof.
  induction 1 as [|g ev _ IH]; [apply init_link_ok | apply step_link_ok; exact IH].
Qed.

(** X6.  In every reachable state the widgets agree with the attribute
    [client]: the Connect button is enabled exactly when there is no client,
    the Disconnect button exactly when there is one, the Set button only when
    there is one, and the client is one of the objects created so far.  A
    lost or refused connection does not change this: the reader thread
    touches no widget. *)
Theorem X6_widgets_agree_with_client g :
  reachable g ->
  (enabled (connect_button g) = true <-> client g = None)
  /\ (enabled (disconnect_button g) = true <-> client g <> None)
  /\ (enabled (set_button g) = true -> client g <> None)
  /\ (forall i, client g = Some i -> exists c, nth_error (heap g) i = Some c).
Proof.
  intros Hr. destruct (reachable_link_ok g Hr) as ([A B C D] & _).
  split; [exact A|]. split; [exact B|]. split; [exact C|].
  intros i Hi. specialize (D i Hi).
  destruct (nth_error (heap g) i) as [c|] eqn:E; [eauto|].
  apply nth_error_None in E. lia.
Qed.

(** X7.  The only message box the GUI ever shows is the one for a port entry
    that is no integer.  The boxes of [on_connect] for an active connection
    and of [on_set_sp] for a missing one cannot appear: the buttons that would
    lead to them are disabled in those states. *)
Theorem X7_only_invalid_port_box g :
  reachable g -> forall d, In d (dialogs g) -> d = invalid_port_box.
Proof.
  intros Hr. destruct (reachable_link_ok g Hr) as (_ & B & _). exact B.
Qed.

(** X8.  At most one reader thread is live: in every reachable state every
    client object whose stop flag is clear is the one the GUI holds.  With no
    client held, every object created so far has been told to stop. *)
Theorem X8_one_live_client g :
  reachable g ->
  (forall k c, nth_error (heap g) k = Some c -> stop_event c = false -> client g = Some k)
  /\ (client g = None -> all_stopped g).
Proof.
  intros Hr. destruct (reachable_link_ok g Hr) as (_ & _ & C).
  split; [exact C|].
  intros Hn k c Hk. destruct (stop_event c) eqn:Es; [reflexivity|].
  pose proof (C k c Hk Es). congruence.
Qed.

(** X9.  A click on Disconnect, in any reachable state, leaves no client held
    and no client object live, Connect enabled and Disconnect and Set
    disabled; the history and the setpoint workflow are as they were. *)
Theorem X9_disconnect_stops_every_client g :
  reachable g ->
  let g' := step g ClickDisconnect in
  client g' = None /\ all_stopped g'
  /\ enabled (connect_button g') = true
  /\ enabled (disconnect_button g') = false
  /\ hist_view g' = hist_view g /\ ctl_view g' = ctl_view g.
Proof.
  intros Hr. destruct (reachable_link_ok g Hr) as ([A B C D] & _ & L). simpl.
  destruct (enabled (disconnect_button g)) eqn:Eb.
  - destruct (on_disconnect_stops g L) as (Hc & Hs & Hb & _).
    destruct (on_disconnect_frame g) as (Hok & Hctl & Hh).
    unfold run_callback. destruct (on_disconnect g) as [o g']. simpl in *. subst o.
    injection Hb as H1 H2 H3. rewrite H1, H2. repeat split; assumption.
  - assert (Hn : client g = None).
    { destruct (client g) eqn:E; [|reflexivity].
      assert (false = true) by (apply (proj2 B); discriminate).
      discriminate. }
    split; [exact Hn|]. split.
    + intros k c Hk. destruct (stop_event c) eqn:Es; [reflexivity|].
      pose proof (L k c Hk Es). congruence.
    + split; [apply A; exact Hn|]. repeat split; reflexivity || exact Eb.
Qed.

(** X10.  [on_close], in any reachable state, returns normally and leaves no
    client object live; the attribute [client] is not cleared and the widgets
    are not reset. *)
Theorem X10_close_window_stops_every_client g :
  reachable g ->
  let r := on_close g in
  fst r = Ok tt /\ all_stopped (snd r)
  /\ client (snd r) = client g
  /\ (connect_button (snd r), disconnect_button (snd r), set_button (snd r))
     = (connect_button g, disconnect_button g, set_button g).
Proof.
  intros Hr. destruct (reachable_link_ok g Hr) as (_ & _ & L).
  unfold on_close, close, with_client. munfold. simpl.
  destruct (client g) as [i|] eqn:Hcl; simpl; (split; [reflexivity|]);
    (split; [|split; [first [reflexivity | exact Hcl] | reflexivity]]);
    intros k c Hk; simpl in Hk.
  - rewrite nth_error_update_nth in Hk.
    destruct (Nat.eqb_spec k i) as [->|Hne].
    + destruct (nth_error (heap g) i); [|discriminate]. injection Hk as <-. reflexivity.
    + destruct (stop_event c) eqn:Es; [reflexivity|].
      pose proof (L k c Hk Es). congruence.
  - destruct (stop_event c) eqn:Es; [reflexivity|].
    pose proof (L k c Hk Es). congruence.
Qed.

End Link.

(** X6, witness: the state after connecting. *)
Lemma X6_widgets_agree_with_client_witness :
  (enabled (connect_button g_connected) = true <-> client g_connected = None)
  /\ (enabled (disconnect_button g_connected) = true <-> client g_connected <> None)
  /\ (enabled (set_button g_connected) = true -> client g_connected <> None)
  /\ (forall i, client g_connected = Some i ->
                exists c, nth_error (heap g_connected) i = Some c).
Proof. exact (X6_widgets_agree_with_client g_connected g_connected_reachable). Defined.

(** X7, witness: a port entry that is no integer, then a click on Connect. *)
Lemma X7_only_invalid_port_box_witness :
  dialogs (step (g_port (L "50oo")) ClickConnect) = [invalid_port_box]
  /\ forall d, In d (dialogs (step (g_port (L "50oo")) ClickConnect)) -> d = invalid_port_box.
Proof.
  split; [vm_compute; reflexivity|].
  apply X7_only_invalid_port_box.
  constructor. unfold g_port. constructor. constructor.
Defined.

(** X8, witness: after the peer has closed the stream the client is still
    held, and stopped. *)
Lemma X8_one_live_client_witness :
  (forall k c, nth_error (heap g_peer_closed) k = Some c -> stop_event c = false ->
               client g_peer_closed = Some k)
  /\ (client g_peer_closed = None -> all_stopped g_peer_closed).
Proof.
  apply X8_one_live_client.
  unfold g_peer_closed. apply reachable_run_events. apply g_connected_reachable.
Defined.

(** X9, witness: disconnecting the connected client. *)
Lemma X9_disconnect_stops_every_client_witness :
  client (step g_connected ClickDisconnect) = None
  /\ all_stopped (step g_connected ClickDisconnect).
Proof.
  destruct (X9_disconnect_stops_every_client g_connected g_connected_reachable)
    as (H1 & H2 & _).
  split; assumption.
Defined.

(** X10, witness: closing the window while connected. *)
Lemma X10_close_window_stops_every_client_witness :
  all_stopped (snd (on_close g_connected)) /\ client (snd (on_close g_connected)) = Some O.
Proof.
  destruct (X10_close_window_stops_every_client g_connected g_connected_reachable)
    as (_ & H2 & H3 & _).
  split; [exact H2|]. rewrite H3. vm_compute. reflexivity.
Defined.

(* ================================================================= *)
(** ** The reader thread *)

Section Reader.

Context {F : Type} {RT : PyRuntime F}.

Implicit Types g : CentrifugeGUI F.

Lemma update_nth_twice {A} (f : A -> A) (l : list A) i :
  (forall x, f (f x) = f x) -> update_nth i f (update_nth i f l) = update_nth i f l.
Proof.
  intros Hf. revert i. induction l as [|x l IH]; intros [|i]; simpl; try reflexivity.
  - rewrite Hf. reflexivity.
  - rewrite IH. reflexivity.
Qed.

(** X11.  [HotplateClient.close] never raises and is idempotent: a second
    call changes nothing.  It puts nothing on either queue and touches no
    other client object. *)
Theorem X11_close_idempotent i g :
  let g1 := snd (close i g) in
  fst (close i g) = Ok tt
  /\ close i g1 = (Ok tt, g1)
  /\ status_queue g1 = status_queue g /\ incoming_queue g1 = incoming_queue g
  /\ (forall k, k <> i -> nth_error (heap g1) k = nth_error (heap g) k).
Proof.
  unfold close, with_client. munfold. simpl.
  split; [reflexivity|]. split.
  - f_equal. unfold set_heap. simpl. f_equal.
    apply update_nth_twice. intros [h p st so sf ph]. simpl.
    destruct so, sf; reflexivity.
  - split; [reflexivity|]. split; [reflexivity|].
    intros k Hk. rewrite nth_error_update_nth.
    destruct (Nat.eqb_spec k i); [contradiction | reflexivity].
Qed.

Lemma occurrences_snoc_eq (msg : str) (q : list str) :
  occurrences msg (q ++ [msg]) = S (occurrences msg q).
Proof.
  unfold occurrences. rewrite count_occ_app. simpl.
  destruct (list_eq_dec ascii_dec msg msg); [|contradiction].
  rewrite Nat.add_1_r. reflexivity.
Qed.

Lemma occurrences_snoc_neq (msg x : str) (q : list str) :
  x <> msg -> occurrences msg (q ++ [x]) = occurrences msg q.
Proof.
  intros H. unfold occurrences. rewrite count_occ_app. simpl.
  destruct (list_eq_dec ascii_dec x msg); [contradiction|].
  rewrite Nat.add_0_r. reflexivity.
Qed.

(** One step of the reader thread: ["Disconnected."] is put exactly when the
    thread ends. *)
Lemma run_step_disconnected i ev g c :
  nth_error (heap g) i = Some c ->
  let g' := snd (run_step i ev g) in
  exists c',
    nth_error (heap g') i = Some c'
    /\ (occurrences (L "Disconnected.") (status_queue g')
        + match pc c with Finished => 1 | _ => 0 end
        = occurrences (L "Disconnected.") (status_queue g)
          + match pc c' with Finished => 1 | _ => 0 end)%nat.
Proof.
  intros Hc. unfold run_step, run_finally, close, deref, status_put, incoming_put,
    with_client, set_pc.
  munfold. simpl. rewrite Hc.
  destruct (pc c) eqn:Epc, ev; simpl;
    try (exists c; rewrite Epc; split; [exact Hc | reflexivity]);
    try destruct (stop_event c); simpl;
    try destruct (strip raw); simpl;
    try (exists c; rewrite Epc; split; [exact Hc | reflexivity]);
    rewrite ?nth_error_update_nth, ?Nat.eqb_refl, ?Hc; simpl;
    (eexists; split; [reflexivity|]); simpl;
    rewrite ?occurrences_snoc_eq;
    rewrite ?occurrences_snoc_neq by (intros H; cbv in H; discriminate H);
    lia.
Qed.

(** X12.  A reader thread puts ["Disconnected."] on the status queue exactly
    once, when it ends, however it ends: whatever the network does, the number
    of these messages a thread that has not ended adds is one if it has ended
    by now and none otherwise; a thread that has ended adds none. *)
Theorem X12_disconnected_exactly_once i evs g c :
  nth_error (heap g) i = Some c ->
  let g' := run_net i evs g in
  exists c',
    nth_error (heap g') i = Some c'
    /\ (occurrences (L "Disconnected.") (status_queue g')
        + match pc c with Finished => 1 | _ => 0 end
        = occurrences (L "Disconnected.") (status_queue g)
          + match pc c' with Finished => 1 | _ => 0 end)%nat.
Proof.
  revert g c. induction evs as [|ev evs IH]; intros g c Hc; cbv zeta.
  - exists c. split; [exact Hc | reflexivity].
  - change (run_net i (ev :: evs) g) with (run_net i evs (snd (run_step i ev g))).
    destruct (run_step_disconnected i ev g c Hc) as (c1 & Hc1 & H1).
    destruct (IH _ c1 Hc1) as (c' & Hc' & H').
    exists c'. split; [exact Hc'|].
    revert H1 H'.
    generalize (occurrences (L "Disconnected.") (status_queue g)).
    generalize (occurrences (L "Disconnected.") (status_queue (snd (run_step i ev g)))).
    generalize (occurrences (L "Disconnected.")
                  (status_queue (run_net i evs (snd (run_step i ev g))))).
    intros n1 n2 n3. destruct (pc c), (pc c1), (pc c'); lia.
Qed.

(** X14.  A step of the reader thread is visible only through the two queues
    and its own client object: put back the old queues and the old heap and
    the state is the old one, widgets, history, timers and all.  The queues
    only grow, the incoming queue by at most one line, and the other client
    objects are as they were. *)
Theorem X14_reader_touches_only_queues i ev g :
  let g' := snd (run_step i ev g) in
  set_heap (heap g) (set_status_queue (status_queue g)
                       (set_incoming_queue (incoming_queue g) g')) = g
  /\ (exists msgs, status_queue g' = status_queue g ++ msgs)
  /\ (exists lines, incoming_queue g' = incoming_queue g ++ lines
                    /\ (length lines <= 1)%nat)
  /\ (forall k, k <> i -> nth_error (heap g') k = nth_error (heap g) k).
Proof.
  destruct g. unfold run_step, run_finally, close, deref, status_put, incoming_put,
    with_client, set_pc.
  munfold. simpl.
  repeat (break_match_goal; simpl);
    (split; [reflexivity|]);
    (split; [first [exists []; rewrite app_nil_r; reflexivity
                   | rewrite <- ?app_assoc; eexists; reflexivity]|]);
    (split; [first [exists []; rewrite app_nil_r; split; [reflexivity | simpl; lia]
                   | eexists; split; [reflexivity | simpl; lia]]|]);
    intros k Hk; rewrite ?nth_error_update_nth;
    destruct (Nat.eqb_spec k i); solve [contradiction | reflexivity].
Qed.

End Reader.

(** X12, witness: the thread of [g_connected], then the peer closes the
    stream (and the network has nothing more to say). *)
Lemma X12_disconnected_exactly_once_witness :
  occurrences (L "Disconnected.")
    (status_queue (run_net 0 [NetLine demo_line; NetEOF; NetEOF] g_connected)) = 1%nat.
Proof.
  assert (Hc : nth_error (heap g_connected) 0
               = Some {| host := L "192.168.1.49"; port := 5000; stop_event := false;
                         sock := Some {| sock_closed := false; sock_sent := [] |};
                         sock_file := Some false; pc := Reading |})
    by (vm_compute; reflexivity).
  destruct (X12_disconnected_exactly_once 0 [NetLine demo_line; NetEOF; NetEOF]
              g_connected _ Hc) as (c' & Hc' & H).
  assert (Hf : option_map pc (nth_error (heap (run_net 0 [NetLine demo_line; NetEOF; NetEOF]
                                                 g_connected)) 0) = Some Finished)
    by (vm_compute; reflexivity).
  assert (H0 : occurrences (L "Disconnected.") (status_queue g_connected) = O)
    by (vm_compute; reflexivity).
  rewrite Hc' in Hf. simpl in Hf. injection Hf as Hf.
  rewrite Hf, H0 in H. cbn [pc Nat.add] in H. rewrite Nat.add_0_r in H. exact H.
Defined.

(* ================================================================= *)
(** ** The history and the plot *)

Section Plot.

Context {F : Type} {RT : PyRuntime F}.

Implicit Types g : CentrifugeGUI F.

(** A turn of the poll loop that finds no device line leaves the history
    alone. *)
Lemma poll_hist_empty g :
  incoming_queue g = [] -> hist_view (snd (_poll_queues g)) = hist_view g.
Proof.
  intros Hq. unfold _poll_queues, after. munfold. simpl.
  destruct (drain_status_frame (length (status_queue g)) g) as (A & _ & Hh).
  destruct (drain_status_run (length (status_queue g)) g (le_n _)) as (_ & _ & _ & S4 & _).
  destruct (drain_status _ g) as [o g1]. simpl in *. subst o.
  rewrite S4, Hq. simpl. exact Hh.
Qed.

(** X15.  Only a due poll that finds a device line in the queue changes the
    sample counter or the three history lists: no click, slider move, passing
    of time, revert or step of a reader thread does. *)
Theorem X15_only_poll_changes_history g ev :
  hist_view (step g ev) <> hist_view g ->
  exists i t,
    ev = RunTimer i /\ pending g i = Some t /\ t_cb t = CbPoll
    /\ t_due t <= now g /\ incoming_queue g <> [].
Proof.
  intros Hne. destruct ev; simpl in Hne;
    try (exfalso; apply Hne; reflexivity).
  - exfalso. apply Hne. destruct (enabled _); [|reflexivity].
    rewrite run_callback_hist. apply on_connect_frame.
  - exfalso. apply Hne. destruct (enabled _); [|reflexivity].
    rewrite run_callback_hist. apply on_disconnect_frame.
  - exfalso. apply Hne. destruct (enabled _); [|reflexivity].
    rewrite run_callback_hist. apply on_set_sp_frame.
  - exfalso. apply Hne. rewrite run_callback_hist.
    destruct (on_slider_changed_frame (VStr value_str) (set_sp_slider_var pos g))
      as (_ & H & _).
    rewrite H. reflexivity.
  - fold (pending g i) in Hne. destruct (pending g i) as [t|] eqn:Hp;
      [|exfalso; apply Hne; reflexivity].
    destruct (t_due t <=? now g) eqn:Hdue; [|exfalso; apply Hne; reflexivity].
    apply Z.leb_le in Hdue.
    destruct (t_cb t) eqn:Hcb; simpl in Hne.
    + exists i, t. repeat split; try assumption.
      intros Hq. apply Hne. rewrite run_callback_hist.
      rewrite poll_hist_empty by exact Hq. reflexivity.
    + exfalso. apply Hne. rewrite run_callback_hist.
      destruct (revert_frame (set_timers (cancel_timer i (timers g)) g)) as (H & _).
      rewrite H. reflexivity.
  - exfalso. apply Hne. apply run_step_frame.
Qed.

(** What the [try] block has drawn when it reaches its end. *)
Lemma device_line_try_accepted_plot line g r g' :
  device_line_try line g = (Ok (Some r), g') ->
  exists x xs,
    sample_indices g' = x :: xs
    /\ ax_xlim g' = (Z.max 1 (fold_right Z.min x xs), Z.max 20 (fold_right Z.max x xs))
    /\ ax_ylim g' = (0, 250)
    /\ draws g' = S (draws g).
Proof.
  intros H.
  unfold device_line_try, update_slider_label, sp_slider_var_set, on_slider_changed,
    _update_plot in H.
  mexec H; pair_inv H; simpl in *;
    first
      [ eexists _, _; (split; [reflexivity|]); repeat split; reflexivity
      | exfalso;
        match goal with
        | E : pop0 (?l ++ [?x]) = Ok [],
          B : (max_points <? length (?l ++ [?x]))%nat = true |- _ =>
            rewrite pop0_snoc in E; injection E as E; apply Nat.ltb_lt in B;
            apply (f_equal (@length _)) in E; rewrite length_tl in E;
            unfold max_points in B; simpl in E; lia
        | E : _ ++ [_] = [] |- _ => exact (app_cons_not_nil _ _ _ (eq_sym E))
        end ].
Qed.

Lemma fold_min_least (x : Z) (xs : list Z) :
  (forall y, In y xs -> x <= y) -> fold_right Z.min x xs = x.
Proof.
  induction xs as [|y xs IH]; intros H; simpl; [reflexivity|].
  rewrite IH by (intros z Hz; apply H; right; exact Hz).
  apply Z.min_r. apply H. left. reflexivity.
Qed.

Lemma fold_max_snoc (x m : Z) (xs : list Z) :
  x <= m -> (forall y, In y xs -> y <= m) -> fold_right Z.max x (xs ++ [m]) = m.
Proof.
  intros Hx. induction xs as [|y xs IH]; intros H; simpl.
  - apply Z.max_l. exact Hx.
  - rewrite IH by (intros z Hz; apply H; right; exact Hz).
    apply Z.max_r. apply H. left. reflexivity.
Qed.

(** The plot window over the samples kept after [n] readings. *)
Lemma recent_window (n : nat) x xs :
  recent n = x :: xs ->
  fold_right Z.min x xs = Z.max 1 (Z.of_nat n - 299)
  /\ fold_right Z.max x xs = Z.of_nat n.
Proof.
  unfold recent. set (k := Nat.min n max_points). intros H.
  assert (Hk : (k = n /\ n <= 300)%nat \/ (k = 300 /\ 300 <= n)%nat).
  { unfold k, max_points. destruct (Nat.min_spec n 300) as [[L1 E]|[L1 E]]; lia. }
  clearbody k. destruct k as [|k]; [discriminate|].
  cbn [seq map] in H. injection H as Hx Hxs. subst x xs.
  split.
  - rewrite fold_min_least.
    + lia.
    + intros y Hy. apply in_map_iff in Hy as (j & <- & Hj). apply in_seq in Hj. lia.
  - destruct k as [|k].
    + cbn [seq map fold_right]. lia.
    + rewrite seq_S, map_app. cbn [map].
      rewrite fold_max_snoc.
      * lia.
      * lia.
      * intros y Hy. apply in_map_iff in Hy as (j & <- & Hj). apply in_seq in Hj. lia.
Qed.

(** X16.  After a line that yields a reading, in any reachable state, the
    plot is redrawn once with the x axis from the oldest sample kept (sample 1
    until 300 have been taken, sample [n - 299] after that) to the newest,
    and to 20 at least; the y axis is 0 to 250. *)
Theorem X16_plot_window g line r g' :
  reachable g ->
  handle_device_line_reading line g = (Ok (Some r), g') ->
  ax_xlim g' = (Z.max 1 (sample_count g' - 299), Z.max 20 (sample_count g'))
  /\ ax_ylim g' = (0, 250)
  /\ draws g' = S (draws g).
Proof.
  intros Hr H. apply reading_from_try in H.
  set (g0 := set_stdout (stdout g ++ [line ++ nl]) g) in *.
  assert (Hok0 : hist_ok g0).
  { apply (hist_ok_ext g); [reflexivity | apply reachable_hist_ok; exact Hr]. }
  pose proof (accepted_hist_ok _ _ _ _ H Hok0) as [Hc Hi _ _].
  destruct (device_line_try_accepted_plot _ _ _ _ H) as (x & xs & Hidx & Hx & Hy & Hd).
  rewrite Hidx in Hi. symmetry in Hi.
  destruct (recent_window _ _ _ Hi) as (Hmin & Hmax).
  rewrite Hx, Hmin, Hmax, Z2Nat.id by exact Hc.
  split; [|split; assumption].
  f_equal. lia.
Qed.

Lemma lastn_short {A} (n : nat) (l : list A) : (length l <= n)%nat -> lastn n l = l.
Proof.
  intros H. unfold lastn. replace (length l - n)%nat with O by lia. reflexivity.
Qed.

Lemma lastn_cons {A} (n : nat) (a : A) (l : list A) :
  (n <= length l)%nat -> lastn n (a :: l) = lastn n l.
Proof.
  intros H. unfold lastn. simpl length.
  replace (S (length l) - n)%nat with (S (length l - n)) by lia. reflexivity.
Qed.

(** Evicting now or at the end comes to the same. *)
Lemma lastn_push {A} (l : list A) (x : A) (ys : list A) :
  (length l <= max_points)%nat ->
  lastn max_points (push_bounded l x ++ ys) = lastn max_points (l ++ x :: ys).
Proof.
  intros Hlen. unfold push_bounded.
  replace (l ++ x :: ys) with ((l ++ [x]) ++ ys) by (rewrite <- app_assoc; reflexivity).
  destruct (max_points <? length (l ++ [x]))%nat eqn:E; [|reflexivity].
  apply Nat.ltb_lt in E. rewrite length_app in E. simpl in E.
  destruct l as [|a l]; simpl in *; [unfold max_points in E; lia|].
  symmetry. apply lastn_cons. rewrite !length_app. simpl. lia.
Qed.

Lemma length_push_bounded {A} (l : list A) (x : A) :
  (length l <= max_points)%nat -> (length (push_bounded l x) <= max_points)%nat.
Proof.
  intros H. unfold push_bounded.
  destruct (max_points <? length (l ++ [x]))%nat eqn:E.
  - rewrite length_tl, length_app. simpl. lia.
  - apply Nat.ltb_ge in E. exact E.
Qed.

(** One line: the history takes the reading in, if there is one. *)
Lemma handle_reading_push line g o g' :
  hist_ok g -> handle_device_line_reading line g = (o, g') ->
  match o with
  | Ok (Some r) =>
      temp_history g' = push_bounded (temp_history g) (rpm r)
      /\ sp_history g' = push_bounded (sp_history g) (setpoint r)
  | _ => temp_history g' = temp_history g /\ sp_history g' = sp_history g
  end.
Proof.
  intros [_ _ Ht Hs] H. rewrite handle_device_line_reading_eq in H. cbv zeta in H.
  set (g0 := set_stdout (stdout g ++ [line ++ nl]) g) in *.
  destruct (startswith _ _).
  - destruct (device_line_try (strip line) g0) as [[[r|]|e] g1] eqn:E; pair_inv H.
    + apply device_line_try_accepted in E as (_ & _ & _ & _ & _ & _ & (_ & Htemp & Hsp) & _).
      simpl in *.
      split; [rewrite Htemp; apply push_bounded_eq; exact Ht
             | rewrite Hsp; apply push_bounded_eq; exact Hs].
    + assert (Hv : hist_view g' = hist_view g0)
        by (apply (device_line_try_rejected _ _ _ _ E); intros r; discriminate).
      unfold hist_view in Hv. injection Hv as _ _ H1 H2. split; assumption.
    + assert (Hv : hist_view g' = hist_view g0)
        by (apply (device_line_try_rejected _ _ _ _ E); intros r; discriminate).
      unfold hist_view in Hv. injection Hv as _ _ H1 H2. split; assumption.
  - pair_inv H. split; reflexivity.
Qed.

Lemma hist_ok_lengths g :
  hist_ok g ->
  (length (temp_history g) <= max_points)%nat /\ (length (sp_history g) <= max_points)%nat.
Proof.
  intros [_ Hi Ht Hs]. rewrite Ht, Hs, Hi, length_recent.
  split; apply Nat.le_min_r.
Qed.

Lemma collect_history lines g :
  hist_ok g ->
  let rs := fst (collect lines g) in
  let g' := snd (collect lines g) in
  temp_history g' = lastn max_points (temp_history g ++ map (@rpm _) rs)
  /\ sp_history g' = lastn max_points (sp_history g ++ map (@setpoint _) rs)
  /\ sample_count g' = sample_count g + Z.of_nat (length rs).
Proof.
  revert g. induction lines as [|line rest IH]; intros g Hok; simpl.
  - destruct (hist_ok_lengths g Hok) as [H1 H2].
    rewrite !app_nil_r, !lastn_short by assumption. repeat split; lia.
  - destruct (handle_device_line_reading line g) as [o g1] eqn:E.
    destruct (handle_reading_count line g o g1 Hok E) as [Hok1 Hc1].
    pose proof (handle_reading_push line g o g1 Hok E) as Hp.
    destruct (IH g1 Hok1) as (Ht & Hs & Hc).
    destruct (collect rest g1) as [rs g2]. simpl in *.
    rewrite Ht, Hs, Hc, Hc1.
    destruct (hist_ok_lengths g Hok) as [H1 H2].
    destruct o as [[r|]|e]; simpl; destruct Hp as [Hp1 Hp2]; rewrite Hp1, Hp2;
      try (repeat split; lia).
    rewrite !lastn_push by assumption. repeat split; lia.
Qed.

(** X17.  The history is a sliding window over the readings: whatever lines
    are handled from a reachable state on, the RPM and setpoint lists end up
    holding, in order, the last 300 of what they held followed by the values
    of the readings the lines yielded, and the sample counter has grown by the
    number of readings. *)
Theorem X17_history_is_sliding_window g lines :
  reachable g ->
  let rs := fst (collect lines g) in
  let g' := snd (collect lines g) in
  temp_history g' = lastn 300 (temp_history g ++ map (@rpm _) rs)
  /\ sp_history g' = lastn 300 (sp_history g ++ map (@setpoint _) rs)
  /\ sample_count g' = sample_count g + Z.of_nat (length rs).
Proof.
  intros Hr. apply collect_history. apply reachable_hist_ok. exact Hr.
Qed.

End Plot.

(** X15, witness: a line is waiting and the poll comes due. *)
Lemma X15_only_poll_changes_history_witness :
  exists i t,
    RunTimer 0 = RunTimer i /\ pending g_late_line i = Some t /\ t_cb t = CbPoll
    /\ t_due t <= now g_late_line /\ incoming_queue g_late_line <> [].
Proof.
  assert (H1 : sample_count (step g_late_line (RunTimer 0)) = 1) by (vm_compute; reflexivity).
  assert (H0 : sample_count g_late_line = 0) by (vm_compute; reflexivity).
  apply X15_only_poll_changes_history.
  intros H.
  assert (Hc : sample_count (step g_late_line (RunTimer 0)) = sample_count g_late_line)
    by exact (f_equal (fun v => fst (fst (fst v))) H).
  rewrite H1, H0 in Hc. discriminate Hc.
Defined.

(** X16, witness: the first reading after connecting. *)
Lemma X16_plot_window_witness :
  ax_xlim (snd (handle_device_line_reading demo_line g_connected)) = (1, 20)
  /\ ax_ylim (snd (handle_device_line_reading demo_line g_connected)) = (0, 250).
Proof.
  assert (Hf : fst (handle_device_line_reading demo_line g_connected)
               = Ok (Some {| rpm := B64.Fin false 5629499534213120 (-49);
                             setpoint := B64.Fin false 5629499534213120 (-49);
                             stateCode := Some 0; stateLabel := L "0" |}))
    by (vm_compute; reflexivity).
  assert (Hc : sample_count (snd (handle_device_line_reading demo_line g_connected)) = 1)
    by (vm_compute; reflexivity).
  destruct (handle_device_line_reading demo_line g_connected) as [o g'] eqn:E.
  simpl in Hf. subst o. cbn [snd] in *.
  destruct (X16_plot_window g_connected demo_line _ g' g_connected_reachable E)
    as (Hx & Hy & _).
  rewrite Hc in Hx. split; [exact Hx | exact Hy].
Defined.

(** X17, witness: two readings and a line that is none. *)
Lemma X17_history_is_sliding_window_witness :
  let lines := [demo_line; L "garbage"; L "RPM: 23.45 | SP: 50.0 | STATE: 1"] in
  let rs := fst (collect lines g_connected) in
  let g' := snd (collect lines g_connected) in
  length rs = 2%nat
  /\ temp_history g' = lastn 300 (temp_history g_connected ++ map (@rpm _) rs)
  /\ sample_count g' = sample_count g_connected + 2.
Proof.
  intros lines rs g'.
  assert (Hl : length rs = 2%nat) by (vm_compute; reflexivity).
  destruct (X17_history_is_sliding_window g_connected lines g_connected_reachable)
    as (Ht & _ & Hc).
  fold rs g' in Ht, Hc. rewrite Hl in Hc.
  split; [exact Hl|]. split; [exact Ht | exact Hc].
Defined.

(* ================================================================= *)
(** ** The edges of the setpoint workflow *)

Section Edges.

Context {F : Type} {RT : PyRuntime F}.

Implicit Types g : CentrifugeGUI F.

(** X18.  When the client holds no socket, or a closed one, or the write
    fails, [on_set_sp] sends nothing and queues a message that is not the
    confirmation; yet it records the slider position as the current setpoint
    and shows it in the setpoint readout (with the unit [C]) and the slider
    label, ends the adjustment and names no revert any more. *)
Theorem X18_unsent_setpoint_is_recorded g i c os :
  client g = Some i -> nth_error (heap g) i = Some c ->
  (sock c = None
   \/ exists s, sock c = Some s /\ (sock_closed s = true \/ os <> None)) ->
  exists msg,
    let r := on_set_sp os g in
    fst r = Ok tt
    /\ status_queue (snd r) = status_queue g ++ [msg]
    /\ msg <> L "Sent setpoint: " ++ str_of_Z (sp_slider_var g)
    /\ heap (snd r) = heap g
    /\ current_sp_value (snd r) = VInt (sp_slider_var g)
    /\ sp_var (snd r) = format_fixed 1 (float_of_int (sp_slider_var g)) ++ L " C"
    /\ sp_slider_label_var (snd r)
       = L "SP to set: " ++ format_fixed 1 (float_of_int (sp_slider_var g)) ++ L " RPM"
    /\ workflow_of (snd r) = Idle
    /\ slider_revert_after_id (snd r) = None.
Proof.
  intros Hcl Hc Hcase.
  assert (Hsend : exists msg,
             send_setpoint i (sp_slider_var g) os g
             = (Ok tt, set_status_queue (status_queue g ++ [msg]) g)
             /\ msg <> L "Sent setpoint: " ++ str_of_Z (sp_slider_var g)).
  { destruct Hcase as [Hn | (s & Hs & Hbad)].
    - eexists. split; [exact (send_setpoint_unopened i _ os g c Hc Hn)|].
      intros H. cbv [L list_ascii_of_string app] in H. discriminate H.
    - destruct (sock_closed s) eqn:Eclosed.
      + eexists. split; [exact (send_setpoint_closed i _ os g c s Hc Hs Eclosed)|].
        intros H. cbv [L list_ascii_of_string app] in H. discriminate H.
      + destruct Hbad as [Hbad|Hbad]; [discriminate|].
        destruct os as [err|]; [|contradiction].
        eexists. split; [exact (send_setpoint_failed i _ err g c s Hc Hs Eclosed)|].
        intros H. cbv [L list_ascii_of_string app] in H. discriminate H. }
  destruct Hsend as (msg & E & Hmsg). exists msg. cbv zeta.
  unfold on_set_sp, after_cancel, update_slider_label. munfold. simpl.
  rewrite Hcl. simpl. rewrite E. simpl.
  destruct (slider_revert_after_id g) eqn:Eid; simpl; repeat split;
    solve [reflexivity | exact Hmsg | exact Eid].
Qed.

Lemma run_due_revert g j t :
  pending g j = Some t -> t_cb t = CbRevert -> t_due t <= now g ->
  step g (RunTimer j)
  = run_callback revert_slider_to_current_sp (set_timers (cancel_timer j (timers g)) g).
Proof.
  intros Hp Hcb Hdue. simpl. fold (pending g j). rewrite Hp, Hcb.
  apply Z.leb_le in Hdue. rewrite Hdue. reflexivity.
Qed.

(** X19.  A revert that fires before any setpoint is known (no reading has
    been accepted and Set was never pressed) has nothing to go back to: the
    slider and its label keep the value the user left them at, the workflow
    returns to Idle and no revert remains. *)
Theorem X19_timeout_without_setpoint g j t :
  reachable g -> pending g j = Some t -> t_cb t = CbRevert -> t_due t <= now g ->
  current_sp_value g = VNone ->
  let g' := step g (RunTimer j) in
  sp_slider_var g' = sp_slider_var g
  /\ sp_slider_label_var g' = sp_slider_label_var g
  /\ workflow_of g' = Idle
  /\ slider_revert_after_id g' = None
  /\ revert_timers g' = []
  /\ ignore_slider_change g' = ignore_slider_change g
  /\ callback_errors g' = callback_errors g.
Proof.
  intros Hr Hp Hcb Hdue Hv. cbv zeta.
  pose proof (reachable_wf g Hr) as Hwf.
  rewrite (run_due_revert g j t Hp Hcb Hdue).
  set (g0 := set_timers (cancel_timer j (timers g)) g).
  pose proof (revert_ctl g0) as Hctl. rewrite <- run_callback_ctl in Hctl.
  destruct (fired_revert_wf g j t _ Hwf Hp Hcb Hctl) as [_ Hnone].
  apply ctl_view_inv in Hctl as (_ & _ & Hi & Ha & _).
  split; [|split; [|split; [unfold workflow_of; rewrite Ha; reflexivity|
                           split; [exact Hi|split; [exact Hnone|]]]]].
  all: unfold run_callback, revert_slider_to_current_sp; munfold; simpl;
    rewrite Hv; simpl; try split; reflexivity.
Qed.

(** X20.  A revert that fires while the stored setpoint is a float that
    [round] rejects (the device reported [nan] or an infinity while the user
    was adjusting) raises out of the callback after the mark of a programmatic
    update was set: the slider is not moved, the workflow is Idle, no revert
    remains, and from then on the slider callback returns at once, so that a
    user move is no longer taken for one. *)
Theorem X20_timeout_unroundable_setpoint g j t y e :
  reachable g -> pending g j = Some t -> t_cb t = CbRevert -> t_due t <= now g ->
  current_sp_value g = VFloat y -> round_float y = Raise e ->
  let g' := step g (RunTimer j) in
  callback_errors g' = callback_errors g ++ [e]
  /\ ignore_slider_change g' = true
  /\ sp_slider_var g' = sp_slider_var g
  /\ sp_slider_label_var g' = sp_slider_label_var g
  /\ workflow_of g' = Idle
  /\ revert_timers g' = []
  /\ (forall pos value_str,
        step g' (DragSlider pos value_str) = set_sp_slider_var pos g').
Proof.
  intros Hr Hp Hcb Hdue Hv Hy. cbv zeta.
  pose proof (reachable_wf g Hr) as Hwf.
  rewrite (run_due_revert g j t Hp Hcb Hdue).
  set (g0 := set_timers (cancel_timer j (timers g)) g).
  pose proof (revert_ctl g0) as Hctl. rewrite <- run_callback_ctl in Hctl.
  destruct (fired_revert_wf g j t _ Hwf Hp Hcb Hctl) as [_ Hnone].
  apply ctl_view_inv in Hctl as (_ & _ & _ & Ha & _).
  assert (E : run_callback revert_slider_to_current_sp g0
              = set_callback_errors (callback_errors g ++ [e])
                  (set_ignore_slider_change true
                     (set_user_adjusting_slider false
                        (set_slider_revert_after_id None g0)))).
  { unfold run_callback, revert_slider_to_current_sp. munfold. simpl.
    rewrite Hv. simpl. rewrite Hy. reflexivity. }
  split; [rewrite E; reflexivity|].
  split; [rewrite E; reflexivity|].
  split; [rewrite E; reflexivity|].
  split; [rewrite E; reflexivity|].
  split; [unfold workflow_of; rewrite Ha; reflexivity|].
  split; [exact Hnone|].
  intros pos value_str. simpl step. unfold run_callback at 1.
  rewrite on_slider_changed_ignored; [reflexivity|]. rewrite E. reflexivity.
Qed.

(** X21.  A status line in the wire format whose setpoint is a float that
    [round] rejects, arriving while the workflow is Idle: the RPM and setpoint
    readouts and the stored setpoint are overwritten, then the slider update
    raises inside the [try] block with the mark of a programmatic update set.
    The line yields no reading, the state readout, the slider and the history
    are as they were, and from then on a user move is no longer taken for
    one: no label update, no adjustment, no revert. *)
Theorem X21_unroundable_setpoint_blocks_slider g (a b rest : str) (x y : F) e :
  tokenb a = true -> tokenb b = true ->
  no_bar rest = true -> has_token rest = true ->
  float_of_str a = Some x -> float_of_str b = Some y ->
  round_float y = Raise e -> workflow_of g = Idle ->
  exists g',
    handle_device_line_reading (wire_line a b rest) g = (Ok None, g')
    /\ ignore_slider_change g' = true
    /\ temp_var g' = format_fixed 2 x ++ L " "
    /\ sp_var g' = format_fixed 1 y ++ L " "
    /\ current_sp_value g' = VFloat y
    /\ state_var g' = state_var g
    /\ sp_slider_var g' = sp_slider_var g
    /\ sp_slider_label_var g' = sp_slider_label_var g
    /\ hist_view g' = hist_view g
    /\ (forall pos value_str,
          step g' (DragSlider pos value_str) = set_sp_slider_var pos g').
Proof.
  intros Ha Hb Hr Ht Hx Hy Hround Hidle.
  assert (Hne : split_ws rest <> []).
  { unfold has_token in Ht. destruct (split_ws rest); [discriminate | discriminate]. }
  rewrite handle_device_line_reading_eq. cbv zeta.
  rewrite (strip_wire_line a b rest Hne).
  change (startswith (wire_line a b (rstrip rest)) (L "RPM:")) with true. cbv iota.
  destruct (wire_line_parts a b (rstrip rest) Ha Hb) as (p0 & p1 & Hparts & H0 & H1).
  { apply forallb_rstrip. exact Hr. }
  { apply rstrip_idem. }
  { apply split_ws_nil_rstrip. exact Hne. }
  unfold workflow_of in Hidle.
  destruct (user_adjusting_slider g) eqn:Eadj; [discriminate|].
  unfold device_line_try. rewrite Hparts.
  munfold. simpl. rewrite H0, H1. simpl. rewrite Hx, Hy. simpl.
  rewrite Eadj. simpl. rewrite Hround. simpl.
  eexists. split; [reflexivity|]. simpl.
  repeat split; reflexivity.
Qed.

(** X26.  A user move of the slider is a matter of display only: the slider
    takes the position, its label shows the value the scale handed over (or
    no value if that is no float) and the workflow is Adjusting; the RPM,
    setpoint and state readouts, the stored setpoint, the Set button, the
    history, the client objects and both queues are as they were, and nothing
    is sent. *)
Theorem X26_user_move_is_display_only g pos value_str :
  ignore_slider_change g = false ->
  let g' := step g (DragSlider pos value_str) in
  sp_slider_var g' = pos
  /\ sp_slider_label_var g' = label_of (VStr value_str)
  /\ workflow_of g' = Adjusting
  /\ (temp_var g', sp_var g', state_var g', current_sp_value g', set_button g')
     = (temp_var g, sp_var g, state_var g, current_sp_value g, set_button g)
  /\ hist_view g' = hist_view g
  /\ net_view g' = net_view g
  /\ incoming_queue g' = incoming_queue g.
Proof.
  intros Hign. cbv zeta. simpl.
  unfold run_callback, on_slider_changed, after_cancel, after, update_slider_label,
    label_of, workflow_of.
  munfold. simpl. rewrite Hign.
  destruct (float_of_str value_str); simpl;
    destruct (slider_revert_after_id g); simpl; repeat split; reflexivity.
Qed.

End Edges.

(** X18, witness: the peer has closed the stream; the user presses Set. *)
Lemma X18_unsent_setpoint_is_recorded_witness :
  exists msg,
    status_queue (snd (on_set_sp None g_peer_closed))
    = status_queue g_peer_closed ++ [msg]
    /\ msg <> L "Sent setpoint: " ++ str_of_Z (sp_slider_var g_peer_closed)
    /\ current_sp_value (snd (on_set_sp None g_peer_closed))
       = VInt (sp_slider_var g_peer_closed).
Proof.
  assert (Hcl : client g_peer_closed = Some O) by (vm_compute; reflexivity).
  assert (Hc : nth_error (heap g_peer_closed) 0
               = Some {| host := L "192.168.1.49"; port := 5000; stop_event := true;
                         sock := Some {| sock_closed := true; sock_sent := [] |};
                         sock_file := Some true; pc := Finished |})
    by (vm_compute; reflexivity).
  destruct (X18_unsent_setpoint_is_recorded g_peer_closed O _ None Hcl Hc)
    as (msg & _ & Hq & Hm & _ & Hv & _).
  { right. eexists. split; [reflexivity|]. left. reflexivity. }
  exists msg. split; [exact Hq|]. split; [exact Hm | exact Hv].
Defined.

Lemma g_waited_reachable : reachable g_waited.
Proof. unfold g_waited. apply reachable_run_events. apply g_adjusting_reachable. Qed.

Lemma g_nan_adjusting_reachable : reachable g_nan_adjusting.
Proof. unfold g_nan_adjusting. apply reachable_run_events. apply g_adjusting_reachable. Qed.

(** X19, witness: the slider was dragged to 80 before any line came. *)
Lemma X19_timeout_without_setpoint_witness :
  sp_slider_var (step g_waited (RunTimer 1)) = 80
  /\ workflow_of (step g_waited (RunTimer 1)) = Idle.
Proof.
  assert (Hp : pending g_waited 1
               = Some {| t_id := 1; t_due := 5000; t_cb := CbRevert |})
    by (vm_compute; reflexivity).
  assert (Hd : 5000 <= now g_waited) by (vm_compute; discriminate).
  assert (Hv : current_sp_value g_waited = VNone) by (vm_compute; reflexivity).
  assert (Hs : sp_slider_var g_waited = 80) by (vm_compute; reflexivity).
  destruct (X19_timeout_without_setpoint g_waited 1 _ g_waited_reachable Hp eq_refl Hd Hv)
    as (H1 & _ & H3 & _).
  split; [rewrite H1; exact Hs | exact H3].
Defined.

(** X20, witness: the device reported [nan] while the slider stood at 80. *)
Lemma X20_timeout_unroundable_setpoint_witness :
  callback_errors (step g_nan_adjusting (RunTimer 1)) = [ValueError]
  /\ ignore_slider_change (step g_nan_adjusting (RunTimer 1)) = true.
Proof.
  assert (Hp : pending g_nan_adjusting 1
               = Some {| t_id := 1; t_due := 5000; t_cb := CbRevert |})
    by (vm_compute; reflexivity).
  assert (Hd : 5000 <= now g_nan_adjusting) by (vm_compute; discriminate).
  assert (Hv : current_sp_value g_nan_adjusting = VFloat B64.NaN) by (vm_compute; reflexivity).
  assert (He : callback_errors g_nan_adjusting = []) by (vm_compute; reflexivity).
  destruct (X20_timeout_unroundable_setpoint g_nan_adjusting 1 _ B64.NaN ValueError
              g_nan_adjusting_reachable Hp eq_refl Hd Hv eq_refl)
    as (H1 & H2 & _).
  split; [rewrite H1, He; reflexivity | exact H2].
Defined.

(** X21, witness: the same line while the user is not adjusting. *)
Lemma X21_unroundable_setpoint_blocks_slider_witness :
  exists g',
    handle_device_line_reading nan_line g_connected = (Ok None, g')
    /\ ignore_slider_change g' = true
    /\ step g' (DragSlider 80 (L "80.0")) = set_sp_slider_var 80 g'.
Proof.
  destruct (@X21_unroundable_setpoint_blocks_slider _ cpython g_connected
              (L "1.0") (L "nan") (L "0")
              (B64.Fin false 4503599627370496 (-52)) B64.NaN ValueError)
    as (g' & H & Hi & _ & _ & _ & _ & _ & _ & _ & Hd);
    try (vm_compute; reflexivity).
  exists g'. split; [exact H|]. split; [exact Hi | apply Hd].
Defined.

(* ================================================================= *)
(** ** What the events leave alone *)

Section Stability.

Context {F : Type} {RT : PyRuntime F}.

Implicit Types g : CentrifugeGUI F.

Lemma lstrip_idem (s : str) : lstrip (lstrip s) = lstrip s.
Proof.
  induction s as [|c s IH]; simpl; [reflexivity|].
  destruct (isspace c) eqn:E; [exact IH|]. simpl. rewrite E. reflexivity.
Qed.

Lemma rstrip_lstrip (s : str) : rstrip (lstrip s) = lstrip (rstrip s).
Proof.
  induction s as [|c s IH]; [reflexivity|].
  simpl lstrip. rewrite (rstrip_cons c s).
  destruct (isspace c) eqn:E.
  - rewrite IH. destruct (rstrip s) as [|d r]; [reflexivity|].
    simpl. rewrite E. reflexivity.
  - rewrite (rstrip_cons c s).
    destruct (rstrip s) as [|d r]; simpl; rewrite E; reflexivity.
Qed.

Lemma strip_idem (s : str) : strip (strip s) = strip s.
Proof.
  unfold strip. rewrite rstrip_lstrip, rstrip_idem, lstrip_idem. reflexivity.
Qed.

Lemma run_callback_incoming m g :
  incoming_queue (run_callback m g) = incoming_queue (snd (m g)).
Proof. unfold run_callback. destruct (m g) as [[u|e] g']; reflexivity. Qed.

Lemma on_connect_incoming g : incoming_queue (snd (on_connect g)) = incoming_queue g.
Proof. unfold on_connect, messagebox. frame. Qed.

Lemma on_disconnect_incoming g : incoming_queue (snd (on_disconnect g)) = incoming_queue g.
Proof. unfold on_disconnect, close, with_client. frame. Qed.

Lemma on_set_sp_incoming os g : incoming_queue (snd (on_set_sp os g)) = incoming_queue g.
Proof.
  unfold on_set_sp, messagebox, after_cancel, send_setpoint, deref, sendall, status_put,
    with_client, update_slider_label.
  frame.
Qed.

Lemma on_slider_changed_incoming v g :
  incoming_queue (snd (on_slider_changed v g)) = incoming_queue g.
Proof.
  unfold on_slider_changed, after_cancel, after. munfold. simpl.
  destruct (ignore_slider_change g); simpl; [reflexivity|].
  destruct (update_slider_label_run v g) as [s E]. rewrite E. simpl.
  destruct (slider_revert_after_id g); reflexivity.
Qed.

Lemma revert_incoming g :
  incoming_queue (snd (revert_slider_to_current_sp g)) = incoming_queue g.
Proof.
  unfold revert_slider_to_current_sp. munfold. simpl.
  destruct (current_sp_value g) as [|s|n|x] eqn:Ev; simpl; try reflexivity.
  - rewrite sp_slider_var_set_ignored by reflexivity. simpl.
    try label_step_with update_slider_label_run. reflexivity.
  - destruct (round_float x) as [n|e]; simpl; [|reflexivity].
    rewrite sp_slider_var_set_ignored by reflexivity. simpl.
    try label_step_with update_slider_label_run. reflexivity.
Qed.

(** The reader thread queues a line only after trimming it, and only if
    something is left. *)
Lemma run_step_incoming i ev g :
  let g' := snd (run_step i ev g) in
  incoming_queue g' = incoming_queue g
  \/ exists raw, strip raw <> [] /\ incoming_queue g' = incoming_queue g ++ [strip raw].
Proof.
  unfold run_step, run_finally, close, deref, status_put, incoming_put, with_client.
  munfold. simpl.
  repeat (break_match_goal; simpl); try (left; reflexivity).
  right. exists raw. split; [congruence|]. f_equal. f_equal. congruence.
Qed.

Lemma step_clean g ev :
  Forall clean_line (incoming_queue g) -> Forall clean_line (incoming_queue (step g ev)).
Proof.
  intros H. destruct ev; simpl; try exact H.
  - destruct (enabled _); [|exact H].
    rewrite run_callback_incoming, on_connect_incoming. exact H.
  - destruct (enabled _); [|exact H].
    rewrite run_callback_incoming, on_disconnect_incoming. exact H.
  - destruct (enabled _); [|exact H].
    rewrite run_callback_incoming, on_set_sp_incoming. exact H.
  - rewrite run_callback_incoming, on_slider_changed_incoming. exact H.
  - destruct (find _ _) as [t|]; [|exact H].
    destruct (t_due t <=? now g); [|exact H].
    destruct (t_cb t); simpl; rewrite run_callback_incoming.
    + destruct (poll_run (set_timers (cancel_timer i (timers g)) g)) as (_ & Hq & _).
      rewrite Hq. constructor.
    + rewrite revert_incoming. exact H.
  - destruct (run_step_incoming i ev g) as [E | (raw & Hne & E)]; rewrite E; [exact H|].
    apply Forall_app. split; [exact H|].
    constructor; [|constructor]. split; [exact Hne | apply strip_idem].
Qed.

(** X22.  Every line waiting in the incoming queue, in any reachable state,
    is as the reader thread trimmed it: not empty and with no blank at either
    end, so that the [strip] of [_handle_device_line] finds nothing to
    remove. *)
Theorem X22_queued_lines_are_trimmed g :
  reachable g ->
  forall line, In line (incoming_queue g) -> line <> [] /\ strip line = line.
Proof.
  intros Hr.
  assert (H : Forall clean_line (incoming_queue g)).
  { induction Hr as [|g ev _ IH]; [|apply step_clean; exact IH].
    unfold init. munfold.
    destruct (update_slider_label_run (VInt 25) widgets0) as [s E]. rewrite E.
    destruct (poll_run (set_sp_slider_label_var s widgets0)) as (_ & Hq & _).
    rewrite Hq. constructor. }
  intros line Hin. rewrite Forall_forall in H. exact (H line Hin).
Qed.

Lemma poll_set_button_empty g :
  incoming_queue g = [] -> set_button (snd (_poll_queues g)) = set_button g.
Proof.
  intros Hq. unfold _poll_queues, after. munfold. simpl.
  destruct (drain_status_frame (length (status_queue g)) g) as (A & _).
  destruct (drain_status_run (length (status_queue g)) g (le_n _))
    as (_ & _ & _ & S4 & _ & S6).
  destruct (drain_status _ g) as [o g1]. simpl in *. subst o.
  rewrite S4, Hq. simpl. injection S6 as _ _ S6. exact S6.
Qed.

(** X23.  The Set button changes state only on a click on Connect or
    Disconnect, or when a due poll handles a device line while a client is
    held: no click on Set, slider move, revert, passing of time or step of a
    reader thread enables or disables it. *)
Theorem X23_set_button_changes g ev :
  set_button (step g ev) <> set_button g ->
  ev = ClickConnect \/ ev = ClickDisconnect
  \/ exists i t,
       ev = RunTimer i /\ pending g i = Some t /\ t_cb t = CbPoll /\ t_due t <= now g
       /\ incoming_queue g <> [] /\ client g <> None.
Proof.
  intros Hne. destruct ev; simpl in Hne;
    try (exfalso; apply Hne; reflexivity); auto.
  - exfalso. apply Hne. destruct (enabled _); [|reflexivity].
    unfold run_callback, on_set_sp, messagebox, after_cancel, send_setpoint, deref,
      sendall, status_put, with_client, update_slider_label.
    frame.
  - exfalso. apply Hne.
    pose proof (on_slider_changed_link (VStr value_str) (set_sp_slider_var pos g)) as H.
    rewrite <- run_callback_link in H. unfold link_view in H.
    injection H as _ _ _ _ H _. exact H.
  - fold (pending g i) in Hne. destruct (pending g i) as [t|] eqn:Hp;
      [|exfalso; apply Hne; reflexivity].
    destruct (t_due t <=? now g) eqn:Hdue; [|exfalso; apply Hne; reflexivity].
    apply Z.leb_le in Hdue.
    set (g0 := set_timers (cancel_timer i (timers g)) g) in *.
    destruct (t_cb t) eqn:Hcb; simpl in Hne.
    + right. right. exists i, t. repeat split; try assumption.
      * intros Hq. apply Hne.
        assert (E : set_button (run_callback _poll_queues g0)
                    = set_button (snd (_poll_queues g0))).
        { unfold run_callback. destruct (_poll_queues g0) as [[u|e] g']; reflexivity. }
        rewrite E. exact (poll_set_button_empty g0 Hq).
      * intros Hcl. apply Hne.
        assert (E : set_button (run_callback _poll_queues g0)
                    = set_button (snd (_poll_queues g0))).
        { unfold run_callback. destruct (_poll_queues g0) as [[u|e] g']; reflexivity. }
        rewrite E. destruct (poll_run g0) as (_ & _ & _ & _ & _ & _ & _ & [H|H]).
        -- exact H.
        -- contradiction.
    + exfalso. apply Hne.
      pose proof (revert_link g0) as H.
      rewrite <- run_callback_link in H. unfold link_view in H.
      injection H as _ _ _ _ H _. exact H.
  - exfalso. apply Hne. destruct (run_step_link i ev g) as (_ & H & _).
    injection H as _ _ H. exact H.
Qed.

Lemma map_update_nth {A B} (h : A -> B) (f : A -> A) (l : list A) i :
  (forall x, h (f x) = h x) -> map h (update_nth i f l) = map h l.
Proof.
  intros Hf. revert i. induction l as [|x l IH]; intros [|i]; simpl; try reflexivity.
  - rewrite Hf. reflexivity.
  - rewrite IH. reflexivity.
Qed.

Lemma run_callback_heap m g : heap (run_callback m g) = heap (snd (m g)).
Proof. unfold run_callback. destruct (m g) as [[u|e] g']; reflexivity. Qed.

(** X24.  The host and port of a client object are fixed when it is created:
    no event changes the host or port of an object, and none removes an
    object.  The only event that adds one is a click on Connect, and it adds
    one at most; editing the entries afterwards has no effect on the objects
    that exist. *)
Theorem X24_connection_config_is_fixed g ev :
  exists more,
    configs (step g ev) = configs g ++ more
    /\ (length more <= 1)%nat
    /\ (more <> [] -> ev = ClickConnect).
Proof.
  assert (Hsame : forall g', configs g' = configs g ->
            exists more, configs g' = configs g ++ more
                         /\ (length more <= 1)%nat /\ (more <> [] -> ev = ClickConnect)).
  { intros g' E. exists []. rewrite app_nil_r. split; [exact E|].
    split; [simpl; lia | intros H; contradiction]. }
  destruct ev; simpl; try (apply Hsame; reflexivity).
  - destruct (enabled _); [|apply Hsame; reflexivity].
    unfold configs. rewrite run_callback_heap.
    unfold on_connect, messagebox. munfold. simpl.
    destruct (client g); simpl; [apply Hsame; reflexivity|].
    destruct (int_of_str (strip (port_var g))) as [p|]; simpl; [|apply Hsame; reflexivity].
    eexists. rewrite map_app. split; [reflexivity|]. split; [simpl; lia | reflexivity].
  - destruct (enabled _); [|apply Hsame; reflexivity].
    apply Hsame. unfold configs. rewrite run_callback_heap.
    unfold on_disconnect, close, with_client. munfold. simpl.
    destruct (client g); simpl; [|reflexivity].
    apply map_update_nth. reflexivity.
  - destruct (enabled _); [|apply Hsame; reflexivity].
    apply Hsame. unfold configs. rewrite run_callback_heap.
    unfold on_set_sp, messagebox, after_cancel, send_setpoint, deref,
      sendall, status_put, with_client, update_slider_label.
    munfold. simpl.
    repeat (break_match_goal; simpl); rewrite ?map_update_nth by reflexivity; reflexivity.
  - apply Hsame. unfold configs. rewrite run_callback_heap.
    destruct (on_slider_changed_frame (VStr value_str) (set_sp_slider_var pos g))
      as (_ & _ & H & _).
    unfold net_view in H. injection H as _ H _ _ _. rewrite H. reflexivity.
  - destruct (find _ _) as [t|]; [|apply Hsame; reflexivity].
    destruct (t_due t <=? now g); [|apply Hsame; reflexivity].
    apply Hsame. unfold configs. rewrite run_callback_heap.
    destruct (t_cb t); simpl.
    + destruct (poll_run (set_timers (cancel_timer i (timers g)) g))
        as (_ & _ & _ & _ & H & _).
      injection H as _ H _ _. rewrite H. reflexivity.
    + destruct (revert_frame (set_timers (cancel_timer i (timers g)) g)) as (_ & H).
      unfold net_view in H. injection H as _ H _ _ _. rewrite H. reflexivity.
  - apply Hsame. unfold configs.
    unfold run_step, run_finally, close, deref, status_put, incoming_put, with_client,
      set_pc.
    munfold. simpl.
    repeat (break_match_goal; simpl); rewrite ?map_update_nth by reflexivity; reflexivity.
Qed.

Lemma update_nth_snoc {A} (f : A -> A) (l : list A) (c : A) :
  update_nth (length l) f (l ++ [c]) = l ++ [f c].
Proof. induction l as [|x l IH]; simpl; [reflexivity|]. rewrite IH. reflexivity. Qed.

Lemma last_snoc3 {A} (q : list A) (a b c d : A) : last (q ++ [a; b; c]) d = c.
Proof.
  change (q ++ [a; b; c]) with (q ++ ([a; b] ++ [c])).
  rewrite (app_assoc q [a; b] [c]). apply last_last.
Qed.

(** X25.  A connection that is refused, seen end to end.  From a reachable
    state with no client and a port entry that reads as an integer: after the
    click on Connect and the failed attempt of the reader thread, the status
    queue holds the three messages of the attempt, ["Disconnected."] last, and
    the next poll shows that one in the status bar; but the GUI still holds
    the client, Connect stays disabled and Set enabled, and a click on Set
    puts ["Not connected."] on the status queue. *)
Theorem X25_refused_connection g p msg :
  reachable g -> client g = None -> int_of_str (strip (port_var g)) = Some p ->
  let i := length (heap g) in
  let g' := run_events g [ClickConnect; Net i NetBegin; Net i (NetRefused msg)] in
  client g' = Some i
  /\ enabled (connect_button g') = false
  /\ enabled (set_button g') = true
  /\ status_queue g'
     = status_queue g
       ++ [L "Connecting to " ++ strip (host_var g) ++ L ":" ++ str_of_Z p ++ L " ...";
           L "Connection error: " ++ msg;
           L "Disconnected."]
  /\ status_var (snd (_poll_queues g')) = L "Disconnected."
  /\ (forall os,
        status_queue (step g' (ClickSet os)) = status_queue g' ++ [L "Not connected."]).
Proof.
  intros Hr Hcl Hp. cbv zeta.
  destruct (reachable_link_ok g Hr) as ([A _ _ _] & _).
  assert (Hb : enabled (connect_button g) = true) by (apply A; exact Hcl).
  assert (Hnth : forall (l : list HotplateClient) c, nth_error (l ++ [c]) (length l) = Some c).
  { intros l c. rewrite nth_error_app2 by lia. rewrite Nat.sub_diag. reflexivity. }
  unfold run_events. cbn [fold_left].
  set (g1 := step g ClickConnect).
  assert (E1 : g1 = set_set_button Normal
                      (set_disconnect_button Normal
                         (set_connect_button Disabled
                            (set_client (Some (length (heap g)))
                               (set_heap (heap g ++ [{| host := strip (host_var g); port := p;
                                                        stop_event := false; sock := None;
                                                        sock_file := None; pc := Started |}])
                                  g))))).
  { unfold g1. simpl. rewrite Hb. unfold run_callback, on_connect. munfold. simpl.
    rewrite Hcl, Hp. reflexivity. }
  clearbody g1. subst g1.
  match goal with |- context [step ?h (Net ?k NetBegin)] => set (g1 := h) end.
  set (g2 := step g1 (Net (length (heap g)) NetBegin)).
  assert (E2 : heap g2 = heap g ++ [{| host := strip (host_var g); port := p;
                                       stop_event := false; sock := None;
                                       sock_file := None; pc := Connecting |}]
               /\ status_queue g2
                  = status_queue g ++ [L "Connecting to " ++ strip (host_var g) ++ L ":"
                                       ++ str_of_Z p ++ L " ..."]
               /\ (client g2, connect_button g2, set_button g2) = (Some (length (heap g)), Disabled, Normal)).
  { unfold g2, g1. simpl. unfold run_step, deref, status_put, with_client, set_pc.
    munfold. simpl. rewrite Hnth. simpl.
    rewrite update_nth_snoc. repeat split; reflexivity. }
  clearbody g2. clear g1. destruct E2 as (Eh2 & Eq2 & Eb2).
  set (g3 := step g2 (Net (length (heap g)) (NetRefused msg))).
  assert (E3 : heap g3 = heap g ++ [{| host := strip (host_var g); port := p;
                                       stop_event := true; sock := None;
                                       sock_file := None; pc := Finished |}]
               /\ status_queue g3
                  = status_queue g ++ [L "Connecting to " ++ strip (host_var g) ++ L ":"
                                       ++ str_of_Z p ++ L " ...";
                                       L "Connection error: " ++ msg; L "Disconnected."]
               /\ (client g3, connect_button g3, set_button g3) = (Some (length (heap g)), Disabled, Normal)).
  { unfold g3. simpl. unfold run_step, run_finally, close, deref, status_put, with_client,
      set_pc.
    munfold. simpl. rewrite Eh2, Hnth. simpl. rewrite !Eh2, Eq2, <- !app_assoc. simpl.
    rewrite !update_nth_snoc. simpl.
    split; [reflexivity|]. split; [reflexivity | exact Eb2]. }
  clearbody g3. destruct E3 as (Eh3 & Eq3 & Eb3). injection Eb3 as Ec3 Ecb3 Esb3.
  split; [exact Ec3|]. split; [rewrite Ecb3; reflexivity|].
  split; [rewrite Esb3; reflexivity|]. split; [exact Eq3|]. split.
  - destruct (poll_run g3) as (_ & _ & _ & H & _). rewrite H, Eq3.
    apply last_snoc3.
  - intros os. simpl. rewrite Esb3. simpl.
    assert (E : status_queue (run_callback (on_set_sp os) g3)
                = status_queue (snd (on_set_sp os g3))).
    { unfold run_callback. destruct (on_set_sp os g3) as [[u|e] h]; reflexivity. }
    rewrite E. unfold on_set_sp, after_cancel, update_slider_label. munfold. simpl.
    rewrite Ec3. simpl.
    rewrite (send_setpoint_unopened (length (heap g)) (sp_slider_var g3) os g3 _
               ltac:(rewrite Eh3; apply Hnth) eq_refl).
    simpl. destruct (slider_revert_after_id g3); reflexivity.
Qed.

End Stability.

(** X22, witness: a line with blanks around it, queued by the reader. *)
Lemma X22_queued_lines_are_trimmed_witness :
  incoming_queue (step g_connected (Net 0 (NetLine (L "  RPM: 1 ")))) = [L "RPM: 1"]
  /\ forall line,
       In line (incoming_queue (step g_connected (Net 0 (NetLine (L "  RPM: 1 "))))) ->
       line <> [] /\ strip line = line.
Proof.
  split; [vm_compute; reflexivity|].
  apply X22_queued_lines_are_trimmed. constructor. apply g_connected_reachable.
Defined.

(** X23, witness: the click on Disconnect disables the Set button. *)
Lemma X23_set_button_changes_witness :
  ClickDisconnect = ClickConnect \/ ClickDisconnect = ClickDisconnect
  \/ exists i t,
       ClickDisconnect = RunTimer i /\ pending g_connected i = Some t /\ t_cb t = CbPoll
       /\ t_due t <= now g_connected
       /\ incoming_queue g_connected <> [] /\ client g_connected <> None.
Proof.
  assert (H1 : set_button (step g_connected ClickDisconnect) = Disabled)
    by (vm_compute; reflexivity).
  assert (H0 : set_button g_connected = Normal) by (vm_compute; reflexivity).
  apply X23_set_button_changes. rewrite H1, H0. discriminate.
Defined.

(** X25, witness: the first connection attempt of a fresh GUI is refused. *)
Lemma X25_refused_connection_witness :
  let g' := run_events init [ClickConnect; Net 0 NetBegin;
                             Net 0 (NetRefused (L "[Errno 111] Connection refused"))] in
  client g' = Some O /\ enabled (connect_button g') = false
  /\ status_var (snd (_poll_queues g')) = L "Disconnected.".
Proof.
  assert (Hc : client (init (RT := cpython)) = None) by (vm_compute; reflexivity).
  assert (Hp : int_of_str (strip (port_var (init (RT := cpython)))) = Some 5000)
    by (vm_compute; reflexivity).
  destruct (X25_refused_connection init 5000 (L "[Errno 111] Connection refused")
              (reach_init (RT := cpython)) Hc Hp) as (H1 & H2 & _ & _ & H5 & _).
  split; [exact H1|]. split; [exact H2 | exact H5].
Defined.

(** X26, witness: the drag to 80 after connecting. *)
Lemma X26_user_move_is_display_only_witness :
  sp_slider_label_var (step g_connected (DragSlider 80 (L "80.0"))) = L "SP to set: 80.0 RPM"
  /\ current_sp_value (step g_connected (DragSlider 80 (L "80.0")))
     = current_sp_value g_connected.
Proof.
  assert (Hi : ignore_slider_change g_connected = false) by (vm_compute; reflexivity).
  assert (Hl : label_of (RT := cpython) (VStr (L "80.0")) = L "SP to set: 80.0 RPM")
    by (vm_compute; reflexivity).
  destruct (X26_user_move_is_display_only g_connected 80 (L "80.0") Hi)
    as (_ & H2 & _ & H4 & _).
  split; [rewrite H2; exact Hl|].
  exact (f_equal (fun v => snd (fst v)) H4).
Defined.

(* ================================================================= *)
(** ** When the console refuses a text *)

Section ConsoleFacts.

Context {F : Type} {RT : PyRuntime F}.

Variable console : str -> option exn.

Implicit Types g : CentrifugeGUI F.

Lemma console_reading_taken line g :
  console (line ++ nl) = None ->
  Console.handle_device_line_reading console line g = handle_device_line_reading line g.
Proof.
  intros H.
  unfold Console.handle_device_line_reading, handle_device_line_reading,
    Console._append_log, _append_log.
  rewrite H. reflexivity.
Qed.

Lemma console_handler_taken line g :
  console (line ++ nl) = None ->
  Console._handle_device_line console line g = _handle_device_line line g.
Proof.
  intros H. unfold Console._handle_device_line, _handle_device_line, bind.
  rewrite (console_reading_taken line g H). reflexivity.
Qed.

Lemma console_handler_refused line g e :
  console (line ++ nl) = Some e ->
  Console._handle_device_line console line g = (Raise e, g).
Proof.
  intros H.
  unfold Console._handle_device_line, Console.handle_device_line_reading,
    Console._append_log.
  munfold. rewrite H. reflexivity.
Qed.

(** X1.  [_handle_device_line] raises only out of the echo at its first
    line, which is outside the [try] block: if the console refuses the line,
    the exception of [print] leaves the method and nothing has changed.  If
    the console takes it, the method returns normally whatever the line and
    the state; it touches neither the pending calls, the workflow, the clock,
    the client objects, the two queues, the message boxes, the status bar, the
    connection entries nor the Connect and Disconnect buttons. *)
Theorem X1_handler_raises_only_from_echo line g :
  match console (line ++ nl) with
  | Some e => Console._handle_device_line console line g = (Raise e, g)
  | None =>
      let r := Console._handle_device_line console line g in
      fst r = Ok tt
      /\ stdout (snd r) = stdout g ++ [line ++ nl]
      /\ ctl_view (snd r) = ctl_view g
      /\ net_view (snd r) = net_view g
      /\ incoming_queue (snd r) = incoming_queue g
      /\ status_var (snd r) = status_var g
      /\ host_var (snd r) = host_var g /\ port_var (snd r) = port_var g
      /\ connect_button (snd r) = connect_button g
      /\ disconnect_button (snd r) = disconnect_button g
  end.
Proof.
  destruct (console (line ++ nl)) as [e|] eqn:Ec.
  - exact (console_handler_refused line g e Ec).
  - cbv zeta. rewrite (console_handler_taken line g Ec).
    unfold _handle_device_line. munfold. rewrite handle_device_line_reading_eq. cbv zeta.
    set (g0 := set_stdout (stdout g ++ [line ++ nl]) g).
    destruct (startswith _ _); [|repeat split; reflexivity].
    pose proof (device_line_try_frame (strip line) g0) as (Hc & Hn & Hq & Hs).
    pose proof (device_line_try_frame_widgets (strip line) g0) as (H1 & H2 & H3 & H4 & H5).
    destruct (device_line_try _ _) as [[r|e] g']; simpl in *; repeat split; assumption.
Qed.

Lemma console_drain_status_taken turns g :
  Console.takes console (status_queue g) ->
  Console.drain_status console turns g = drain_status turns g.
Proof.
  revert g. induction turns as [|n IH]; intros g H; [reflexivity|].
  simpl. unfold Console._append_log, _append_log. munfold. simpl.
  destruct (status_queue g) as [|msg q] eqn:Eq; [reflexivity|].
  rewrite (H msg (or_introl eq_refl)). simpl.
  rewrite IH; [reflexivity|].
  intros m Hm. apply H. right. exact Hm.
Qed.

Lemma console_drain_incoming_taken turns g :
  Console.takes console (incoming_queue g) ->
  Console.drain_incoming console turns g = drain_incoming turns g.
Proof.
  revert g. induction turns as [|n IH]; intros g H; [reflexivity|].
  simpl. munfold. simpl.
  destruct (incoming_queue g) as [|line q] eqn:Eq; [reflexivity|].
  rewrite (console_handler_taken line _ (H line (or_introl eq_refl))).
  match goal with
  | |- context [_handle_device_line line ?h] =>
      destruct (handle_device_line_widgets line h) as (_ & Hq & _);
      destruct (_handle_device_line line h) as [o g1]
  end.
  simpl in Hq. destruct o as [u|e]; [|reflexivity].
  apply IH. rewrite Hq. intros m Hm. apply H. right. exact Hm.
Qed.

Lemma console_poll_taken g :
  Console.takes console (status_queue g ++ incoming_queue g) ->
  Console._poll_queues console g = _poll_queues g.
Proof.
  intros H. unfold Console._poll_queues, _poll_queues. munfold. simpl.
  rewrite console_drain_status_taken
    by (intros m Hm; apply H; apply in_app_iff; left; exact Hm).
  destruct (drain_status_run (length (status_queue g)) g (le_n _)) as (_ & _ & _ & S4 & _).
  destruct (drain_status _ g) as [[u|e] g1]; [|reflexivity]. simpl in S4.
  rewrite console_drain_incoming_taken; [reflexivity|].
  rewrite S4. intros m Hm. apply H. apply in_app_iff. right. exact Hm.
Qed.

(** X4.  One turn of [_poll_queues] on a console that takes the echo of every
    queued text returns normally and empties both queues: the status
    messages, then the device lines, are echoed in the order they were
    queued, the status bar ends up showing the last status message (or what it
    showed, if there was none), and the next turn is scheduled 100 ms from
    now.  The client, its object, the message boxes and the Connect and
    Disconnect buttons are not touched. *)
Theorem X4_poll_drains_queues g :
  Console.takes console (status_queue g ++ incoming_queue g) ->
  let r := Console._poll_queues console g in
  fst r = Ok tt
  /\ status_queue (snd r) = [] /\ incoming_queue (snd r) = []
  /\ stdout (snd r)
     = stdout g ++ map (fun m => m ++ nl) (status_queue g ++ incoming_queue g)
  /\ status_var (snd r) = last (status_queue g) (status_var g)
  /\ timers (snd r)
     = timers g ++ [{| t_id := next_after g; t_due := now g + 100; t_cb := CbPoll |}]
  /\ client (snd r) = client g /\ heap (snd r) = heap g /\ dialogs (snd r) = dialogs g
  /\ connect_button (snd r) = connect_button g
  /\ disconnect_button (snd r) = disconnect_button g.
Proof.
  intros Htakes. cbv zeta. rewrite (console_poll_taken g Htakes).
  destruct (poll_ctl g) as (Hok & Hctl).
  apply ctl_view_inv in Hctl as (Ht & _).
  destruct (poll_run g) as (H1 & H2 & H3 & H4 & H5 & H6 & H7 & _).
  injection H5 as Hc Hh Hd _.
  repeat split; assumption.
Qed.

Lemma console_step_taken g ev :
  (forall text, console text = None) -> Console.step console g ev = step g ev.
Proof.
  intros H. destruct ev; try reflexivity. simpl.
  destruct (find _ _) as [t|]; [|reflexivity].
  destruct (t_due t <=? now g); [|reflexivity].
  destruct (t_cb t); [|reflexivity]. simpl. unfold run_callback.
  rewrite console_poll_taken; [reflexivity|]. intros m _. apply H.
Qed.

Lemma console_init_taken : Console.init console = init (F := F).
Proof.
  unfold Console.init, init. munfold.
  destruct (update_slider_label_run (VInt 25) widgets0) as [s E]. rewrite E.
  rewrite console_poll_taken; [reflexivity|]. intros m [].
Qed.

(** X5.  On a console that takes every text, the poll loop neither dies nor
    doubles: in every reachable state exactly one call of [_poll_queues] is
    pending, due at most 100 ms from now, whatever the user, the device and
    the revert timer have done. *)
Theorem X5_one_poll_pending g :
  (forall text, console text = None) ->
  Console.reachable console g ->
  exists t, poll_timers g = [t] /\ t_due t <= now g + 100.
Proof.
  intros H Hr. apply reachable_one_poll.
  induction Hr as [|g ev _ IH].
  - rewrite console_init_taken. constructor.
  - rewrite (console_step_taken g ev H). constructor. exact IH.
Qed.

(** However the methods that print end, they leave the pending calls, the
    workflow and the record of escaped exceptions alone. *)
Lemma console_handler_frame line g :
  let r := Console._handle_device_line console line g in
  ctl_view (snd r) = ctl_view g /\ net_view (snd r) = net_view g
  /\ incoming_queue (snd r) = incoming_queue g.
Proof.
  cbv zeta. destruct (console (line ++ nl)) as [e|] eqn:Ec.
  - rewrite (console_handler_refused line g e Ec). repeat split; reflexivity.
  - rewrite (console_handler_taken line g Ec).
    destruct (handle_device_line_frame line g) as (_ & Hc & Hn).
    destruct (handle_device_line_widgets line g) as (_ & Hq & _).
    repeat split; assumption.
Qed.

Lemma console_drain_status_frame turns g :
  let r := Console.drain_status console turns g in
  ctl_view (snd r) = ctl_view g /\ callback_errors (snd r) = callback_errors g
  /\ incoming_queue (snd r) = incoming_queue g.
Proof.
  revert g. induction turns as [|n IH]; intros g; [repeat split; reflexivity|].
  simpl. unfold Console._append_log. munfold. simpl.
  destruct (status_queue g) as [|msg q] eqn:Eq; [repeat split; reflexivity|].
  destruct (console (msg ++ nl)) as [e|]; simpl; [repeat split; reflexivity|].
  match goal with
  | |- context [Console.drain_status console n ?h] => destruct (IH h) as (A & B & C)
  end.
  simpl in A, B, C. repeat split; assumption.
Qed.

Lemma console_drain_incoming_frame turns g :
  let r := Console.drain_incoming console turns g in
  ctl_view (snd r) = ctl_view g /\ callback_errors (snd r) = callback_errors g
  /\ status_queue (snd r) = status_queue g.
Proof.
  revert g. induction turns as [|n IH]; intros g; [repeat split; reflexivity|].
  simpl. munfold. simpl.
  destruct (incoming_queue g) as [|line q] eqn:Eq; [repeat split; reflexivity|].
  match goal with
  | |- context [Console._handle_device_line console line ?h] =>
      destruct (console_handler_frame line h) as (A & B & _);
      destruct (Console._handle_device_line console line h) as [o g1]
  end.
  simpl in A, B. unfold net_view in B. injection B as _ _ Bq _ Be.
  change (ctl_view (set_incoming_queue q g)) with (ctl_view g) in A.
  destruct o as [u|e]; simpl; [|repeat split; assumption].
  destruct (IH g1) as (A' & B' & C').
  repeat split; congruence.
Qed.

(** A turn of the poll loop that raises has scheduled nothing. *)
Lemma console_poll_raises g e g' :
  Console._poll_queues console g = (Raise e, g') ->
  ctl_view g' = ctl_view g /\ callback_errors g' = callback_errors g.
Proof.
  unfold Console._poll_queues, after. munfold. simpl.
  destruct (console_drain_status_frame (length (status_queue g)) g) as (A & B & _).
  destruct (Console.drain_status console _ g) as [[u|e1] g1]; simpl in A, B.
  - destruct (console_drain_incoming_frame (length (incoming_queue g1)) g1) as (A' & B' & _).
    destruct (Console.drain_incoming console _ g1) as [[u'|e2] g2]; simpl in A', B'.
    + discriminate.
    + intros H. injection H as _ <-. split; congruence.
  - intros H. injection H as _ <-. split; assumption.
Qed.

Lemma console_drain_status_refused turns g pre m post e :
  status_queue g = pre ++ m :: post ->
  Console.takes console pre -> console (m ++ nl) = Some e ->
  (length (status_queue g) <= turns)%nat ->
  exists g',
    Console.drain_status console turns g = (Raise e, g')
    /\ status_queue g' = post
    /\ incoming_queue g' = incoming_queue g
    /\ stdout g' = stdout g ++ map (fun x => x ++ nl) pre
    /\ status_var g' = last pre (status_var g).
Proof.
  revert g turns. induction pre as [|x pre IH]; intros g turns Hq Ht Hm Hlen.
  - simpl in Hq. destruct turns as [|n]; [rewrite Hq in Hlen; simpl in Hlen; lia|].
    simpl. unfold Console._append_log. munfold. simpl. rewrite Hq, Hm. simpl.
    eexists. split; [reflexivity|]. simpl. rewrite app_nil_r. repeat split; reflexivity.
  - simpl in Hq. destruct turns as [|n]; [rewrite Hq in Hlen; simpl in Hlen; lia|].
    simpl. unfold Console._append_log. munfold. simpl.
    rewrite Hq, (Ht x (or_introl eq_refl)). simpl.
    match goal with
    | |- context [Console.drain_status console n ?h] =>
        destruct (IH h n) as (g' & E & H1 & H2 & H3 & H4)
    end.
    + reflexivity.
    + intros y Hy. apply Ht. right. exact Hy.
    + exact Hm.
    + simpl. rewrite Hq in Hlen. simpl in Hlen. lia.
    + rewrite E. exists g'. split; [reflexivity|]. simpl in H2, H3, H4.
      split; [exact H1|]. split; [exact H2|].
      split; [rewrite H3, <- app_assoc; reflexivity|].
      rewrite H4. symmetry. exact (last_cons_default x (status_var g) pre).
Qed.

Lemma console_drain_incoming_refused turns g pre l post e :
  incoming_queue g = pre ++ l :: post ->
  Console.takes console pre -> console (l ++ nl) = Some e ->
  (length (incoming_queue g) <= turns)%nat ->
  exists g',
    Console.drain_incoming console turns g = (Raise e, g')
    /\ incoming_queue g' = post
    /\ status_queue g' = status_queue g.
Proof.
  revert g turns. induction pre as [|x pre IH]; intros g turns Hq Ht Hm Hlen.
  - simpl in Hq. destruct turns as [|n]; [rewrite Hq in Hlen; simpl in Hlen; lia|].
    simpl. munfold. simpl. rewrite Hq.
    rewrite (console_handler_refused l _ e Hm).
    eexists. split; [reflexivity|]. split; reflexivity.
  - simpl in Hq. destruct turns as [|n]; [rewrite Hq in Hlen; simpl in Hlen; lia|].
    simpl. munfold. simpl. rewrite Hq.
    rewrite (console_handler_taken x _ (Ht x (or_introl eq_refl))).
    match goal with
    | |- context [_handle_device_line x ?h] =>
        destruct (handle_device_line_frame x h) as (A & _ & B);
        destruct (handle_device_line_widgets x h) as (_ & C & _);
        destruct (_handle_device_line x h) as [o g1]
    end.
    simpl in A, B, C. subst o. unfold net_view in B. injection B as _ _ Bq _ _.
    destruct (IH g1 n) as (g' & E & H1 & H2).
    + exact C.
    + intros y Hy. apply Ht. right. exact Hy.
    + exact Hm.
    + rewrite C. rewrite Hq in Hlen. simpl in Hlen. lia.
    + rewrite E. exists g'. split; [reflexivity|]. split; [exact H1|]. congruence.
Qed.

(** The first text the console refuses, among the status messages and then
    the device lines, ends the turn. *)
Lemma console_poll_refused g pre m post e :
  status_queue g ++ incoming_queue g = pre ++ m :: post ->
  Console.takes console pre -> console (m ++ nl) = Some e ->
  exists g',
    Console._poll_queues console g = (Raise e, g')
    /\ status_queue g' ++ incoming_queue g' = post.
Proof.
  intros Hq Ht Hm.
  apply app_eq_app in Hq as [l [[Ha Hb] | [Ha Hb]]].
  - destruct l as [|y l].
    + simpl in Hb. rewrite app_nil_r in Ha.
      unfold Console._poll_queues. munfold. simpl.
      rewrite console_drain_status_taken by (rewrite Ha; exact Ht).
      destruct (drain_status_frame (length (status_queue g)) g) as (A & _).
      destruct (drain_status_run (length (status_queue g)) g (le_n _))
        as (S1 & _ & _ & S4 & _).
      destruct (drain_status _ g) as [o g1]. simpl in *. subst o.
      destruct (console_drain_incoming_refused (length (incoming_queue g1)) g1
                  [] m post e) as (g' & E & H1 & H2).
      * rewrite S4. symmetry. exact Hb.
      * intros y [].
      * exact Hm.
      * apply le_n.
      * rewrite E. exists g'. split; [reflexivity|]. rewrite H1, H2, S1. reflexivity.
    + injection Hb as <- Hb.
      unfold Console._poll_queues. munfold. simpl.
      destruct (console_drain_status_refused (length (status_queue g)) g pre m l e
                  Ha Ht Hm (le_n _)) as (g' & E & H1 & H2 & _).
      rewrite E. exists g'. split; [reflexivity|]. rewrite H1, H2, Hb. reflexivity.
  - unfold Console._poll_queues. munfold. simpl.
    rewrite console_drain_status_taken
      by (intros y Hy; apply Ht; rewrite Ha; apply in_app_iff; left; exact Hy).
    destruct (drain_status_frame (length (status_queue g)) g) as (A & _).
    destruct (drain_status_run (length (status_queue g)) g (le_n _))
      as (S1 & _ & _ & S4 & _).
    destruct (drain_status _ g) as [o g1]. simpl in *. subst o.
    destruct (console_drain_incoming_refused (length (incoming_queue g1)) g1
                l m post e) as (g' & E & H1 & H2).
    + rewrite S4. exact Hb.
    + intros y Hy. apply Ht. rewrite Ha. apply in_app_iff. right. exact Hy.
    + exact Hm.
    + apply le_n.
    + rewrite E. exists g'. split; [reflexivity|]. rewrite H1, H2, S1. reflexivity.
Qed.

(** X27.  A turn of [_poll_queues] ends at the first queued text whose echo
    the console refuses, a status message (line 380) or a device line (line
    405, before the [try] block): the exception of [print] leaves the method,
    the text has been taken from its queue and is lost, what was queued after
    it stays queued, and the next turn is not scheduled: the pending calls
    are as they were. *)
Theorem X27_refused_echo_ends_the_turn g pre m post e :
  status_queue g ++ incoming_queue g = pre ++ m :: post ->
  Console.takes console pre -> console (m ++ nl) = Some e ->
  exists g',
    Console._poll_queues console g = (Raise e, g')
    /\ status_queue g' ++ incoming_queue g' = post
    /\ timers g' = timers g
    /\ next_after g' = next_after g
    /\ callback_errors g' = callback_errors g.
Proof.
  intros Hq Ht Hm.
  destruct (console_poll_refused g pre m post e Hq Ht Hm) as (g' & E & Hpost).
  destruct (console_poll_raises g e g' E) as (Hctl & Herr).
  apply ctl_view_inv in Hctl as (H1 & H2 & _).
  exists g'. repeat split; assumption.
Qed.

Lemma no_poll_in g t :
  poll_timers g = [] -> In t (timers g) -> t_cb t = CbRevert.
Proof.
  intros H Hin. destruct (t_cb t) eqn:E; [|reflexivity].
  assert (Hp : In t (poll_timers g)).
  { unfold poll_timers. apply filter_In. rewrite E. tauto. }
  rewrite H in Hp. contradiction.
Qed.

Lemma no_poll_sub g g' :
  (forall t, In t (timers g') -> In t (timers g) \/ t_cb t = CbRevert) ->
  poll_timers g = [] -> poll_timers g' = [].
Proof.
  intros Hsub H. unfold poll_timers. apply filter_none. intros t Ht.
  destruct (Hsub t Ht) as [Hin | Hcb].
  - rewrite (no_poll_in g t H Hin). reflexivity.
  - rewrite Hcb. reflexivity.
Qed.

(** With no poll pending, none comes back. *)
Lemma step_no_poll g ev : poll_timers g = [] -> poll_timers (step g ev) = [].
Proof.
  intros H.
  assert (Hsame : forall g', ctl_view g' = ctl_view g -> poll_timers g' = []).
  { intros g' E. apply ctl_view_inv in E as (E & _).
    rewrite (poll_timers_ext g g' E). exact H. }
  destruct ev; simpl.
  - apply Hsame. reflexivity.
  - apply Hsame. reflexivity.
  - destruct (enabled _); [|exact H].
    apply Hsame. rewrite run_callback_ctl. apply on_connect_frame.
  - destruct (enabled _); [|exact H].
    apply Hsame. rewrite run_callback_ctl. apply on_disconnect_frame.
  - destruct (enabled _); [|exact H].
    pose proof (on_set_sp_ctl os g) as E. rewrite <- run_callback_ctl in E.
    destruct (client g); [|apply Hsame; exact E].
    apply ctl_view_inv in E as (E & _).
    apply (no_poll_sub g); [|exact H]. intros t Ht. rewrite E in Ht.
    left. exact (in_after_cancel g t Ht).
  - set (g0 := set_sp_slider_var pos g).
    destruct (ignore_slider_change g0) eqn:Ei.
    + unfold run_callback. rewrite on_slider_changed_ignored by exact Ei.
      apply Hsame. reflexivity.
    + pose proof (on_slider_changed_ctl (VStr value_str) g0 Ei) as E.
      rewrite <- run_callback_ctl in E.
      apply ctl_view_inv in E as (E & _).
      apply (no_poll_sub g); [|exact H]. intros t Ht. rewrite E in Ht.
      apply in_app_iff in Ht as [Ht | [<- | []]].
      * left. exact (in_after_cancel g0 t Ht).
      * right. reflexivity.
  - exact H.
  - destruct (find _ _) as [t|] eqn:Ef; [|exact H].
    destruct (t_due t <=? now g); [|exact H].
    apply find_some in Ef as [Hin _].
    rewrite (no_poll_in g t H Hin). simpl.
    pose proof (revert_ctl (set_timers (cancel_timer i (timers g)) g)) as E.
    rewrite <- run_callback_ctl in E.
    apply ctl_view_inv in E as (E & _).
    apply (no_poll_sub g); [|exact H]. intros u Hu. rewrite E in Hu. simpl in Hu.
    apply in_cancel_timer in Hu. left. tauto.
  - apply Hsame. apply run_step_frame.
Qed.

Lemma console_step_no_poll g ev :
  poll_timers g = [] -> Console.step console g ev = step g ev.
Proof.
  intros H. destruct ev; try reflexivity. simpl.
  destruct (find _ _) as [t|] eqn:Ef; [|reflexivity].
  destruct (t_due t <=? now g); [|reflexivity].
  apply find_some in Ef as [Hin _].
  rewrite (no_poll_in g t H Hin). reflexivity.
Qed.

Lemma console_run_no_poll evs g :
  poll_timers g = [] -> poll_timers (Console.run_events console g evs) = [].
Proof.
  revert g. induction evs as [|ev evs IH]; intros g H; [exact H|].
  simpl. apply IH. rewrite (console_step_no_poll g ev H). apply step_no_poll. exact H.
Qed.

(** X28.  The poll loop does not survive a refused echo.  In a state reached
    while the console took what was printed, the due poll runs and the
    console refuses the echo of a queued text: the exception of [print]
    reaches the toolkit, no call of [_poll_queues] is pending afterwards, and
    none is ever pending again, whatever happens next: the queues are not
    read any more. *)
Theorem X28_refused_echo_stops_polling g i t pre m post e evs :
  reachable g ->
  pending g i = Some t -> t_cb t = CbPoll -> t_due t <= now g ->
  status_queue g ++ incoming_queue g = pre ++ m :: post ->
  Console.takes console pre -> console (m ++ nl) = Some e ->
  let g' := Console.step console g (RunTimer i) in
  callback_errors g' = callback_errors g ++ [e]
  /\ status_queue g' ++ incoming_queue g' = post
  /\ poll_timers g' = []
  /\ poll_timers (Console.run_events console g' evs) = [].
Proof.
  intros Hr Hp Hcb Hdue Hq Ht Hm. cbv zeta.
  pose proof (reachable_wf g Hr) as Hwf.
  destruct (reachable_one_poll g Hr) as (t0 & Hone & _).
  set (g0 := set_timers (cancel_timer i (timers g)) g).
  destruct (console_poll_refused g0 pre m post e Hq Ht Hm) as (g1 & E & Hpost).
  destruct (console_poll_raises g0 e g1 E) as (Hctl & Herr).
  apply ctl_view_inv in Hctl as (Htim & _).
  assert (Estep : Console.step console g (RunTimer i)
                  = set_callback_errors (callback_errors g1 ++ [e]) g1).
  { simpl. fold (pending g i). rewrite Hp, Hcb.
    apply Z.leb_le in Hdue. rewrite Hdue. simpl.
    unfold run_callback. fold g0. rewrite E. reflexivity. }
  rewrite Estep.
  assert (Hnone : poll_timers (set_callback_errors (callback_errors g1 ++ [e]) g1) = []).
  { unfold poll_timers. simpl. rewrite Htim. simpl.
    apply filter_none. intros x Hx. apply in_cancel_timer in Hx as [Hx Hne].
    destruct (t_cb x) eqn:Ex; [|reflexivity]. exfalso.
    assert (Hin : In x (poll_timers g)).
    { unfold poll_timers. apply filter_In. rewrite Ex. tauto. }
    assert (Hin' : In t (poll_timers g)).
    { apply pending_in in Hp as [Hu _]. unfold poll_timers. apply filter_In.
      rewrite Hcb. tauto. }
    rewrite Hone in Hin, Hin'. destruct Hin as [<-|[]]. destruct Hin' as [<-|[]].
    apply pending_in in Hp as [_ Hid]. contradiction. }
  split; [simpl; rewrite Herr; reflexivity|].
  split; [exact Hpost|].
  split; [exact Hnone|].
  apply console_run_no_poll. exact Hnone.
Qed.

End ConsoleFacts.

(** X4, witness: the messages and the line waiting in [g_late_line], on a
    console that takes ASCII only. *)
Lemma X4_poll_drains_queues_witness :
  Console.takes ascii_console (status_queue g_late_line ++ incoming_queue g_late_line)
  /\ incoming_queue g_late_line = [demo_line]
  /\ incoming_queue (snd (Console._poll_queues ascii_console g_late_line)) = []
  /\ status_queue (snd (Console._poll_queues ascii_console g_late_line)) = [].
Proof.
  assert (Hq : status_queue g_late_line ++ incoming_queue g_late_line
               = [L "Connecting to 192.168.1.49:5000 ..."; L "Connected."; demo_line])
    by (vm_compute; reflexivity).
  assert (Ht : Console.takes ascii_console
                 (status_queue g_late_line ++ incoming_queue g_late_line)).
  { rewrite Hq. intros m [<-|[<-|[<-|[]]]]; vm_compute; reflexivity. }
  split; [exact Ht|].
  split; [vm_compute; reflexivity|].
  destruct (X4_poll_drains_queues ascii_console g_late_line Ht) as (_ & H1 & H2 & _).
  split; [exact H2 | exact H1].
Defined.

(** X5, witness: a console that takes everything, after the first poll. *)
Lemma X5_one_poll_pending_witness :
  exists t,
    poll_timers (Console.run_events (fun _ => None) (Console.init (RT := cpython) (fun _ => None))
                   [Elapse 100; RunTimer 0]) = [t]
    /\ t_due t <= now (Console.run_events (fun _ => None)
                         (Console.init (RT := cpython) (fun _ => None))
                         [Elapse 100; RunTimer 0]) + 100.
Proof.
  apply (X5_one_poll_pending (fun _ => None)); [reflexivity|].
  change (Console.reachable (fun _ => None)
            (Console.step (fun _ => None)
               (Console.step (fun _ => None)
                  (Console.init (RT := cpython) (fun _ => None)) (Elapse 100))
               (RunTimer 0))).
  constructor. constructor. constructor.
Defined.

(** X27, witness: the device sends a degree sign to a console that takes
    ASCII only; the two status messages of the connection are echoed first. *)
Lemma X27_refused_echo_ends_the_turn_witness :
  exists g',
    Console._poll_queues ascii_console g_degree = (Raise ValueError, g')
    /\ status_queue g' ++ incoming_queue g' = []
    /\ timers g' = timers g_degree.
Proof.
  assert (Hq : status_queue g_degree ++ incoming_queue g_degree
               = [L "Connecting to 192.168.1.49:5000 ..."; L "Connected."]
                 ++ degree_line :: [])
    by (vm_compute; reflexivity).
  destruct (X27_refused_echo_ends_the_turn ascii_console g_degree _ _ _ ValueError Hq)
    as (g' & E & H1 & H2 & _).
  { intros m [<-|[<-|[]]]; vm_compute; reflexivity. }
  { vm_compute. reflexivity. }
  exists g'. split; [exact E|]. split; [exact H1 | exact H2].
Defined.

Lemma g_degree_reachable : reachable g_degree.
Proof. unfold g_degree. apply reachable_run_events. apply g_connected_reachable. Qed.

(** X28, witness: the same, as the main loop runs it; the user then
    disconnects and a minute passes. *)
Lemma X28_refused_echo_stops_polling_witness :
  let g' := Console.step ascii_console g_degree (RunTimer 0) in
  callback_errors g' = [ValueError]
  /\ poll_timers g' = []
  /\ poll_timers (Console.run_events ascii_console g' [ClickDisconnect; Elapse 60000]) = [].
Proof.
  assert (Hq : status_queue g_degree ++ incoming_queue g_degree
               = [L "Connecting to 192.168.1.49:5000 ..."; L "Connected."]
                 ++ degree_line :: [])
    by (vm_compute; reflexivity).
  assert (Hp : pending g_degree 0 = Some {| t_id := 0; t_due := 100; t_cb := CbPoll |})
    by (vm_compute; reflexivity).
  assert (Hd : 100 <= now g_degree) by (vm_compute; discriminate).
  assert (He : callback_errors g_degree = []) by (vm_compute; reflexivity).
  destruct (X28_refused_echo_stops_polling ascii_console g_degree 0 _ _ _ _ ValueError
              [ClickDisconnect; Elapse 60000] g_degree_reachable Hp eq_refl Hd Hq)
    as (H1 & _ & H3 & H4).
  { intros m [<-|[<-|[]]]; vm_compute; reflexivity. }
  { vm_compute. reflexivity. }
  cbv zeta. rewrite He in H1. split; [exact H1|]. split; [exact H3 | exact H4].
Defined.

(* ================================================================= *)
(** ** The read loop, between the test and the put *)

Section ReadLoop.

Context {F : Type} {RT : PyRuntime F}.

Implicit Types g : CentrifugeGUI F.

(** A turn of the loop that nothing interrupts is the turn of [run_step]. *)
Lemma loop_turn_uninterrupted i raw g c :
  nth_error (heap g) i = Some c -> pc c = Reading ->
  run_loop i [LoopLine raw; LoopPut] None g = (None, snd (run_step i (NetLine raw) g)).
Proof.
  intros Hc Hpc.
  unfold run_loop, loop_next, loop_step, run_step, run_finally, close, deref, status_put,
    incoming_put, with_client, set_pc.
  munfold. simpl. rewrite Hc, Hpc.
  destruct (stop_event c); simpl.
  - rewrite !nth_error_update_nth, !Nat.eqb_refl, Hc. reflexivity.
  - rewrite Hc, Hpc. destruct (strip raw); reflexivity.
Qed.

(** One event of the loop of a stopped client: the thread takes up no line,
    and the queue grows by the line held, if at all. *)
Lemma loop_next_stopped i ev held g c :
  nth_error (heap g) i = Some c -> stop_event c = true ->
  let s := loop_next i (held, g) ev in
  (exists c', nth_error (heap (snd s)) i = Some c' /\ stop_event c' = true)
  /\ ((fst s = held /\ incoming_queue (snd s) = incoming_queue g)
      \/ (fst s = None
          /\ (incoming_queue (snd s) = incoming_queue g
              \/ exists raw, held = Some raw /\ strip raw <> []
                             /\ incoming_queue (snd s) = incoming_queue g ++ [strip raw]))).
Proof.
  intros Hc Hs.
  unfold loop_next, loop_step, run_finally, close, deref, status_put, incoming_put,
    with_client, set_pc.
  munfold. simpl. rewrite Hc.
  destruct (pc c), ev as [raw|], held as [h|]; simpl; rewrite ?Hs; simpl;
    try (split; [exists c; split; assumption | left; split; reflexivity]).
  - rewrite !nth_error_update_nth, !Nat.eqb_refl, Hc. simpl.
    split; [eexists; split; reflexivity|].
    left. split; reflexivity.
  - destruct (strip h) eqn:Eh; simpl;
      (split; [exists c; split; assumption|]); right; (split; [reflexivity|]).
    + left. reflexivity.
    + right. exists h. rewrite Eh. repeat split. discriminate.
Qed.

(** X13.  Once the stop flag of a client object is set, its read loop puts
    at most one more line on the incoming queue, and only the one it had
    already read and tested the flag for when the flag was set: whatever the
    device still sends, the thread takes up no new line, and the queue ends up
    as it was or longer by that one line, trimmed. *)
Theorem X13_stopped_reader_queues_at_most_held_line i evs held g c :
  nth_error (heap g) i = Some c -> stop_event c = true ->
  let s := run_loop i evs held g in
  (fst s = None \/ fst s = held)
  /\ (incoming_queue (snd s) = incoming_queue g
      \/ exists raw, held = Some raw /\ strip raw <> [] /\ fst s = None
                     /\ incoming_queue (snd s) = incoming_queue g ++ [strip raw]).
Proof.
  unfold run_loop. revert held g c.
  induction evs as [|ev evs IH]; intros held g c Hc Hs; cbv zeta.
  - simpl. split; [right; reflexivity | left; reflexivity].
  - cbn [fold_left].
    destruct (loop_next_stopped i ev held g c Hc Hs) as ((c' & Hc' & Hs') & Hcase).
    destruct (loop_next i (held, g) ev) as [h1 g1]. simpl in Hc', Hcase.
    specialize (IH h1 g1 c' Hc' Hs'). cbv zeta in IH. destruct IH as (IH1 & IH2).
    destruct Hcase as [(-> & Hq) | (-> & Hq)].
    + split; [exact IH1|]. rewrite <- Hq. exact IH2.
    + assert (Hnone : fst (fold_left (loop_next i) evs (None, g1)) = None)
        by (destruct IH1; assumption).
      assert (Hsame : incoming_queue (snd (fold_left (loop_next i) evs (None, g1)))
                      = incoming_queue g1).
      { destruct IH2 as [E | (raw & Habs & _)]; [exact E | discriminate]. }
      split; [left; exact Hnone|].
      rewrite Hsame.
      destruct Hq as [Hq | (raw & Hh & Hne & Hq)].
      * left. exact Hq.
      * right. exists raw. repeat split; assumption.
Qed.

End ReadLoop.

(** X13, witness: the thread of [g_connected] has read a line and found the
    flag clear; the user disconnects; the thread goes on, and the device sends
    more. *)
Lemma X13_stopped_reader_queues_at_most_held_line_witness :
  loop_next 0 (None, g_connected) (LoopLine demo_line) = (Some demo_line, g_connected)
  /\ client (step g_connected ClickDisconnect) = None
  /\ incoming_queue (step g_connected ClickDisconnect) = []
  /\ incoming_queue
       (snd (run_loop 0 [LoopPut; LoopLine demo_line; LoopPut] (Some demo_line)
               (step g_connected ClickDisconnect)))
     = [demo_line].
Proof.
  assert (H1 : loop_next 0 (None, g_connected) (LoopLine demo_line)
               = (Some demo_line, g_connected)) by (vm_compute; reflexivity).
  assert (H2 : client (step g_connected ClickDisconnect) = None) by (vm_compute; reflexivity).
  assert (H3 : incoming_queue (step g_connected ClickDisconnect) = [])
    by (vm_compute; reflexivity).
  assert (Hc : nth_error (heap (step g_connected ClickDisconnect)) 0
               = Some {| host := L "192.168.1.49"; port := 5000; stop_event := true;
                         sock := Some {| sock_closed := true; sock_sent := [] |};
                         sock_file := Some true; pc := Reading |})
    by (vm_compute; reflexivity).
  assert (Hlen : length (incoming_queue
                   (snd (run_loop 0 [LoopPut; LoopLine demo_line; LoopPut] (Some demo_line)
                           (step g_connected ClickDisconnect)))) = 1%nat)
    by (vm_compute; reflexivity).
  split; [exact H1|]. split; [exact H2|]. split; [exact H3|].
  destruct (X13_stopped_reader_queues_at_most_held_line 0
              [LoopPut; LoopLine demo_line; LoopPut] (Some demo_line)
              (step g_connected ClickDisconnect) _ Hc eq_refl)
    as (_ & [E | (raw & Hraw & _ & _ & E)]).
  - rewrite E, H3 in Hlen. discriminate Hlen.
  - rewrite E, H3. injection Hraw as <-. vm_compute. reflexivity.
Defined.
